(** * gPodder extension runtime: a shallow embedding of [gpodder/extensions.py]

    The development follows the layout of the Python module: the dispatch
    decorator [call_extensions], the classes [ExtensionMetadata],
    [ExtensionContainer] and [ExtensionManager].  Python text is modelled as
    [string] whose characters are the code points below 256; dictionaries
    that keep insertion order are association lists with in-place update;
    logging and calls into extension code are recorded, in program order, in
    a trace of events that every effectful function threads through. *)

From Stdlib Require Import Bool List Arith Lia NArith.
From Stdlib Require Import Ascii String.
From Stdlib Require Import Sorting.Sorted Sorting.Permutation.
Import ListNotations.

Set Warnings "-register-all".

Local Open Scope string_scope.
Local Open Scope list_scope.

(* ================================================================= *)
(** ** Python text helpers *)

Module PyStr.

(** Truthiness of a [str]: the empty string is falsy. *)
Definition truthy (s : string) : bool :=
  match s with EmptyString => false | String _ _ => true end.

(** [sep in s] for a one-character [sep]. *)
Fixpoint mem (sep : ascii) (s : string) : bool :=
  match s with
  | EmptyString => false
  | String c r => Ascii.eqb c sep || mem sep r
  end.

(** [s[s.rfind(sep)+1:]]: what follows the last [sep], the whole of [s]
    when [sep] does not occur. *)
Fixpoint after_last (sep : ascii) (s : string) : string :=
  match s with
  | EmptyString => EmptyString
  | String c r =>
      if mem sep r then after_last sep r
      else if Ascii.eqb c sep then r else s
  end.

(** [s[:s.rfind(sep)]] when [sep] occurs in [s], the whole of [s]
    otherwise. *)
Fixpoint before_last (sep : ascii) (s : string) : string :=
  match s with
  | EmptyString => EmptyString
  | String c r =>
      if mem sep r then String c (before_last sep r)
      else if Ascii.eqb c sep then EmptyString else s
  end.

(** [s[:s.rfind(sep)+1]]: everything up to and including the last [sep]. *)
Fixpoint upto_last (sep : ascii) (s : string) : string :=
  match s with
  | EmptyString => EmptyString
  | String c r =>
      if mem sep r then String c (upto_last sep r)
      else if Ascii.eqb c sep then String c EmptyString else EmptyString
  end.

Fixpoint all_chars (p : ascii -> bool) (s : string) : bool :=
  match s with
  | EmptyString => true
  | String c r => p c && all_chars p r
  end.

(** [str.isspace] on one character, for the code points below 256. *)
Definition isspace (c : ascii) : bool :=
  let n := N_of_ascii c in
  ((9 <=? n) && (n <=? 13) || (28 <=? n) && (n <=? 32)
   || (n =? 133) || (n =? 160))%N.

Fixpoint lstrip (s : string) : string :=
  match s with
  | EmptyString => EmptyString
  | String c r => if isspace c then lstrip r else s
  end.

(** Removes trailing whitespace: a character is kept when something
    survives to its right or when it is not whitespace itself. *)
Fixpoint rstrip (s : string) : string :=
  match s with
  | EmptyString => EmptyString
  | String c r =>
      match rstrip r with
      | EmptyString => if isspace c then EmptyString else String c EmptyString
      | r' => String c r'
      end
  end.

(** [str.strip()] with no argument. *)
Definition strip (s : string) : string := rstrip (lstrip s).

(** [str.lower] on one character, for the code points below 256:
    A-Z and the Latin-1 capitals (0xC0-0xDE without the multiplication
    sign 0xD7) move up by 32. *)
Definition lower_char (c : ascii) : ascii :=
  let n := N_of_ascii c in
  if ((65 <=? n) && (n <=? 90)
      || (192 <=? n) && (n <=? 222) && negb (n =? 215))%N
  then ascii_of_N (n + 32) else c.

Fixpoint lower (s : string) : string :=
  match s with
  | EmptyString => EmptyString
  | String c r => String (lower_char c) (lower r)
  end.

(** [s.split(sep)] for a one-character separator; always at least one
    piece. *)
Fixpoint split (sep : ascii) (s : string) : list string :=
  match s with
  | EmptyString => [EmptyString]
  | String c r =>
      if Ascii.eqb c sep then EmptyString :: split sep r
      else match split sep r with
           | [] => [String c EmptyString]
           | p :: ps => String c p :: ps
           end
  end.

(** [', '.join(l)] and friends. *)
Definition join (sep : string) (l : list string) : string :=
  String.concat sep l.

Fixpoint prefixb (p s : string) : bool :=
  match p, s with
  | EmptyString, _ => true
  | String a p', String b s' => Ascii.eqb a b && prefixb p' s'
  | String _ _, EmptyString => false
  end.

Fixpoint drop (n : nat) (s : string) : string :=
  match n, s with
  | O, _ => s
  | S n', String _ r => drop n' r
  | S _, EmptyString => EmptyString
  end.

(** [s.replace(old, new)] for a non-empty [old], scanning left to right;
    [fuel] bounds the scan by the length of [s]. *)
Fixpoint replace_fuel (fuel : nat) (old new s : string) : string :=
  match fuel with
  | O => s
  | S fuel' =>
      match s with
      | EmptyString => EmptyString
      | String c r =>
          if prefixb old s
          then new ++ replace_fuel fuel' old new (drop (String.length old) s)
          else String c (replace_fuel fuel' old new r)
      end
  end.

Definition replace (old new s : string) : string :=
  replace_fuel (String.length s) old new s.

(** [fmt % {key: value}] for a format whose only directive is
    ["%(key)s"]. *)
Definition format1 (fmt key value : string) : string :=
  replace ("%(" ++ key ++ ")s") value fmt.

Definition isdigit09 (c : ascii) : bool :=
  let n := N_of_ascii c in ((48 <=? n) && (n <=? 57))%N.

(** The longest prefix of characters satisfying [p], and what follows
    it. *)
Fixpoint span (p : ascii -> bool) (s : string) : string * string :=
  match s with
  | EmptyString => (EmptyString, EmptyString)
  | String c r =>
      if p c then let (run, rest) := span p r in (String c run, rest)
      else (EmptyString, s)
  end.

(** [s[len(p):]] when [s] starts with [p]. *)
Fixpoint strip_prefix (p s : string) : option string :=
  match p, s with
  | EmptyString, _ => Some s
  | String a p', String b s' =>
      if Ascii.eqb a b then strip_prefix p' s' else None
  | String _ _, EmptyString => None
  end.

(** [s[:-2]] when [s] ends with two underscores. *)
Fixpoint strip_dunder_suffix (s : string) : option string :=
  match s with
  | EmptyString => None
  | String c r =>
      match strip_dunder_suffix r with
      | Some r' => Some (String c r')
      | None => if String.eqb s "__" then Some EmptyString else None
      end
  end.

(** [s.split()] with no argument: the maximal runs of characters that
    are not whitespace.  [current] is the run being read. *)
Fixpoint words_from (current : string) (s : string) : list string :=
  match s with
  | EmptyString => if truthy current then [current] else []
  | String c r =>
      if isspace c then
        if truthy current then current :: words_from EmptyString r
        else words_from EmptyString r
      else words_from (current ++ String c EmptyString) r
  end.

Definition split_whitespace (s : string) : list string :=
  words_from EmptyString s.

(** [s.strip(chars)]: leading and trailing characters that occur in
    [chars] are removed. *)
Fixpoint lstrip_chars (chars s : string) : string :=
  match s with
  | EmptyString => EmptyString
  | String c r => if mem c chars then lstrip_chars chars r else s
  end.

Fixpoint rstrip_chars (chars s : string) : string :=
  match s with
  | EmptyString => EmptyString
  | String c r =>
      match rstrip_chars chars r with
      | EmptyString => if mem c chars then EmptyString else String c EmptyString
      | r' => String c r'
      end
  end.

Definition strip_chars (chars s : string) : string :=
  rstrip_chars chars (lstrip_chars chars s).

(** [str.upper] on one character, for the code points below 256: a-z and
    the Latin-1 small letters 0xE0-0xFE (without the division sign 0xF7)
    move down by 32.  The capitals of the micro sign, the sharp s and the
    y with diaeresis lie outside the range: for them there is no
    result. *)
Definition upper_char (c : ascii) : option ascii :=
  let n := N_of_ascii c in
  if ((97 <=? n) && (n <=? 122)
      || (224 <=? n) && (n <=? 254) && negb (n =? 247))%N
  then Some (ascii_of_N (n - 32))
  else if ((n =? 181) || (n =? 223) || (n =? 255))%N then None
  else Some c.

Fixpoint upper (s : string) : option string :=
  match s with
  | EmptyString => Some EmptyString
  | String c r =>
      match upper_char c, upper r with
      | Some u, Some r' => Some (String u r')
      | _, _ => None
      end
  end.

End PyStr.

(* ================================================================= *)
(** ** Insertion-ordered dictionaries with string keys *)

Module PyDict.
Section Dict.
Context {V : Type}.

Definition t := list (string * V).

(** [d.get(k)] *)
Fixpoint get (k : string) (d : t) : option V :=
  match d with
  | [] => None
  | (k', v) :: r => if String.eqb k k' then Some v else get k r
  end.

(** [k in d] *)
Definition contains (k : string) (d : t) : bool :=
  match get k d with Some _ => true | None => false end.

(** [d[k] = v]: an existing key keeps its position, a new key goes
    last. *)
Fixpoint set (k : string) (v : V) (d : t) : t :=
  match d with
  | [] => [(k, v)]
  | (k', v') :: r =>
      if String.eqb k k' then (k, v) :: r else (k', v') :: set k v r
  end.

(** [d.get(k, default)] *)
Definition get_default (k : string) (default : V) (d : t) : V :=
  match get k d with Some v => v | None => default end.

Definition keys (d : t) : list string := map fst d.
End Dict.
Arguments t : clear implicits.
End PyDict.


(* ================================================================= *)
(** ** Python values, exceptions and the event trace *)

(** The values an extension hook hands back to the dispatcher. *)
Inductive PyVal : Type :=
| PyNone
| PyBool (b : bool)
| PyStr (s : string)
| PyCallable (ident : string)
| PyTuple (items : list PyVal)
| PyList (items : list PyVal).

(** [isinstance(v, list)] *)
Definition is_list (v : PyVal) : bool :=
  match v with PyList _ => true | _ => false end.

(** [v is not None] *)
Definition is_not_none (v : PyVal) : bool :=
  match v with PyNone => false | _ => true end.

(** Exceptions derived from [Exception].  [ImportError] stands for the
    class and its subclasses and carries its [name] attribute; the three
    dependency classes are those declared in the module, each with
    [message], [dependency] and [cause]. *)
Inductive PyExc : Type :=
| ImportError (name : option string) (msg : string)
| AttributeError (msg : string)
| OtherException (cls : string) (msg : string)
| MissingDependency (message dependency : string) (cause : option PyExc)
| MissingModule (message dependency : string) (cause : option PyExc)
| MissingCommand (message dependency : string) (cause : option PyExc).

(** [isinstance(e, ImportError)] *)
Definition is_ImportError (e : PyExc) : bool :=
  match e with ImportError _ _ => true | _ => false end.

(** [isinstance(e, MissingModule)] and [isinstance(e, MissingCommand)]:
    both classes derive from [MissingDependency] and from nothing else. *)
Definition is_MissingModule (e : PyExc) : bool :=
  match e with MissingModule _ _ _ => true | _ => false end.

Definition is_MissingCommand (e : PyExc) : bool :=
  match e with MissingCommand _ _ _ => true | _ => false end.

Definition is_MissingDependency (e : PyExc) : bool :=
  match e with
  | MissingDependency _ _ _ | MissingModule _ _ _ | MissingCommand _ _ _ => true
  | _ => false
  end.

(** The [dependency] attribute of a dependency error. *)
Definition dependency_of (e : PyExc) : option string :=
  match e with
  | MissingDependency _ d _ | MissingModule _ d _ | MissingCommand _ d _ => Some d
  | _ => None
  end.

(** A computation that either returns or raises. *)
Inductive Result (A : Type) : Type :=
| Ok (a : A)
| Raise (e : PyExc).
Arguments Ok {A} a.
Arguments Raise {A} e.

(** What calling a method of an extension instance does. *)
Inductive Outcome : Type :=
| Returns (v : PyVal)
| Raises (e : PyExc).

(** An instance of an extension's [gPodderExtension] class: the methods
    it defines, each with what a call to it does. *)
Record Extension : Type := mkExtension {
  methods : PyDict.t Outcome
}.

(** [getattr(module, name, None)] on a loaded instance, and
    [hasattr(module, name)] where [module] may be [None]. *)
Definition getattr_method (m : Extension) (name : string) : option Outcome :=
  PyDict.get name (methods m).

Definition hasattr_module (m : option Extension) (name : string) : bool :=
  match m with
  | Some inst => PyDict.contains name (methods inst)
  | None => false
  end.

(** The code unit obtained by executing an extension file: its optional
    [DefaultConfig] and its optional [gPodderExtension] class, given by
    what instantiating it does. *)
Record ModuleFile : Type := mkModuleFile {
  DefaultConfig : option (PyDict.t PyVal);
  gPodderExtension : option (Result Extension)
}.

Inductive LogLevel : Type := INFO | DEBUG | WARNING | ERROR.

Inductive LogArg : Type :=
| ArgStr (s : string)
| ArgNone
| ArgExc (e : PyExc).

(** Observable effects, in program order. *)
Inductive Event : Type :=
| Log (level : LogLevel) (fmt : string) (args : list LogArg)
| Call (container_name : string) (method : string)
| ExecModule (basename filename : string)
| DeleteFile (path : string)
| RegisterDefaults (name : string) (defaults : PyDict.t PyVal)
| Instantiate (container_name : string).

Definition Trace := list Event.

(* ================================================================= *)
(** ** The host: what the module uses of [gpodder], [importlib], [os]
       and [glob] *)

Class Host : Type := {
  (** [gpodder.gettext] *)
  gettext : string -> string;
  (** [getattr(gpodder.ui, name)] as [any] sees it: [Some b] when the UI
      context has the attribute, [b] being its truth value, and [None]
      for a name it does not have. *)
  ui : string -> option bool;
  (** Executing the file at a path with [SourceFileLoader.exec_module]. *)
  exec_module : string -> Result ModuleFile;
  (** [os.path.exists] *)
  path_exists : string -> bool;
  (** [glob.glob] of the built-in and of the user extension directory. *)
  glob_builtins : list string;
  glob_user_extensions : list string
}.

(* ================================================================= *)
(** ** ExtensionMetadata *)

(** What reading an attribute of a metadata object gives, as far as
    [check_ui] can tell: a string, [None], or an object of another type,
    given by the name of that type. *)
Inductive Attr : Type :=
| Text (s : string)
| NoneValue
| Instance (type_name : string).

Module ExtensionMetadata.
Section WithHost.
Context `{host : Host}.

Definition CATEGORY_DICT : PyDict.t string :=
  [ ("desktop-integration", gettext "Desktop Integration");
    ("interface", gettext "Interface");
    ("post-download", gettext "Post download") ].

Definition DEFAULT_CATEGORY : string := gettext "Other".

(** Default fallback metadata in case metadata fields are missing. *)
Definition DEFAULTS : PyDict.t Attr :=
  [ ("description", Text (gettext "No description for this extension."));
    ("doc", NoneValue);
    ("payment", NoneValue) ].

Definition SORTKEYS : PyDict.t nat :=
  [ ("title", 1); ("description", 2); ("category", 3); ("authors", 4);
    ("only_for", 5); ("mandatory_in", 6); ("disable_in", 7) ].

(** The properties of the class.  A property is a data descriptor: it is
    found before the instance dictionary. *)
Definition PROPERTIES : list string :=
  [ "available_for_current_ui"; "mandatory_in_current_ui";
    "disable_in_current_ui" ].

Definition is_property (name : string) : bool :=
  existsb (String.eqb name) PROPERTIES.

(** The other names the class body binds, found after the instance
    dictionary and before [__getattr__] is tried. *)
Definition METHODS_AND_TABLES : PyDict.t Attr :=
  [ ("get_sorted", Instance "method"); ("check_ui", Instance "method");
    ("DEFAULTS", Instance "dict"); ("SORTKEYS", Instance "dict") ].

(** Names that begin with two underscores reach what every object
    inherits and the bookkeeping entries of the class; that part of the
    lookup is not modelled, and the statements about [check_ui] leave
    such names out. *)
Definition is_dunder (name : string) : bool := PyStr.prefixb "__" name.

(** The names for which the class itself answers. *)
Definition class_level (name : string) : bool :=
  is_dunder name || is_property name
  || PyDict.contains name METHODS_AND_TABLES
  || PyDict.contains name DEFAULTS.

(** A metadata object is its instance dictionary; the values are the
    strings the metadata scan of the file produced. *)
Record t : Type := mk { dict : PyDict.t string }.

(** [ExtensionMetadata(container, metadata)], with the container's name
    for the container. *)
Definition init (container_name : string) (metadata : PyDict.t string) : t :=
  let metadata :=
    if negb (PyDict.contains "title" metadata)
    then PyDict.set "title" container_name metadata
    else metadata in
  let category := PyDict.get_default "category" "other" metadata in
  let metadata :=
    PyDict.set "category"
      (PyDict.get_default category DEFAULT_CATEGORY CATEGORY_DICT) metadata in
  mk metadata.

(** Attribute lookup on a metadata object: a property of the class, then
    the instance dictionary, then the other names of the class body, then
    [__getattr__], which reads [DEFAULTS] and raises [AttributeError] for
    other names.  [None] stands for the [AttributeError].  The value of a
    property is a [bool]. *)
Definition getattr (self : t) (name : string) : option Attr :=
  if is_property name then Some (Instance "bool")
  else
    match PyDict.get name (dict self) with
    | Some v => Some (Text v)
    | None =>
        match PyDict.get name METHODS_AND_TABLES with
        | Some v => Some v
        | None => PyDict.get name DEFAULTS
        end
    end.

Definition hasattr (self : t) (name : string) : bool :=
  match getattr self name with Some _ => true | None => false end.

(** The list [uis] of [check_ui]: split on commas, strip, keep the
    non-empty pieces. *)
Definition ui_tokens (value : string) : list string :=
  filter PyStr.truthy (map PyStr.strip (PyStr.split "," value)).

(** [getattr(gpodder.ui, ui.lower(), False)], as [any] tests it. *)
Definition ui_flag_set (token : string) : bool :=
  match ui (PyStr.lower token) with
  | Some b => b
  | None => false
  end.

Definition check_ui (self : t) (target : string) (default : bool)
  : Result bool :=
  if negb (hasattr self target) then Ok default
  else
    match getattr self target with
    | Some (Text value) => Ok (existsb ui_flag_set (ui_tokens value))
    | Some (Instance type_name) =>
        Raise (AttributeError
                 ("'" ++ type_name ++ "' object has no attribute 'split'"))
    | _ => Raise (AttributeError "'NoneType' object has no attribute 'split'")
    end.

(** [get_sorted()]: the declared fields, stably sorted by [SORTKEYS] with
    99 for the names it does not list. *)
Definition kf (x : string * string) : nat :=
  PyDict.get_default (fst x) 99 SORTKEYS.

Fixpoint insert_by_key (x : string * string) (l : list (string * string))
  : list (string * string) :=
  match l with
  | [] => [x]
  | y :: r => if Nat.leb (kf x) (kf y) then x :: l else y :: insert_by_key x r
  end.

Definition get_sorted (self : t) : list (string * string) :=
  fold_right insert_by_key [] (dict self).

(** The three properties, on a metadata object whose lookup of
    [check_ui] finds the method of the class; [read_property] below has
    the lookup. *)
Definition available_for_current_ui (self : t) : Result bool :=
  check_ui self "only_for" true.

Definition mandatory_in_current_ui (self : t) : Result bool :=
  check_ui self "mandatory_in" false.

Definition disable_in_current_ui (self : t) : Result bool :=
  check_ui self "disable_in" false.

(** Reading one of the three properties above on any metadata object.
    The getter calls [self.check_ui(...)], and the lookup of [check_ui]
    finds the instance dictionary before the method of the class: a file
    that declares a field named check_ui puts a string there, and calling
    the string raises [TypeError].  The properties above give the value
    when the lookup finds the method. *)
Definition read_property (property : t -> Result bool) (self : t)
  : Result bool :=
  match getattr self "check_ui" with
  | Some (Instance _) => property self
  | _ => Raise (OtherException "TypeError" "'str' object is not callable")
  end.

End WithHost.
End ExtensionMetadata.

(* ================================================================= *)
(** ** The two [os.path] functions the module uses (POSIX flavour) *)

Module OsPath.

(** [os.path.basename(p)]: what follows the last slash. *)
Definition basename (p : string) : string := PyStr.after_last "/" p.

(** First component of [os.path.splitext(p)].  The extension starts at the
    last dot of the last path component, provided a character other than
    a dot precedes it in that component; without such a dot the root is
    the whole path. *)
Definition splitext_root (p : string) : string :=
  let component := PyStr.after_last "/" p in
  if PyStr.mem "." component then
    let root := PyStr.before_last "." component in
    if PyStr.all_chars (fun c => Ascii.eqb c ".") root then p
    else PyStr.upto_last "/" p ++ root
  else p.

End OsPath.

(* ================================================================= *)
(** ** The system: what the module uses of [gpodder.util], [os.environ]
       and the files it reads *)

Class System : Type := {
  (** [util.find_command]: the path of an executable, [None] when it is
      not installed. *)
  find_command : string -> option string;
  (** [os.environ.get(name)] *)
  environ : string -> option string;
  (** The text of an existing file, read with the encoding
      [util.guess_encoding] finds. *)
  read_text : string -> string
}.

(** Reading a file can fail.  [_load_metadata] reads an existing file
    with [util.guess_encoding], [open] and [read], outside any [try]: for
    a file that cannot be opened or decoded, the exception raised leaves
    [_load_metadata] and the constructor of the container.
    [read_failure path] is that exception; it is [None] for a file that
    reads as [read_text path]. *)
Class Files : Type := {
  read_failure : string -> option PyExc
}.

(* ================================================================= *)
(** ** The two patterns of the metadata scan *)

Module Re.

(** The class [[a-z_]]. *)
Definition is_key_char (c : ascii) : bool :=
  let n := N_of_ascii c in
  ((97 <=? n) && (n <=? 122))%N || Ascii.eqb c "_".

(** The class [[^']]. *)
Definition is_value_char (c : ascii) : bool := negb (Ascii.eqb c "'").

(** A match of [__([a-z_]+)__ = OPENER([^']+)CLOSER] starting at the
    first character of [s], for a closer that starts with a quote: the
    two groups and the text after the match.  The greedy run of key
    characters has to end with the two underscores that precede the
    space, and the greedy run of value characters ends at the quote that
    starts the closer, so neither group has a second way to match. *)
Definition match_here (opener closer : string) (s : string)
  : option (string * string * string) :=
  match PyStr.strip_prefix "__" s with
  | None => None
  | Some s1 =>
      let (run, s2) := PyStr.span is_key_char s1 in
      match PyStr.strip_dunder_suffix run with
      | None => None
      | Some key =>
          if negb (PyStr.truthy key) then None
          else
            match PyStr.strip_prefix (" = " ++ opener) s2 with
            | None => None
            | Some s3 =>
                let (value, s4) := PyStr.span is_value_char s3 in
                if negb (PyStr.truthy value) then None
                else
                  match PyStr.strip_prefix closer s4 with
                  | None => None
                  | Some rest => Some (key, value, rest)
                  end
            end
      end
  end.

(** [re.findall] for such a pattern: the matches from left to right,
    each search starting where the previous match ended.  [skip] counts
    the characters of the current match still to be passed over. *)
Fixpoint findall_from (opener closer : string) (skip : nat) (s : string)
  : list (string * string) :=
  match s with
  | EmptyString => []
  | String _ r =>
      match skip with
      | S k => findall_from opener closer k r
      | O =>
          match match_here opener closer s with
          | Some (key, value, rest) =>
              (key, value)
              :: findall_from opener closer
                   (String.length r - String.length rest) r
          | None => findall_from opener closer 0 r
          end
      end
  end.

(** [re.findall(r"__([a-z_]+)__ = '([^']+)'", text)] *)
Definition findall_literal (text : string) : list (string * string) :=
  findall_from "'" "'" 0 text.

(** [re.findall(r"__([a-z_]+)__ = _\('([^']+)'\)", text)] *)
Definition findall_localized (text : string) : list (string * string) :=
  findall_from "_('" "')" 0 text.

End Re.

(* ================================================================= *)
(** ** ExtensionContainer *)

Module ExtensionContainer.

(** An extension container wraps one extension module.  The [manager]
    back-reference and the [config] handle into the host configuration
    are opaque to everything below and are left out. *)
Record t : Type := mk {
  name : string;
  filename : string;
  module : option Extension;
  enabled : bool;
  error : option PyExc;
  default_config : option (PyDict.t PyVal);
  metadata : ExtensionMetadata.t
}.

Definition with_module (m : option Extension) (c : t) : t :=
  mk (name c) (filename c) m (enabled c) (error c) (default_config c)
     (metadata c).

Definition with_enabled (b : bool) (c : t) : t :=
  mk (name c) (filename c) (module c) b (error c) (default_config c)
     (metadata c).

Definition with_error (e : option PyExc) (c : t) : t :=
  mk (name c) (filename c) (module c) (enabled c) e (default_config c)
     (metadata c).

Definition with_default_config (d : option (PyDict.t PyVal)) (c : t) : t :=
  mk (name c) (filename c) (module c) (enabled c) (error c) d (metadata c).

Definition dq : string := String (ascii_of_nat 34) EmptyString.

Section WithHost.
Context `{host : Host}.

(** [ExtensionContainer(manager, name, config, filename, module)], where
    [scanned] is the mapping [_load_metadata(filename)] returns. *)
Definition init (name filename : string) (module : option Extension)
  (scanned : PyDict.t string) : t :=
  mk name filename module false None None
     (ExtensionMetadata.init name scanned).

(** Load and initialize the gPodder extension module.  The third
    component is the exception the call raises, if any; the container
    keeps the assignments made before the raise. *)
Definition load_extension (self : t) (tr : Trace)
  : t * Trace * option PyExc :=
  match module self with
  | Some _ => (self, tr ++ [Log INFO "Module already loaded." []], None)
  | None =>
      match ExtensionMetadata.available_for_current_ui (metadata self) with
      | Raise e => (self, tr, Some e)
      | Ok false =>
          match ExtensionMetadata.getattr (metadata self) "only_for" with
          | None => (self, tr, Some (AttributeError "only_for"))
          | Some v =>
              (self,
               tr ++ [Log INFO
                        ("Not loading " ++ dq ++ "%s" ++ dq
                         ++ " (only_for = " ++ dq ++ "%s" ++ dq ++ ")")
                        [ArgStr (name self);
                         match v with Text s => ArgStr s | _ => ArgNone end]],
               None)
          end
      | Ok true =>
          let basename :=
            OsPath.splitext_root (OsPath.basename (filename self)) in
          let tr := tr ++ [ExecModule basename (filename self)] in
          let executed := exec_module (filename self) in
          (* finally: remove the .pyc file if the import created one *)
          let tr := tr ++ [DeleteFile (filename self ++ "c")] in
          match executed with
          | Raise e => (self, tr, Some e)
          | Ok module_file =>
              let default_config :=
                match DefaultConfig module_file with
                | Some d => d
                | None => []
                end in
              let self := with_default_config (Some default_config) self in
              let tr :=
                match default_config with
                | [] => tr
                | _ :: _ => tr ++ [RegisterDefaults (name self) default_config]
                end in
              match gPodderExtension module_file with
              | None => (self, tr, Some (AttributeError "gPodderExtension"))
              | Some instantiated =>
                  let tr := tr ++ [Instantiate (name self)] in
                  match instantiated with
                  | Raise e => (self, tr, Some e)
                  | Ok instance =>
                      (with_module (Some instance) self,
                       tr ++ [Log INFO "Module loaded: %s"
                                [ArgStr (filename self)]],
                       None)
                  end
              end
          end
      end
  end.

(** A method call on the loaded instance inside a [try]: the call is
    recorded, and the exception it raises, if any, is returned. *)
Definition call_method (self : t) (method : string) (tr : Trace)
  : Trace * option PyExc :=
  if hasattr_module (module self) method then
    let tr := tr ++ [Call (name self) method] in
    match module self with
    | Some instance =>
        match getattr_method instance method with
        | Some (Raises e) => (tr, Some e)
        | _ => (tr, None)
        end
    | None => (tr, None)
    end
  else (tr, None).

(** The body of the [try] of the enabling branch of [set_enabled]. *)
Definition try_enable (self : t) (tr : Trace) : t * Trace * option PyExc :=
  match load_extension self tr with
  | (self, tr, Some e) => (self, tr, Some e)
  | (self, tr, None) =>
      let self := with_error None self in
      let self := with_enabled true self in
      let (tr, raised) := call_method self "on_load" tr in
      (self, tr, raised)
  end.

(** The rewrapping of the [except] clause of the enabling branch. *)
Definition wrap_import_error (exception : PyExc) : PyExc :=
  if is_ImportError exception then
    match exception with
    | ImportError (Some module) _ =>
        if PyStr.truthy module then
          let msg :=
            PyStr.format1 (gettext "Python module not found: %(module)s")
              "module" module in
          MissingCommand msg module (Some exception)
        else exception
    | _ => exception
    end
  else exception.

Definition set_enabled (self : t) (enabled_arg : bool) (tr : Trace)
  : t * Trace :=
  if enabled_arg && negb (enabled self) then
    match try_enable self tr with
    | (self, tr, None) => (self, tr)
    | (self, tr, Some exception) =>
        let tr :=
          tr ++ [Log ERROR "Cannot load %s from %s: %s"
                   [ArgStr (name self); ArgStr (filename self);
                    ArgExc exception]] in
        let exception := wrap_import_error exception in
        let self := with_error (Some exception) self in
        let self := with_enabled false self in
        (self, tr)
    end
  else if negb enabled_arg && enabled self then
    let (tr, raised) := call_method self "on_unload" tr in
    let tr :=
      match raised with
      | Some exception =>
          tr ++ [Log ERROR "Failed to on_unload %s: %s"
                   [ArgStr (name self); ArgExc exception]]
      | None => tr
      end in
    (with_enabled false self, tr)
  else (self, tr).

End WithHost.
Section WithSystem.
Context `{host : Host} `{system : System}.

(** Check if the given command is installed on the system; returns the
    complete path of the command. *)
Definition require_command (command : string) : Result string :=
  match find_command command with
  | None =>
      let msg :=
        PyStr.format1 (gettext "Command not found: %(command)s")
          "command" command in
      Raise (MissingCommand msg command None)
  | Some result => Ok result
  end.

(** The [for] loop of [require_any_command]: the path of the first
    command that is found. *)
Fixpoint first_found (command_list : list string) : option string :=
  match command_list with
  | [] => None
  | command :: rest =>
      match find_command command with
      | Some result => Some result
      | None => first_found rest
      end
  end.

(** Check if any of the given commands is installed on the system;
    returns the complete path of the first found command in the list. *)
Definition require_any_command (command_list : list string)
  : Result string :=
  match first_found command_list with
  | Some result => Ok result
  | None =>
      let msg :=
        PyStr.format1
          (gettext
             "Need at least one of the following commands: %(list_of_commands)s")
          "list_of_commands" (PyStr.join ", " command_list) in
      Raise (MissingCommand msg (PyStr.join ", " command_list) None)
  end.

(** [dict(pairs)]: later pairs replace earlier ones with the same key. *)
Definition dict_of (pairs : list (string * string)) : PyDict.t string :=
  fold_left (fun d kv => PyDict.set (fst kv) (snd kv) d) pairs [].

(** The loop [for key in localized_metadata] of [_load_metadata]. *)
Definition merge_localized (localized metadata : PyDict.t string)
  : PyDict.t string :=
  fold_left (fun d kv => PyDict.set (fst kv) (gettext (snd kv)) d)
    localized metadata.

(** [_load_metadata(filename)] for a file that reads as
    [read_text filename]; [read_metadata] below has the failures of
    reading. *)
Definition _load_metadata (filename : string) : PyDict.t string :=
  if negb (PyStr.truthy filename) || negb (path_exists filename) then []
  else
    let extension_py := read_text filename in
    let metadata := dict_of (Re.findall_literal extension_py) in
    (* Support for using gpodder.gettext() as _ to localize text *)
    let localized_metadata := dict_of (Re.findall_localized extension_py) in
    merge_localized localized_metadata metadata.

End WithSystem.
Section WithFiles.
Context `{host : Host} `{system : System} `{files : Files}.

(** [_load_metadata(filename)] on any file: nothing is read for an empty
    or missing filename; an existing file that cannot be read raises; a
    file that can be read gives the mapping above. *)
Definition read_metadata (filename : string) : Result (PyDict.t string) :=
  if negb (PyStr.truthy filename) || negb (path_exists filename) then Ok []
  else
    match read_failure filename with
    | Some exception => Raise exception
    | None => Ok (_load_metadata filename)
    end.

(** [ExtensionContainer(manager, name, config, filename)], as the manager
    builds containers. *)
Definition create (name filename : string) : Result t :=
  match read_metadata filename with
  | Ok metadata => Ok (init name filename None metadata)
  | Raise exception => Raise exception
  end.

End WithFiles.
End ExtensionContainer.

(* ================================================================= *)
(** ** ExtensionManager *)

(** Sequencing of computations that may raise. *)
Definition bind {A B : Type} (r : Result A) (k : A -> Result B) : Result B :=
  match r with
  | Ok a => k a
  | Raise e => Raise e
  end.

Notation "x <- r ;; k" := (bind r (fun x => k))
  (at level 61, r at next level, right associativity).
Notation "' p <- r ;; k" := (bind r (fun x => match x with p => k end))
  (at level 61, p pattern, r at next level, right associativity).

Module ExtensionManager.

(** Loads extensions and manages self-registering plugins.
    [enabled_extensions] is the persisted list behind
    [core.config.extensions.enabled]. *)
Record t : Type := mk {
  filenames : list string;
  containers : list ExtensionContainer.t;
  enabled_extensions : list string
}.

(** Skips a maximal run of the digits 0-9. *)
Fixpoint drop_digits (s : string) : string :=
  match s with
  | EmptyString => EmptyString
  | String c r => if PyStr.isdigit09 c then drop_digits r else s
  end.

(** The substitution of the pattern [^[0-9]*_] by the empty string: the
    greedy run of digits has to be followed by an underscore, and the
    anchor allows one match only. *)
Definition strip_ordering_prefix (name : string) : string :=
  match drop_digits name with
  | String c r => if Ascii.eqb c "_" then r else name
  | EmptyString => name
  end.

(** The name [_find_extensions] derives from a filename. *)
Definition extension_name (filename : string) : string :=
  strip_ordering_prefix (OsPath.splitext_root (OsPath.basename filename)).

(** [name in new_value] for a list of names. *)
Definition name_in (name : string) (l : list string) : bool :=
  existsb (String.eqb name) l.

(** [sorted(items, key=lambda i: i[1])]: a stable sort on the filename,
    strings compared by code points. *)
Fixpoint insert_by_filename (x : string * string) (l : list (string * string))
  : list (string * string) :=
  match l with
  | [] => [x]
  | y :: r =>
      if String.leb (snd x) (snd y) then x :: l
      else y :: insert_by_filename x r
  end.

Definition sorted_by_filename (items : list (string * string))
  : list (string * string) :=
  fold_right insert_by_filename [] items.

Section WithHost.
Context `{host : Host}.

(** A filename the discovery loop does not skip. *)
Definition usable (filename : string) : bool :=
  PyStr.truthy filename && path_exists filename.

(** The [for filename in self.filenames] loop of [_find_extensions]. *)
Fixpoint scan_filenames (fs : list string) (extensions : PyDict.t string)
  (tr : Trace) : PyDict.t string * Trace :=
  match fs with
  | [] => (extensions, tr)
  | filename :: rest =>
      if negb (PyStr.truthy filename) || negb (path_exists filename) then
        scan_filenames rest extensions
          (tr ++ [Log INFO "Skipping non-existing file: %s" [ArgStr filename]])
      else
        scan_filenames rest
          (PyDict.set (extension_name filename) filename extensions) tr
  end.

(** The list [self.filenames] holds after the first statement of
    [_find_extensions]. *)
Definition candidate_filenames (self : t) : list string :=
  match filenames self with
  | [] => glob_builtins ++ glob_user_extensions
  | _ :: _ => filenames self
  end.

Definition _find_extensions (self : t) (tr : Trace)
  : list (string * string) * t * Trace :=
  let self :=
    mk (candidate_filenames self) (containers self) (enabled_extensions self) in
  let (extensions, tr) := scan_filenames (filenames self) [] tr in
  (sorted_by_filename extensions, self, tr).

(** The loop of [_config_value_changed] over the containers, threading
    the persisted enabled list and the trace. *)
Fixpoint observe_containers (cs : list ExtensionContainer.t)
  (new_value : list string) (persisted : list string) (tr : Trace)
  : Result (list ExtensionContainer.t * list string * Trace) :=
  match cs with
  | [] => Ok ([], persisted, tr)
  | container :: rest =>
      let new_enabled := name_in (ExtensionContainer.name container) new_value in
      if Bool.eqb new_enabled (ExtensionContainer.enabled container) then
        '(rest', persisted', tr') <-
          observe_containers rest new_value persisted tr ;;
        Ok (container :: rest', persisted', tr')
      else
        forced <-
          (if negb new_enabled
           then ExtensionMetadata.mandatory_in_current_ui
                  (ExtensionContainer.metadata container)
           else Ok false) ;;
        if negb new_enabled && forced then
          (* forced extensions are never listed in extensions.enabled *)
          '(rest', persisted', tr') <-
            observe_containers rest new_value persisted tr ;;
          Ok (container :: rest', persisted', tr')
        else
          let tr :=
            tr ++ [Log INFO ("Extension " ++ ExtensionContainer.dq ++ "%s"
                             ++ ExtensionContainer.dq ++ " is now %s")
                     [ArgStr (ExtensionContainer.name container);
                      ArgStr (if new_enabled then "enabled" else "disabled")]] in
          let (container, tr) :=
            ExtensionContainer.set_enabled container new_enabled tr in
          let (persisted, tr) :=
            if new_enabled && negb (ExtensionContainer.enabled container) then
              (filter
                 (fun x =>
                    negb (String.eqb x (ExtensionContainer.name container)))
                 persisted,
               tr ++ [Log WARNING "Could not enable extension: %s"
                        [match ExtensionContainer.error container with
                         | Some e => ArgExc e
                         | None => ArgNone
                         end]])
            else (persisted, tr) in
          '(rest', persisted', tr') <-
            observe_containers rest new_value persisted tr ;;
          Ok (container :: rest', persisted', tr')
  end.

(** The observer registered on the configuration.  The configuration
    layer's own notification of the assignment to
    [core.config.extensions.enabled] is not part of this module. *)
Definition _config_value_changed (self : t) (name : string)
  (old_value new_value : list string) (tr : Trace) : Result (t * Trace) :=
  if negb (String.eqb name "extensions.enabled") then Ok (self, tr)
  else
    '(cs, persisted, tr) <-
      observe_containers (containers self) new_value
        (enabled_extensions self) tr ;;
    Ok (mk (filenames self) cs persisted, tr).

Fixpoint shutdown_containers (cs : list ExtensionContainer.t) (tr : Trace)
  : list ExtensionContainer.t * Trace :=
  match cs with
  | [] => ([], tr)
  | container :: rest =>
      let (container, tr) := ExtensionContainer.set_enabled container false tr in
      let (rest, tr) := shutdown_containers rest tr in
      (container :: rest, tr)
  end.

Definition shutdown (self : t) (tr : Trace) : t * Trace :=
  let (cs, tr) := shutdown_containers (containers self) tr in
  (mk (filenames self) cs (enabled_extensions self), tr).

End WithHost.
Section WithSystem.
Context `{host : Host} `{system : System} `{files : Files}.

(** [os.environ.get(name, '')] *)
Definition environ_get (name : string) : string :=
  match environ name with
  | Some value => value
  | None => EmptyString
  end.

(** The body of the [for name, filename] loop of [__init__].  The two
    property reads stand outside any [try]: what they raise leaves the
    loop and the constructor. *)
Definition build_container (enabled_extensions : list string)
  (name filename : string) (tr : Trace)
  : Result (ExtensionContainer.t * Trace) :=
  let tr :=
    tr ++ [Log DEBUG
             ("Found extension " ++ ExtensionContainer.dq ++ "%s"
              ++ ExtensionContainer.dq ++ " in %s")
             [ArgStr name; ArgStr filename]] in
  container <- ExtensionContainer.create name filename ;;
  let listed := name_in name enabled_extensions in
  wanted <-
    (if listed then Ok true
     else ExtensionMetadata.read_property
            ExtensionMetadata.mandatory_in_current_ui
            (ExtensionContainer.metadata container)) ;;
  let (container, tr) :=
    if wanted then ExtensionContainer.set_enabled container true tr
    else (container, tr) in
  unwanted <-
    (if listed
     then ExtensionMetadata.read_property
            ExtensionMetadata.disable_in_current_ui
            (ExtensionContainer.metadata container)
     else Ok false) ;;
  let (container, tr) :=
    if unwanted then ExtensionContainer.set_enabled container false tr
    else (container, tr) in
  Ok (container, tr).

Fixpoint build_containers (enabled_extensions : list string)
  (found : list (string * string)) (tr : Trace)
  : Result (list ExtensionContainer.t * Trace) :=
  match found with
  | [] => Ok ([], tr)
  | (name, filename) :: rest =>
      '(container, tr) <-
        build_container enabled_extensions name filename tr ;;
      '(containers, tr) <- build_containers enabled_extensions rest tr ;;
      Ok (container :: containers, tr)
  end.

(** [ExtensionManager(core)], where [enabled_extensions] is the list
    [core.config.extensions.enabled] holds.  Registering the observer
    with the configuration leaves no mark here.  An exception raised
    while a container is built leaves the constructor. *)
Definition __init__ (enabled_extensions : list string) (tr : Trace)
  : Result (t * Trace) :=
  let self :=
    mk (PyStr.split_whitespace (environ_get "GPODDER_EXTENSIONS")) []
       enabled_extensions in
  if negb (String.eqb (environ_get "GPODDER_DISABLE_EXTENSIONS") "") then
    Ok (self,
        tr ++ [Log INFO "Disabling all extensions (from environment)" []])
  else
    match _find_extensions self tr with
    | (found, self, tr) =>
        '(cs, tr) <- build_containers enabled_extensions found tr ;;
        Ok (mk (filenames self) cs enabled_extensions, tr)
    end.

(** The filter of [get_extensions], its three tests in order. *)
Definition user_toggleable (c : ExtensionContainer.t) : Result bool :=
  available <-
    ExtensionMetadata.available_for_current_ui (ExtensionContainer.metadata c) ;;
  if negb available then Ok false
  else
    mandatory <-
      ExtensionMetadata.mandatory_in_current_ui
        (ExtensionContainer.metadata c) ;;
    if mandatory then Ok false
    else
      disabled <-
        ExtensionMetadata.disable_in_current_ui
          (ExtensionContainer.metadata c) ;;
      Ok (negb disabled).

Fixpoint select_toggleable (cs : list ExtensionContainer.t)
  : Result (list ExtensionContainer.t) :=
  match cs with
  | [] => Ok []
  | c :: rest =>
      keep <- user_toggleable c ;;
      selected <- select_toggleable rest ;;
      Ok (if keep then c :: selected else selected)
  end.

(** Get a list of all loaded extensions and their enabled flag. *)
Definition get_extensions (self : t) : Result (list ExtensionContainer.t) :=
  select_toggleable (containers self).

End WithSystem.
End ExtensionManager.

(* ================================================================= *)
(** ** The dispatch decorator *)

Section CallExtensions.

(** The two aggregation branches of the handler: lists are extended,
    any other value that is not [None] replaces the result. *)
Definition aggregate (result cb_res : PyVal) : PyVal :=
  if is_list result && is_list cb_res then
    match result, cb_res with
    | PyList items, PyList more => PyList (items ++ more)
    | _, _ => result
    end
  else if is_not_none cb_res then cb_res
  else result.

(** One iteration of [for container in self.containers]. *)
Definition dispatch_one (method_name : string) (st : PyVal * Trace)
  (container : ExtensionContainer.t) : PyVal * Trace :=
  let (result, tr) := st in
  match ExtensionContainer.enabled container, ExtensionContainer.module container with
  | true, Some instance =>
      match getattr_method instance method_name with
      | None => (result, tr)
      | Some callback =>
          let tr := tr ++ [Call (ExtensionContainer.name container) method_name] in
          match callback with
          | Returns cb_res => (aggregate result cb_res, tr)
          | Raises exception =>
              (result,
               tr ++ [Log ERROR "Error in %s in %s: %s"
                        [ArgStr (ExtensionContainer.filename container);
                         ArgStr method_name; ArgExc exception]])
          end
      end
  | _, _ => (result, tr)
  end.

(** [call_extensions(func)], with [func.__name__] passed along: the
    handler visits the containers, then runs the decorated body [func]
    for its effects and returns the aggregate. *)
(** The events one iteration appends. *)
Definition dispatch_events (method_name : string)
  (container : ExtensionContainer.t) : Trace :=
  snd (dispatch_one method_name (PyNone, []) container).

(** The whole [for] loop, from a given aggregate and trace. *)
Definition visit_containers (method_name : string)
  (cs : list ExtensionContainer.t) (st : PyVal * Trace) : PyVal * Trace :=
  fold_left (dispatch_one method_name) cs st.

Definition call_extensions (method_name : string) (func : Trace -> Trace)
  (self : ExtensionManager.t) (tr : Trace) : PyVal * Trace :=
  let (result, tr) :=
    visit_containers method_name (ExtensionManager.containers self)
      (PyNone, tr) in
  (result, func tr).

(** The decorated handlers of [ExtensionManager] have a docstring for a
    body. *)
Definition docstring_only : Trace -> Trace := fun tr => tr.

Definition on_create_menu := call_extensions "on_create_menu" docstring_only.
Definition on_preferences := call_extensions "on_preferences" docstring_only.
Definition on_episode_synced := call_extensions "on_episode_synced" docstring_only.

End CallExtensions.

(* ================================================================= *)
(** ** The cover-art extension: [rockbox_coverart.py] *)

From Stdlib Require Import ZArith.

Module RockboxCoverart.

(** The extension's configuration, with the fields of [DefaultConfig]. *)
Record Config : Type := mkConfig {
  art_name_on_device : string;
  convert_and_resize_art : bool;
  convert_size : Z;
  convert_allow_upscale_art : bool
}.

Definition DefaultConfig : Config :=
  mkConfig "cover.jpg" true 500 false.

(** What the extension reads of an opened image: its height, its format
    and the entry [progressive] of its [info], if there is one. *)
Record Image : Type := mkImage {
  height : Z;
  format : string;
  progressive : option Z
}.

(** The file the cover art goes to, as the extension finds it. *)
Inductive DeviceArt : Type :=
| NoFile
| Unreadable
| Readable (img : Image).

Section WithConfig.
Variable config : Config.

(** [art_name_on_device.split(".")[-1]], before the check of the type. *)
Definition raw_filetype : string :=
  last (PyStr.split "." (art_name_on_device config)) EmptyString.

(** [art_name_on_device.strip(".%s" % device_filetype)] *)
Definition device_filename : string :=
  PyStr.strip_chars ("." ++ raw_filetype) (art_name_on_device config).

(** Only jpeg, jpg and png are allowed; anything else defaults to jpg. *)
Definition device_filetype : string :=
  let lowered := PyStr.lower raw_filetype in
  if negb (String.eqb lowered "jpeg") && negb (String.eqb lowered "jpg")
     && negb (String.eqb lowered "png")
  then "jpg" else raw_filetype.

(** The type to compare an image's format with: "jpg" will not match
    "jpeg".  There is no result when the capital form of the type lies
    outside the characters of the model. *)
Definition device_match_filetype : option string :=
  match PyStr.upper device_filetype with
  | Some upper =>
      if String.eqb upper "JPG" then Some "JPEG" else Some upper
  | None => None
  end.

(** ["%s.%s" % (device_filename, device_filetype)]: the name of the file
    written when art is converted. *)
Definition device_art_name : string :=
  device_filename ++ "." ++ device_filetype.

(** The check of an existing file on the device: does it have to be
    written again?  A format whose capital form lies outside the model's
    characters differs from every type the model can hold. *)
Definition check_existing (img : Image) : bool :=
  let copyflag :=
    if negb (Z.eqb (height img) (convert_size config))
       && convert_allow_upscale_art config then true
    else if Z.gtb (height img) (convert_size config)
            && negb (convert_allow_upscale_art config) then true
    else
      match PyStr.upper (format img), device_match_filetype with
      | Some upper, Some wanted => negb (String.eqb upper wanted)
      | _, _ => true
      end in
  match progressive img with
  | Some 1%Z => true
  | _ => copyflag
  end.

(** What one synchronisation finds on disk: whether the source image is a
    file, whether the lock on the device file could be taken, and the
    device file. *)
Record Situation : Type := mkSituation {
  source_is_file : bool;
  lock_acquired : bool;
  existing : DeviceArt
}.

(** Does this synchronisation write the device file?  With
    [convert_and_resize_art] set, the source has to be a file, the lock
    has to be held and [copyflag] has to be set: it is set when there is
    no device file, stays unset when the device file cannot be opened, and
    follows the check of the image otherwise.  Without it (the original
    functionality) the source is copied when it is a file and the device
    file does not exist. *)
Definition writes_device_art (found : Situation) : bool :=
  if convert_and_resize_art config then
    if source_is_file found then
      if lock_acquired found then
        let copyflag :=
          match existing found with
          | NoFile => true
          | Unreadable => false
          | Readable img => check_existing img
          end in
        copyflag
      else false
    else false
  else
    source_is_file found
    && match existing found with
       | NoFile => true
       | Unreadable | Readable _ => false
       end.

(** The height of the image written for a source image of height [h].
    With [convert_and_resize_art] set it is resized to the configured size
    or copied as it is; without it the source file is copied unchanged. *)
Definition written_height (h : Z) : Z :=
  if convert_and_resize_art config then
    if Z.gtb h (convert_size config) || convert_allow_upscale_art config
    then convert_size config else h
  else h.

End WithConfig.
End RockboxCoverart.

(* ================================================================= *)
(** ** Concrete hosts, extension files and containers for the examples *)

Module Examples.

(** A menu entry [(label, callback)]. *)
Definition entry (label callback : string) : PyVal :=
  PyTuple [PyStr label; PyCallable callback].

Definition menu_a : Extension :=
  mkExtension [("on_create_menu", Returns (PyList [entry "x" "f"]))].

Definition menu_b : Extension :=
  mkExtension [("on_create_menu", Returns (PyList [entry "y" "g"]))].

Definition broken_menu : Extension :=
  mkExtension
    [("on_create_menu", Raises (OtherException "RuntimeError" "menu failed"))].

Definition failing_on_load : Extension :=
  mkExtension
    [("on_load", Raises (OtherException "RuntimeError" "on_load failed"))].

Definition no_such_module : PyExc :=
  ImportError (Some "nonexistent_module")
    "No module named 'nonexistent_module'".

(** What executing each example file does. *)
Definition example_exec (path : string) : Result ModuleFile :=
  if String.eqb path "/ext/needs_missing_module.py" then Raise no_such_module
  else if String.eqb path "/ext/failing_on_load.py" then
    Ok (mkModuleFile None (Some (Ok failing_on_load)))
  else if String.eqb path "/ext/menu_a.py" then
    Ok (mkModuleFile None (Some (Ok menu_a)))
  else if String.eqb path "/ext/menu_b.py" then
    Ok (mkModuleFile None (Some (Ok menu_b)))
  else if String.eqb path "/ext/broken_menu.py" then
    Ok (mkModuleFile None (Some (Ok broken_menu)))
  else Raise (OtherException "FileNotFoundError" path).

Definition example_exists (path : string) : bool :=
  negb (String.eqb path "/ext/gone.py").

(** A desktop session: [gpodder.ui.gtk] is set, [gpodder.ui.cli] is not. *)
Definition desktop : Host := {|
  gettext := fun s => s;
  ui := fun flag =>
          if String.eqb flag "gtk" then Some true
          else if String.eqb flag "cli" then Some false
          else None;
  exec_module := example_exec;
  path_exists := example_exists;
  glob_builtins := ["/usr/share/gpodder/extensions/foo.py"];
  glob_user_extensions := ["/home/u/gPodder/Extensions/10_foo.py"]
|}.

(** A session in which neither flag is set. *)
Definition neither : Host := {|
  gettext := fun s => s;
  ui := fun flag =>
          if String.eqb flag "gtk" then Some false
          else if String.eqb flag "cli" then Some false
          else None;
  exec_module := example_exec;
  path_exists := example_exists;
  glob_builtins := [];
  glob_user_extensions := []
|}.

(** Containers as discovery builds them, before any enabling. *)
Definition fresh (name filename : string) (scanned : PyDict.t string)
  : ExtensionContainer.t :=
  ExtensionContainer.init (host := desktop) name filename None scanned.

(** A container that has been enabled with the given instance loaded. *)
Definition loaded (name filename : string) (instance : Extension)
  : ExtensionContainer.t :=
  ExtensionContainer.with_enabled true
    (ExtensionContainer.with_module (Some instance) (fresh name filename [])).

(** An enabled, loaded extension that declares itself mandatory in the
    desktop UI. *)
Definition forced : ExtensionContainer.t :=
  ExtensionContainer.with_enabled true
    (ExtensionContainer.with_module (Some menu_a)
       (fresh "forced" "/ext/menu_a.py" [("mandatory_in", "gtk")])).

(** A discovered extension whose file imports a module that does not
    exist. *)
Definition needs_missing_module : ExtensionContainer.t :=
  fresh "needs_missing_module" "/ext/needs_missing_module.py" [].

End Examples.

(* ================================================================= *)
(** ** The documented behaviour, stated independently of the code *)

Module Documented.
Section WithHost.
Context `{host : Host}.

(** The display label of a declared category key: the entry of the fixed
    table, and the label "Other" for an absent or unknown key. *)
Definition category_label (declared : option string) : string :=
  match declared with
  | None => gettext "Other"
  | Some key =>
      if String.eqb key "desktop-integration" then gettext "Desktop Integration"
      else if String.eqb key "interface" then gettext "Interface"
      else if String.eqb key "post-download" then gettext "Post download"
      else gettext "Other"
  end.

(** The title of a metadata object: the declared one, else the name of
    the extension. *)
Definition title (container_name : string) (declared : option string)
  : string :=
  match declared with
  | Some v => v
  | None => container_name
  end.

(** A token names a flag of the UI context that is set, whatever the
    case of its letters. *)
Definition names_set_flag (token : string) : Prop :=
  ui (PyStr.lower token) = Some true.

(** The filename discovery keeps for a name: the last candidate that is
    not skipped and derives that name. *)
Fixpoint last_candidate (name : string) (fs : list string) : option string :=
  match fs with
  | [] => None
  | f :: rest =>
      match last_candidate name rest with
      | Some g => Some g
      | None =>
          if ExtensionManager.usable f
             && String.eqb (ExtensionManager.extension_name f) name
          then Some f else None
      end
  end.

(** Items in non-decreasing order of filename. *)
Definition by_filename (a b : string * string) : Prop :=
  String.leb (snd a) (snd b) = true.

(** Aggregation of hook results: two lists are concatenated; otherwise a
    value that is not absent replaces the aggregate. *)
Definition aggregate (running current : PyVal) : PyVal :=
  match running, current with
  | PyList a, PyList b => PyList (a ++ b)
  | _, PyNone => running
  | _, _ => current
  end.

(** The containers a dispatch of [method] reaches: enabled, loaded, and
    defining the hook. *)
Definition receives (method : string) (c : ExtensionContainer.t) : bool :=
  ExtensionContainer.enabled c
  && hasattr_module (ExtensionContainer.module c) method.

(** What the hook of [c] returns, when [c] is reached and the hook
    returns. *)
Definition contribution (method : string) (c : ExtensionContainer.t)
  : list PyVal :=
  if ExtensionContainer.enabled c then
    match ExtensionContainer.module c with
    | Some instance =>
        match getattr_method instance method with
        | Some (Returns v) => [v]
        | _ => []
        end
    | None => []
    end
  else [].

Definition contributions (method : string) (cs : list ExtensionContainer.t)
  : list PyVal :=
  flat_map (contribution method) cs.

(** The hook invocations recorded in a trace, as (container, method). *)
Definition calls_of (tr : Trace) : list (string * string) :=
  flat_map (fun ev => match ev with
                      | Call c m => [(c, m)]
                      | _ => []
                      end) tr.

(** The hook invocations a dispatch over [cs] makes, in order. *)
Definition invocations (method : string) (cs : list ExtensionContainer.t)
  : list (string * string) :=
  map (fun c => (ExtensionContainer.name c, method))
      (filter (receives method) cs).

(** The error records of a trace. *)
Definition errors_of (tr : Trace) : Trace :=
  filter (fun ev => match ev with
                    | Log ERROR _ _ => true
                    | _ => false
                    end) tr.

(** How one container comes out of the loop: it keeps its name and
    metadata; if it was to be enabled and is still disabled, its name is
    not in the persisted list; if it is mandatory for the current UI and
    was enabled, nothing happened to it. *)
Definition observed (new_value persisted : list string)
  (c c' : ExtensionContainer.t) : Prop :=
  ExtensionContainer.name c' = ExtensionContainer.name c
  /\ ExtensionContainer.metadata c' = ExtensionContainer.metadata c
  /\ (ExtensionManager.name_in (ExtensionContainer.name c) new_value = true ->
      ExtensionContainer.enabled c = false ->
      ExtensionContainer.enabled c' = false ->
      ~ In (ExtensionContainer.name c) persisted)
  /\ (ExtensionMetadata.mandatory_in_current_ui
        (ExtensionContainer.metadata c) = Ok true ->
      ExtensionContainer.enabled c = true ->
      c' = c).

End WithHost.
End Documented.

(* ================================================================= *)
(** ** Observations on traces and hook results *)

Module Traces.

(** The events of loading a file: executing it, removing the compiled
    file, registering defaults, instantiating the extension class. *)
Definition is_load_event (ev : Event) : bool :=
  match ev with
  | ExecModule _ _ | DeleteFile _ | RegisterDefaults _ _ | Instantiate _ => true
  | _ => false
  end.

Definition load_events (tr : Trace) : Trace := filter is_load_event tr.

(** Every execution of a file is followed at once by the removal of the
    compiled file next to it. *)
Fixpoint cleaned_up (tr : Trace) : bool :=
  match tr with
  | [] => true
  | ExecModule _ filename :: rest =>
      match rest with
      | DeleteFile path :: _ =>
          String.eqb path (filename ++ "c") && cleaned_up rest
      | _ => false
      end
  | _ :: rest => cleaned_up rest
  end.

(** The items of a list value. *)
Definition items_of (v : PyVal) : list PyVal :=
  match v with
  | PyList items => items
  | _ => []
  end.

(** The [on_unload] invocations a shutdown of [cs] makes, in order. *)
Definition unloads (cs : list ExtensionContainer.t) : list (string * string) :=
  map (fun c => (ExtensionContainer.name c, "on_unload"))
      (filter (fun c => ExtensionContainer.enabled c
                        && hasattr_module (ExtensionContainer.module c)
                             "on_unload") cs).

End Traces.

(* ================================================================= *)
(** ** Observations on a change of the enabled set *)

Module Reaction.
Section WithHost.
Context `{host : Host}.

(** The containers a change to [new_value] leaves alone: those whose
    state already agrees with it, and those it would switch off although
    they are mandatory for the current UI. *)
Definition left_alone (new_value : list string) (c : ExtensionContainer.t)
  : bool :=
  let wanted :=
    ExtensionManager.name_in (ExtensionContainer.name c) new_value in
  Bool.eqb wanted (ExtensionContainer.enabled c)
  || (negb wanted
      && match ExtensionMetadata.mandatory_in_current_ui
                 (ExtensionContainer.metadata c) with
         | Ok true => true
         | _ => false
         end).

(** The names of the containers whose enabling was asked for and failed,
    given the containers before and after. *)
Definition failed_enables (new_value : list string)
  (before after : list ExtensionContainer.t) : list string :=
  map (fun pair => ExtensionContainer.name (fst pair))
      (filter (fun pair =>
                 ExtensionManager.name_in
                   (ExtensionContainer.name (fst pair)) new_value
                 && negb (ExtensionContainer.enabled (fst pair))
                 && negb (ExtensionContainer.enabled (snd pair)))
              (combine before after)).

(** How a container comes out of the change: untouched, switched off
    with everything else kept, or as an enable attempt leaves it. *)
Definition outcome (new_value : list string)
  (c c' : ExtensionContainer.t) : Prop :=
  (left_alone new_value c = true /\ c' = c)
  \/ (left_alone new_value c = false
      /\ ExtensionManager.name_in (ExtensionContainer.name c) new_value
         = false
      /\ c' = ExtensionContainer.with_enabled false c)
  \/ (left_alone new_value c = false
      /\ ExtensionManager.name_in (ExtensionContainer.name c) new_value
         = true
      /\ exists tr,
           c' = fst (ExtensionContainer.set_enabled c true tr)).

End WithHost.
End Reaction.

(* ================================================================= *)
(** ** Further examples *)

Module MoreExamples.

(** Two extensions whose on_notification_show returns a plain value, and
    one whose hook returns nothing. *)
Definition says_first : Extension :=
  mkExtension [("on_notification_show", Returns (PyStr "first"))].

Definition says_nothing : Extension :=
  mkExtension [("on_notification_show", Returns PyNone)].

Definition says_second : Extension :=
  mkExtension [("on_notification_show", Returns (PyBool true))].

Definition notifiers : ExtensionManager.t :=
  ExtensionManager.mk []
    [Examples.loaded "first" "/ext/first.py" says_first;
     Examples.loaded "second" "/ext/second.py" says_second;
     Examples.loaded "nothing" "/ext/nothing.py" says_nothing] [].

(** A system without the override variables, in which only ffmpeg is
    installed and the user's file restricts itself to two interfaces. *)
Definition plain_system : System := {|
  find_command := fun command =>
                    if String.eqb command "ffmpeg"
                    then Some "/usr/bin/ffmpeg" else None;
  environ := fun _ => None;
  read_text := fun path =>
                 if String.eqb path "/home/u/gPodder/Extensions/10_foo.py"
                 then "__title__ = _('Foo')
__only_for__ = 'gtk, cli'
__disable_in__ = 'cli'
"
                 else EmptyString
|}.

(** Every file can be read. *)
Definition readable_files : Files := {|
  read_failure := fun _ => None
|}.

(** The user's file may not be read. *)
Definition unreadable_files : Files := {|
  read_failure := fun path =>
                    if String.eqb path "/home/u/gPodder/Extensions/10_foo.py"
                    then Some (OtherException "PermissionError" path)
                    else None
|}.

(** A system in which the user's file names a metadata field check_ui. *)
Definition shadowing_system : System := {|
  find_command := fun _ => None;
  environ := fun _ => None;
  read_text := fun path =>
                 if String.eqb path "/home/u/gPodder/Extensions/10_foo.py"
                 then "__title__ = 'Foo'
__check_ui__ = 'gtk'
"
                 else EmptyString
|}.

End MoreExamples.

(* ================================================================= *)
(** ** Observations on the metadata scan *)

Module Scan.

(** The text of a metadata assignment, for an opener and a closer around
    the value: [__key__ = 'value'] and [__key__ = _('value')]. *)
Definition assignment (opener closer key value : string) : string :=
  ("__" ++ key ++ "__ = " ++ opener ++ value ++ closer)%string.

(** The value of the last pair with the given key. *)
Fixpoint last_assigned (key : string) (pairs : list (string * string))
  : option string :=
  match pairs with
  | [] => None
  | (k, v) :: rest =>
      match last_assigned key rest with
      | Some w => Some w
      | None => if String.eqb k key then Some v else None
      end
  end.

(** A key of one or more lowercase letters and underscores; a value of
    one or more characters other than the quote. *)
Definition well_formed_key (key : string) : bool :=
  PyStr.truthy key && PyStr.all_chars Re.is_key_char key.

Definition well_formed_value (value : string) : bool :=
  PyStr.truthy value && PyStr.all_chars Re.is_value_char value.

End Scan.

(* ================================================================= *)
(** ** Observations on the construction of the manager *)

Module Policy.
Section WithSystem.
Context `{host : Host} `{system : System} `{files : Files}.

(** The metadata marks the extension mandatory for the current UI. *)
Definition mandatory (md : ExtensionMetadata.t) : bool :=
  match ExtensionMetadata.mandatory_in_current_ui md with
  | Ok true => true
  | _ => false
  end.

(** The metadata marks the extension disabled for the current UI. *)
Definition ui_disabled (md : ExtensionMetadata.t) : bool :=
  match ExtensionMetadata.disable_in_current_ui md with
  | Ok true => true
  | _ => false
  end.

(** Why the constructor cannot get past a discovered (name, filename):
    the file cannot be read, or its metadata names a field check_ui.
    [None] when it can. *)
Definition failure (found : string * string) : option PyExc :=
  match ExtensionContainer.create (fst found) (snd found) with
  | Raise exception => Some exception
  | Ok created =>
      if PyDict.contains "check_ui"
           (ExtensionMetadata.dict (ExtensionContainer.metadata created))
      then Some (OtherException "TypeError" "'str' object is not callable")
      else None
  end.

(** The failure of the first discovered file that has one. *)
Fixpoint first_failure (found : list (string * string)) : option PyExc :=
  match found with
  | [] => None
  | entry :: rest =>
      match failure entry with
      | Some exception => Some exception
      | None => first_failure rest
      end
  end.

(** How the container built for a discovered (name, filename) relates to
    the enabled list.  It comes from the container as created: when the
    name is in the enabled list or the metadata makes the extension
    mandatory, by an enable attempt, followed by disabling when the name
    is in the enabled list and the metadata disables the extension for the
    current UI; otherwise it is the container as created. *)
Definition built (enabled_extensions : list string)
  (found : string * string) (c : ExtensionContainer.t) : Prop :=
  exists (created : ExtensionContainer.t) (tr : Trace),
    ExtensionContainer.create (fst found) (snd found) = Ok created
    /\ let listed := ExtensionManager.name_in (fst found) enabled_extensions in
       let md := ExtensionContainer.metadata created in
       let attempted := ExtensionContainer.set_enabled created true tr in
       ExtensionContainer.name c = fst found
       /\ ExtensionContainer.filename c = snd found
       /\ ExtensionContainer.metadata c = md
       /\ c = (if listed || mandatory md then
                 if listed && ui_disabled md then
                   fst (ExtensionContainer.set_enabled
                          (fst attempted) false (snd attempted))
                 else fst attempted
               else created)
       /\ (listed = false -> mandatory md = false ->
           ExtensionContainer.enabled c = false
           /\ ExtensionContainer.module c = None
           /\ ExtensionContainer.error c = None)
       /\ (listed = true -> ui_disabled md = true ->
           ExtensionContainer.enabled c = false)
       /\ (ExtensionContainer.enabled c = true ->
           (listed = true \/ mandatory md = true)
           /\ listed && ui_disabled md = false).

End WithSystem.
End Policy.

(* ================================================================= *)
(** ** Observations on the listing of extensions *)

Module Listing.
Section WithHost.
Context `{host : Host}.

(** The extensions a user may switch on and off: available for the
    current UI, not mandatory in it and not disabled in it. *)
Definition toggleable (c : ExtensionContainer.t) : bool :=
  match ExtensionMetadata.available_for_current_ui
          (ExtensionContainer.metadata c),
        ExtensionMetadata.mandatory_in_current_ui
          (ExtensionContainer.metadata c),
        ExtensionMetadata.disable_in_current_ui
          (ExtensionContainer.metadata c) with
  | Ok true, Ok false, Ok false => true
  | _, _, _ => false
  end.

End WithHost.
End Listing.

(* ================================================================= *)
(** ** Proof automation *)

(** Case analysis on every scrutinee of the goal. *)
Ltac case_matches :=
  repeat match goal with
         | |- context [match ?x with _ => _ end] => destruct x eqn:?
         end.

(* ================================================================= *)
(** ** Dictionaries: lookup after update *)

Section DictFacts.
Context {V : Type}.

Lemma dict_get_set_same (k : string) (v : V) (d : PyDict.t V) :
  PyDict.get k (PyDict.set k v d) = Some v.
Proof.
  induction d as [|[k' v'] d IH]; simpl.
  - now rewrite String.eqb_refl.
  - destruct (String.eqb k k') eqn:E; simpl.
    + now rewrite String.eqb_refl.
    + now rewrite E.
Qed.

Lemma dict_get_set_other (k k' : string) (v : V) (d : PyDict.t V) :
  k <> k' -> PyDict.get k (PyDict.set k' v d) = PyDict.get k d.
Proof.
  intros Hne. induction d as [|[k0 v0] d IH]; simpl.
  - apply String.eqb_neq in Hne. now rewrite Hne.
  - destruct (String.eqb k' k0) eqn:E; simpl.
    + apply String.eqb_eq in E. subst k0.
      apply String.eqb_neq in Hne. now rewrite Hne.
    + destruct (String.eqb k k0); [reflexivity | exact IH].
Qed.

End DictFacts.

(* ================================================================= *)
(** ** ExtensionMetadata: construction *)

Section MetadataInit.
Context `{host : Host}.

Lemma category_dict_lookup (key : string) :
  PyDict.get_default key ExtensionMetadata.DEFAULT_CATEGORY
    ExtensionMetadata.CATEGORY_DICT
  = Documented.category_label (Some key).
Proof.
  unfold PyDict.get_default, ExtensionMetadata.CATEGORY_DICT,
    ExtensionMetadata.DEFAULT_CATEGORY, Documented.category_label.
  simpl.
  destruct (String.eqb key "desktop-integration"); [reflexivity|].
  destruct (String.eqb key "interface"); [reflexivity|].
  destruct (String.eqb key "post-download"); reflexivity.
Qed.

Lemma init_dict_title (container_name : string) (metadata : PyDict.t string) :
  PyDict.get "title" (ExtensionMetadata.dict
                        (ExtensionMetadata.init container_name metadata))
  = Some (Documented.title container_name (PyDict.get "title" metadata)).
Proof.
  unfold ExtensionMetadata.init. simpl.
  rewrite dict_get_set_other by discriminate.
  unfold PyDict.contains, Documented.title.
  destruct (PyDict.get "title" metadata) eqn:E; simpl.
  - exact E.
  - apply dict_get_set_same.
Qed.

Lemma init_dict_category (container_name : string)
  (metadata : PyDict.t string) :
  PyDict.get "category" (ExtensionMetadata.dict
                           (ExtensionMetadata.init container_name metadata))
  = Some (Documented.category_label (PyDict.get "category" metadata)).
Proof.
  unfold ExtensionMetadata.init. simpl.
  rewrite dict_get_set_same. f_equal.
  rewrite category_dict_lookup.
  assert (Hcat :
    PyDict.get "category"
      (if negb (PyDict.contains "title" metadata)
       then PyDict.set "title" container_name metadata else metadata)
    = PyDict.get "category" metadata).
  { destruct (negb (PyDict.contains "title" metadata)); [|reflexivity].
    apply dict_get_set_other. discriminate. }
  unfold PyDict.get_default. rewrite Hcat.
  destruct (PyDict.get "category" metadata); reflexivity.
Qed.

(** Claim C9.  For every constructed [ExtensionMetadata], reading [title]
    gives the declared title, or the container's name when none was
    declared, and reading [category] gives the display label: the entry of
    the fixed table for the declared key, and the "Other" label when the
    key is absent or not in the table.  The raw key is not kept. *)
Theorem C9_title_and_category_resolved :
  forall (container_name : string) (metadata : PyDict.t string),
    let md := ExtensionMetadata.init container_name metadata in
    ExtensionMetadata.getattr md "title"
      = Some (Text (Documented.title container_name
                       (PyDict.get "title" metadata)))
    /\ ExtensionMetadata.getattr md "category"
      = Some (Text (Documented.category_label
                       (PyDict.get "category" metadata))).
Proof.
  intros container_name metadata md. subst md.
  unfold ExtensionMetadata.getattr.
  simpl (ExtensionMetadata.is_property _).
  rewrite init_dict_title, init_dict_category.
  split; reflexivity.
Qed.

End MetadataInit.

(* ================================================================= *)
(** ** Text helpers: what [split] and [strip] compute *)

Section TextFacts.

Lemma split_not_nil (sep : ascii) (s : string) : PyStr.split sep s <> [].
Proof.
  destruct s as [|c r]; simpl; [discriminate|].
  destruct (Ascii.eqb c sep); [discriminate|].
  destruct (PyStr.split sep r); discriminate.
Qed.

(** Joining the pieces with the separator gives the text back. *)
Lemma join_split (sep : ascii) (s : string) :
  PyStr.join (String sep EmptyString) (PyStr.split sep s) = s.
Proof.
  unfold PyStr.join.
  induction s as [|c r IH]; simpl; [reflexivity|].
  destruct (Ascii.eqb c sep) eqn:E.
  - apply Ascii.eqb_eq in E. subst c.
    destruct (PyStr.split sep r) as [|p ps] eqn:Es.
    + now apply split_not_nil in Es.
    + simpl. simpl in IH. now rewrite IH.
  - destruct (PyStr.split sep r) as [|p ps] eqn:Es.
    + now apply split_not_nil in Es.
    + simpl in IH. destruct ps as [|q qs]; simpl in *; now rewrite IH.
Qed.

(** No piece contains the separator. *)
Lemma split_pieces_free (sep : ascii) (s : string) :
  Forall (fun p => PyStr.mem sep p = false) (PyStr.split sep s).
Proof.
  induction s as [|c r IH]; simpl.
  - constructor; [reflexivity | constructor].
  - destruct (Ascii.eqb c sep) eqn:E.
    + constructor; [reflexivity | exact IH].
    + destruct (PyStr.split sep r) as [|p ps]; simpl.
      * constructor; [simpl; now rewrite E | constructor].
      * inversion IH as [|? ? Hp Hps]; subst.
        constructor; [simpl; now rewrite E, Hp | exact Hps].
Qed.

(** [lstrip] removes a whitespace prefix and stops at the first other
    character. *)
Lemma lstrip_spec (s : string) :
  exists ws, PyStr.all_chars PyStr.isspace ws = true
             /\ s = (ws ++ PyStr.lstrip s)%string
             /\ match PyStr.lstrip s with
                | String c _ => PyStr.isspace c = false
                | EmptyString => True
                end.
Proof.
  induction s as [|c r (ws & Hws & Heq & Hhd)]; simpl.
  - exists EmptyString. repeat split.
  - destruct (PyStr.isspace c) eqn:E.
    + exists (String c ws). simpl. rewrite E, Hws. repeat split; [|exact Hhd].
      now rewrite <- Heq.
    + exists EmptyString. repeat split. exact E.
Qed.

(** [rstrip] removes a whitespace suffix: the result is empty or ends with
    a character that is not whitespace. *)
Lemma rstrip_spec (s : string) :
  exists ws, PyStr.all_chars PyStr.isspace ws = true
             /\ s = (PyStr.rstrip s ++ ws)%string
             /\ (PyStr.rstrip s = EmptyString
                 \/ exists t c, PyStr.rstrip s = (t ++ String c EmptyString)%string
                                /\ PyStr.isspace c = false).
Proof.
  induction s as [|c r (ws & Hws & Heq & Hlast)]; simpl.
  - exists EmptyString. repeat split. now left.
  - destruct (PyStr.rstrip r) as [|d r'] eqn:Er.
    + destruct (PyStr.isspace c) eqn:E.
      * exists (String c ws). simpl. rewrite E, Hws. repeat split.
        -- simpl in Heq. now rewrite <- Heq.
        -- now left.
      * exists ws. repeat split; [exact Hws | simpl in *; now rewrite <- Heq|].
        right. exists EmptyString, c. split; [reflexivity | exact E].
    + exists ws. repeat split; [exact Hws | simpl in *; now rewrite <- Heq|].
      right. destruct Hlast as [Hnil | (t & e & Ht & He)]; [discriminate|].
      exists (String c t), e. split; [simpl; now rewrite Ht | exact He].
Qed.

Lemma rstrip_keeps_head (c : ascii) (r : string) :
  PyStr.isspace c = false ->
  exists r', PyStr.rstrip (String c r) = String c r'.
Proof.
  intros E. simpl. destruct (PyStr.rstrip r) as [|d r'].
  - rewrite E. now exists EmptyString.
  - now exists (String d r').
Qed.

(** [strip] removes whitespace at both ends and nothing else. *)
Lemma strip_spec (s : string) :
  exists l r,
    PyStr.all_chars PyStr.isspace l = true
    /\ PyStr.all_chars PyStr.isspace r = true
    /\ s = (l ++ PyStr.strip s ++ r)%string
    /\ match PyStr.strip s with
       | String c _ => PyStr.isspace c = false
       | EmptyString => True
       end
    /\ (PyStr.strip s = EmptyString
        \/ exists t c, PyStr.strip s = (t ++ String c EmptyString)%string
                       /\ PyStr.isspace c = false).
Proof.
  unfold PyStr.strip.
  destruct (lstrip_spec s) as (l & Hl & Hs & Hhd).
  destruct (rstrip_spec (PyStr.lstrip s)) as (r & Hr & Hm & Hlast).
  exists l, r. repeat split; try assumption.
  - now rewrite <- Hm.
  - destruct (PyStr.lstrip s) as [|c m]; simpl; [exact I|].
    destruct (rstrip_keeps_head c m Hhd) as (r' & Hr').
    simpl in Hr'. rewrite Hr'. exact Hhd.
Qed.

(** A text of whitespace only strips to the empty string. *)
Lemma strip_blank (s : string) :
  PyStr.all_chars PyStr.isspace s = true -> PyStr.strip s = EmptyString.
Proof.
  unfold PyStr.strip. induction s as [|c r IH]; simpl; [reflexivity|].
  intros Hall. apply andb_true_iff in Hall as [Hc Hr].
  rewrite Hc. now apply IH.
Qed.

Lemma strip_leading_space (c : ascii) (s : string) :
  PyStr.isspace c = true -> PyStr.strip (String c s) = PyStr.strip s.
Proof. intros E. unfold PyStr.strip. simpl. now rewrite E. Qed.

End TextFacts.

(* ================================================================= *)
(** ** ExtensionMetadata: [check_ui] *)

Section CheckUi.
Context `{host : Host}.

(** The tokens are the stripped, non-empty comma-separated pieces. *)
Lemma ui_tokens_spec (value token : string) :
  In token (ExtensionMetadata.ui_tokens value)
  <-> token <> EmptyString
      /\ exists piece, In piece (PyStr.split "," value)
                       /\ token = PyStr.strip piece.
Proof.
  unfold ExtensionMetadata.ui_tokens.
  rewrite filter_In, in_map_iff. split.
  - intros [(piece & Hstrip & Hin) Htruthy]. split.
    + intros ->. discriminate Htruthy.
    + exists piece. now split.
  - intros [Hne (piece & Hin & ->)]. split.
    + exists piece. now split.
    + destruct (PyStr.strip piece); [now elim Hne | reflexivity].
Qed.

Lemma ui_flag_set_spec (token : string) :
  ExtensionMetadata.ui_flag_set token = true
  <-> Documented.names_set_flag token.
Proof.
  unfold ExtensionMetadata.ui_flag_set, Documented.names_set_flag.
  destruct (ui (PyStr.lower token)) as [[|]|]; split; congruence.
Qed.

Lemma contains_false {V : Type} (k : string) (d : PyDict.t V) :
  PyDict.contains k d = false -> PyDict.get k d = None.
Proof. unfold PyDict.contains. now destruct (PyDict.get k d). Qed.

(** A name the class does not answer for. *)
Lemma class_level_false (target : string) :
  ExtensionMetadata.class_level target = false ->
  ExtensionMetadata.is_dunder target = false
  /\ ExtensionMetadata.is_property target = false
  /\ PyDict.get target ExtensionMetadata.METHODS_AND_TABLES = None
  /\ PyDict.get target ExtensionMetadata.DEFAULTS = None.
Proof.
  unfold ExtensionMetadata.class_level. intros Hclass.
  apply orb_false_iff in Hclass as [Hclass Hdef].
  apply orb_false_iff in Hclass as [Hclass Hmeth].
  apply orb_false_iff in Hclass as [Hdunder Hprop].
  repeat split; try assumption; now apply contains_false.
Qed.

Lemma check_ui_declared (md : ExtensionMetadata.t) (target value : string)
  (default : bool) :
  ExtensionMetadata.is_property target = false ->
  PyDict.get target (ExtensionMetadata.dict md) = Some value ->
  ExtensionMetadata.check_ui md target default
  = Ok (existsb ExtensionMetadata.ui_flag_set
          (ExtensionMetadata.ui_tokens value)).
Proof.
  intros Hprop Hget.
  unfold ExtensionMetadata.check_ui, ExtensionMetadata.hasattr,
    ExtensionMetadata.getattr.
  now rewrite Hprop, Hget.
Qed.

Lemma check_ui_undeclared (md : ExtensionMetadata.t) (target : string)
  (default : bool) :
  PyDict.get target (ExtensionMetadata.dict md) = None ->
  ExtensionMetadata.class_level target = false ->
  ExtensionMetadata.check_ui md target default = Ok default.
Proof.
  intros Hget Hclass.
  destruct (class_level_false target Hclass) as (_ & Hprop & Hmeth & Hdef).
  unfold ExtensionMetadata.check_ui, ExtensionMetadata.hasattr,
    ExtensionMetadata.getattr.
  now rewrite Hprop, Hget, Hmeth, Hdef.
Qed.

(** The three UI properties read fields the class does not answer for,
    so they never raise. *)
Lemma check_ui_total (md : ExtensionMetadata.t) (target : string)
  (default : bool) :
  ExtensionMetadata.class_level target = false ->
  exists b, ExtensionMetadata.check_ui md target default = Ok b.
Proof.
  intros Hclass.
  destruct (PyDict.get target (ExtensionMetadata.dict md)) as [value|] eqn:E.
  - eexists. eapply check_ui_declared; [|exact E].
    now apply class_level_false.
  - exists default. now apply check_ui_undeclared.
Qed.

Lemma available_total (md : ExtensionMetadata.t) :
  exists b, ExtensionMetadata.available_for_current_ui md = Ok b.
Proof. now apply check_ui_total. Qed.

Lemma mandatory_total (md : ExtensionMetadata.t) :
  exists b, ExtensionMetadata.mandatory_in_current_ui md = Ok b.
Proof. now apply check_ui_total. Qed.

Lemma disable_total (md : ExtensionMetadata.t) :
  exists b, ExtensionMetadata.disable_in_current_ui md = Ok b.
Proof. now apply check_ui_total. Qed.

(** A value made of commas and whitespace only has no tokens. *)
Lemma ui_tokens_blank (value : string) :
  PyStr.all_chars (fun c => Ascii.eqb c "," || PyStr.isspace c) value = true ->
  ExtensionMetadata.ui_tokens value = [].
Proof.
  unfold ExtensionMetadata.ui_tokens.
  induction value as [|c r IH]; simpl; [reflexivity|].
  intros Hall. apply andb_true_iff in Hall as [Hc Hr].
  specialize (IH Hr).
  destruct (Ascii.eqb c ",") eqn:E; simpl in *.
  - exact IH.
  - destruct (PyStr.split "," r) as [|p ps] eqn:Es.
    + now apply split_not_nil in Es.
    + simpl in *. now rewrite strip_leading_space.
Qed.

End CheckUi.

(** Claim C7, as the code has it.  For every metadata object and every
    field name for which the class itself does not answer (so not
    description, doc or payment, which have class defaults, not a method,
    property or table of the class, and not a name starting with two
    underscores; only_for, mandatory_in and disable_in are such names):
    [check_ui] returns the default unchanged when the field is absent;
    otherwise it never raises and returns true exactly when
    one of the tokens of the value - its comma-separated pieces, stripped,
    the empty ones dropped - names, after lowercasing, a flag of the UI
    context that is set; a token naming no flag counts as false.  With the
    value "gtk, cli" the result is true when gtk is set and cli is not,
    and false when neither is set. *)
Theorem C7_check_ui_without_class_default :
  forall (host : Host) (md : ExtensionMetadata.t) (target : string)
         (default : bool),
    ExtensionMetadata.class_level target = false ->
    match PyDict.get target (ExtensionMetadata.dict md) with
    | None => ExtensionMetadata.check_ui md target default = Ok default
    | Some value =>
        exists b,
          ExtensionMetadata.check_ui md target default = Ok b
          /\ (b = true <->
              exists token,
                (token <> EmptyString
                 /\ exists piece, In piece (PyStr.split "," value)
                                  /\ token = PyStr.strip piece)
                /\ Documented.names_set_flag token)
    end
    /\ ExtensionMetadata.check_ui (host := Examples.desktop)
         (ExtensionMetadata.mk [("only_for", "gtk, cli")]) "only_for" default
       = Ok true
    /\ ExtensionMetadata.check_ui (host := Examples.neither)
         (ExtensionMetadata.mk [("only_for", "gtk, cli")]) "only_for" default
       = Ok false.
Proof.
  intros host md target default Hclass.
  split; [|split; reflexivity].
  destruct (PyDict.get target (ExtensionMetadata.dict md)) as [value|] eqn:E.
  - eexists. split.
    { eapply check_ui_declared; [|exact E]. now apply class_level_false. }
    rewrite existsb_exists. split.
    + intros (token & Hin & Hset). exists token. split.
      * now apply ui_tokens_spec.
      * now apply ui_flag_set_spec.
    + intros (token & Htok & Hset). exists token. split.
      * now apply ui_tokens_spec.
      * now apply ui_flag_set_spec.
  - now apply check_ui_undeclared.
Qed.

(** The theorem at the [only_for] field of the cover-art extension. *)
Lemma C7_check_ui_witness :
  match PyDict.get "only_for"
          (ExtensionMetadata.dict
             (ExtensionMetadata.init (host := Examples.desktop)
                "rockbox_coverart" [("only_for", "gtk, cli")])) with
  | None =>
      ExtensionMetadata.check_ui (host := Examples.desktop)
        (ExtensionMetadata.init (host := Examples.desktop)
           "rockbox_coverart" [("only_for", "gtk, cli")]) "only_for" true
      = Ok true
  | Some value =>
      exists b,
        ExtensionMetadata.check_ui (host := Examples.desktop)
          (ExtensionMetadata.init (host := Examples.desktop)
             "rockbox_coverart" [("only_for", "gtk, cli")]) "only_for" true
        = Ok b
        /\ (b = true <->
            exists token,
              (token <> EmptyString
               /\ exists piece, In piece (PyStr.split "," value)
                                /\ token = PyStr.strip piece)
              /\ Documented.names_set_flag (host := Examples.desktop) token)
  end
  /\ ExtensionMetadata.check_ui (host := Examples.desktop)
       (ExtensionMetadata.mk [("only_for", "gtk, cli")]) "only_for" true
     = Ok true
  /\ ExtensionMetadata.check_ui (host := Examples.neither)
       (ExtensionMetadata.mk [("only_for", "gtk, cli")]) "only_for" true
     = Ok false.
Proof.
  exact (C7_check_ui_without_class_default Examples.desktop
           (ExtensionMetadata.init (host := Examples.desktop)
              "rockbox_coverart" [("only_for", "gtk, cli")])
           "only_for" true eq_refl).
Defined.

(** Claim C7 as stated fails at the field [description], which falls back
    to a class default when absent: the default passed to [check_ui] is
    not returned, and for [doc], whose class default is [None], the call
    raises. *)
Lemma C7_counterexample :
  PyDict.get "description"
    (ExtensionMetadata.dict
       (ExtensionMetadata.init (host := Examples.desktop) "demo" [])) = None
  /\ ExtensionMetadata.check_ui (host := Examples.desktop)
       (ExtensionMetadata.init (host := Examples.desktop) "demo" [])
       "description" true = Ok false
  /\ ExtensionMetadata.check_ui (host := Examples.desktop)
       (ExtensionMetadata.init (host := Examples.desktop) "demo" [])
       "doc" true
     = Raise (AttributeError "'NoneType' object has no attribute 'split'").
Proof. repeat split. Qed.

(** Claim C10.  For every metadata object with a declared field (one
    that no property of the class hides, and whose name does not start
    with two underscores) whose value yields no token - a value of commas
    and whitespace only is one - [check_ui] returns false whatever default
    is supplied: the default applies only when the field is absent. *)
Theorem C10_no_tokens_gives_false :
  forall (host : Host) (md : ExtensionMetadata.t) (target value : string)
         (default : bool),
    ExtensionMetadata.is_dunder target = false ->
    ExtensionMetadata.is_property target = false ->
    PyDict.get target (ExtensionMetadata.dict md) = Some value ->
    (ExtensionMetadata.ui_tokens value = []
     \/ PyStr.all_chars (fun c => Ascii.eqb c "," || PyStr.isspace c) value
        = true) ->
    ExtensionMetadata.check_ui md target default = Ok false.
Proof.
  intros host md target value default _ Hprop Hget Hblank.
  assert (Hnil : ExtensionMetadata.ui_tokens value = []).
  { destruct Hblank as [Hnil | Hall]; [exact Hnil | now apply ui_tokens_blank]. }
  rewrite (check_ui_declared md target value default Hprop Hget).
  now rewrite Hnil.
Qed.

(** The theorem at [only_for = ' , ,'] with the default true. *)
Lemma C10_no_tokens_witness :
  ExtensionMetadata.check_ui (host := Examples.desktop)
    (ExtensionMetadata.init (host := Examples.desktop) "demo"
       [("only_for", " , ,")]) "only_for" true = Ok false.
Proof.
  apply (C10_no_tokens_gives_false Examples.desktop
           (ExtensionMetadata.init (host := Examples.desktop) "demo"
              [("only_for", " , ,")]) "only_for" " , ," true).
  - reflexivity.
  - reflexivity.
  - reflexivity.
  - right. reflexivity.
Defined.

(* ================================================================= *)
(** ** ExtensionContainer: [set_enabled] *)

Section SetEnabled.
Context `{host : Host}.

(** An unavailable extension has declared [only_for]. *)
Lemma unavailable_declares_only_for (md : ExtensionMetadata.t) :
  ExtensionMetadata.available_for_current_ui md = Ok false ->
  exists value,
    PyDict.get "only_for" (ExtensionMetadata.dict md) = Some value
    /\ ExtensionMetadata.getattr md "only_for" = Some (Text value).
Proof.
  unfold ExtensionMetadata.available_for_current_ui. intros Hav.
  destruct (PyDict.get "only_for" (ExtensionMetadata.dict md))
    as [value|] eqn:E.
  - exists value. split; [reflexivity|].
    unfold ExtensionMetadata.getattr. now rewrite E.
  - rewrite check_ui_undeclared in Hav by (exact E || reflexivity).
    discriminate Hav.
Qed.

(** Enabling when the load raises: the exception is logged, rewrapped and
    stored, and the container stays disabled. *)
Lemma set_enabled_load_raises (self c1 : ExtensionContainer.t)
  (tr tr1 : Trace) (e : PyExc) :
  ExtensionContainer.enabled self = false ->
  ExtensionContainer.load_extension self tr = (c1, tr1, Some e) ->
  ExtensionContainer.set_enabled self true tr
  = (ExtensionContainer.with_enabled false
       (ExtensionContainer.with_error
          (Some (ExtensionContainer.wrap_import_error e)) c1),
     tr1 ++ [Log ERROR "Cannot load %s from %s: %s"
               [ArgStr (ExtensionContainer.name c1);
                ArgStr (ExtensionContainer.filename c1); ArgExc e]]).
Proof.
  intros Hdis Hload.
  unfold ExtensionContainer.set_enabled, ExtensionContainer.try_enable.
  rewrite Hdis, Hload. reflexivity.
Qed.

(** Loading a file whose execution raises. *)
Lemma load_extension_exec_raises (self : ExtensionContainer.t) (tr : Trace)
  (e : PyExc) :
  ExtensionContainer.module self = None ->
  ExtensionMetadata.available_for_current_ui
    (ExtensionContainer.metadata self) = Ok true ->
  exec_module (ExtensionContainer.filename self) = Raise e ->
  ExtensionContainer.load_extension self tr
  = (self,
     tr ++ [ExecModule
              (OsPath.splitext_root
                 (OsPath.basename (ExtensionContainer.filename self)))
              (ExtensionContainer.filename self)]
        ++ [DeleteFile (ExtensionContainer.filename self ++ "c")],
     Some e).
Proof.
  intros Hmod Hav Hexec. unfold ExtensionContainer.load_extension.
  rewrite Hmod, Hav, Hexec. now rewrite <- app_assoc.
Qed.

(** What the code stores for an import failure that names its module. *)
Lemma set_enabled_import_failure (self : ExtensionContainer.t) (tr : Trace)
  (module_name msg : string) :
  ExtensionContainer.enabled self = false ->
  ExtensionContainer.module self = None ->
  ExtensionMetadata.available_for_current_ui
    (ExtensionContainer.metadata self) = Ok true ->
  exec_module (ExtensionContainer.filename self)
    = Raise (ImportError (Some module_name) msg) ->
  module_name <> EmptyString ->
  let c' := fst (ExtensionContainer.set_enabled self true tr) in
  ExtensionContainer.error c'
    = Some (MissingCommand
              (PyStr.format1 (gettext "Python module not found: %(module)s")
                 "module" module_name)
              module_name (Some (ImportError (Some module_name) msg)))
  /\ ExtensionContainer.enabled c' = false.
Proof.
  intros Hdis Hmod Hav Hexec Hname c'. subst c'.
  rewrite (set_enabled_load_raises self self tr _ _ Hdis
             (load_extension_exec_raises self tr _ Hmod Hav Hexec)).
  simpl. split; [|reflexivity].
  destruct module_name; [now elim Hname | reflexivity].
Qed.

End SetEnabled.

(** Claim C1 as stated fails.  A container whose file raises an import
    failure for the module nonexistent_module is enabled: the container
    stays disabled and the stored error carries the module's name, but it
    is an instance of [MissingCommand], not of [MissingModule]. *)
Lemma C1_counterexample :
  let c := Examples.fresh "needs_missing_module"
             "/ext/needs_missing_module.py" [] in
  let c' := fst (ExtensionContainer.set_enabled (host := Examples.desktop)
                   c true []) in
  exec_module (Host := Examples.desktop) (ExtensionContainer.filename c)
    = Raise (ImportError (Some "nonexistent_module")
               "No module named 'nonexistent_module'")
  /\ ExtensionContainer.error c'
     = Some (MissingCommand "Python module not found: nonexistent_module"
               "nonexistent_module" (Some Examples.no_such_module))
  /\ (exists e, ExtensionContainer.error c' = Some e
                /\ is_MissingModule e = false
                /\ is_MissingCommand e = true
                /\ dependency_of e = Some "nonexistent_module")
  /\ ExtensionContainer.enabled c' = false.
Proof.
  repeat split.
  eexists. repeat split.
Qed.

(** Claim C1, as the code has it.  For every disabled container whose
    enabling attempt raises an import failure (while the file is executed,
    while the extension object is built, or in its [on_load]),
    [set_enabled(true)] leaves the [enabled] flag false and stores an error
    that carries the unresolved module's name.  The code wraps the import
    failure in [MissingCommand], as the comment above the wrapping says:
    the stored error is a [MissingCommand] whose dependency is the
    module's name and whose cause is the import failure, and it is not a
    [MissingModule].  An import failure that names no module is stored as
    it was raised. *)
Theorem C1_import_failure_is_wrapped_in_MissingCommand :
  forall (host : Host) (self c1 : ExtensionContainer.t) (tr tr1 : Trace)
         (name : option string) (msg : string),
    ExtensionContainer.enabled self = false ->
    ExtensionContainer.try_enable self tr
      = (c1, tr1, Some (ImportError name msg)) ->
    let c' := fst (ExtensionContainer.set_enabled self true tr) in
    ExtensionContainer.enabled c' = false
    /\ match name with
       | Some module_name =>
           if PyStr.truthy module_name then
             ExtensionContainer.error c'
               = Some (MissingCommand
                         (PyStr.format1
                            (gettext "Python module not found: %(module)s")
                            "module" module_name)
                         module_name (Some (ImportError name msg)))
             /\ (exists e,
                    ExtensionContainer.error c' = Some e
                    /\ is_MissingCommand e = true
                    /\ is_MissingDependency e = true
                    /\ is_MissingModule e = false
                    /\ dependency_of e = Some module_name)
           else ExtensionContainer.error c' = Some (ImportError name msg)
       | None => ExtensionContainer.error c' = Some (ImportError name msg)
       end.
Proof.
  intros host self c1 tr tr1 name msg Hdis Htry c'. subst c'.
  unfold ExtensionContainer.set_enabled.
  rewrite Hdis, Htry. cbn [andb negb fst].
  split; [reflexivity|].
  destruct name as [module_name|]; [|reflexivity].
  cbn [ExtensionContainer.wrap_import_error is_ImportError].
  destruct (PyStr.truthy module_name) eqn:Hname.
  - split; [reflexivity|].
    eexists. split; [reflexivity|]. repeat split.
  - reflexivity.
Qed.

Lemma C1_import_failure_witness :
  let c' := fst (ExtensionContainer.set_enabled (host := Examples.desktop)
                   Examples.needs_missing_module true []) in
  ExtensionContainer.enabled c' = false
  /\ (ExtensionContainer.error c'
        = Some (MissingCommand
                  (PyStr.format1
                     (gettext (Host := Examples.desktop)
                        "Python module not found: %(module)s")
                     "module" "nonexistent_module")
                  "nonexistent_module"
                  (Some (ImportError (Some "nonexistent_module")
                           "No module named 'nonexistent_module'")))
      /\ (exists e,
             ExtensionContainer.error c' = Some e
             /\ is_MissingCommand e = true
             /\ is_MissingDependency e = true
             /\ is_MissingModule e = false
             /\ dependency_of e = Some "nonexistent_module")).
Proof.
  exact (C1_import_failure_is_wrapped_in_MissingCommand Examples.desktop
           Examples.needs_missing_module _ [] _
           (Some "nonexistent_module")
           "No module named 'nonexistent_module'" eq_refl eq_refl).
Defined.

(** Claim C2, as the code has it.  For every disabled container with no
    module whose metadata is not available for the current UI,
    [set_enabled(true)] loads nothing and leaves [module] null, records no
    error (a stored one is cleared), logs the skip, and marks the
    container enabled. *)
Theorem C2_unavailable_is_enabled_without_module :
  forall (host : Host) (self : ExtensionContainer.t) (tr : Trace),
    ExtensionContainer.enabled self = false ->
    ExtensionContainer.module self = None ->
    ExtensionMetadata.available_for_current_ui
      (ExtensionContainer.metadata self) = Ok false ->
    exists only_for,
      PyDict.get "only_for"
        (ExtensionMetadata.dict (ExtensionContainer.metadata self))
        = Some only_for
      /\ ExtensionContainer.set_enabled self true tr
         = (ExtensionContainer.with_enabled true
              (ExtensionContainer.with_error None self),
            tr ++ [Log INFO
                     ("Not loading " ++ ExtensionContainer.dq ++ "%s"
                      ++ ExtensionContainer.dq ++ " (only_for = "
                      ++ ExtensionContainer.dq ++ "%s"
                      ++ ExtensionContainer.dq ++ ")")
                     [ArgStr (ExtensionContainer.name self);
                      ArgStr only_for]])
      /\ ExtensionContainer.module
           (fst (ExtensionContainer.set_enabled self true tr)) = None
      /\ ExtensionContainer.error
           (fst (ExtensionContainer.set_enabled self true tr)) = None
      /\ ExtensionContainer.enabled
           (fst (ExtensionContainer.set_enabled self true tr)) = true.
Proof.
  intros host self tr Hdis Hmod Hav.
  destruct (unavailable_declares_only_for _ Hav) as (value & Hget & Hattr).
  exists value. split; [exact Hget|].
  assert (Heq :
    ExtensionContainer.set_enabled self true tr
    = (ExtensionContainer.with_enabled true
         (ExtensionContainer.with_error None self),
       tr ++ [Log INFO
                ("Not loading " ++ ExtensionContainer.dq ++ "%s"
                 ++ ExtensionContainer.dq ++ " (only_for = "
                 ++ ExtensionContainer.dq ++ "%s"
                 ++ ExtensionContainer.dq ++ ")")
                [ArgStr (ExtensionContainer.name self); ArgStr value]])).
  { unfold ExtensionContainer.set_enabled, ExtensionContainer.try_enable,
      ExtensionContainer.load_extension, ExtensionContainer.call_method.
    rewrite Hdis, Hmod, Hav, Hattr. simpl. now rewrite Hmod. }
  rewrite Heq. simpl. repeat split. exact Hmod.
Qed.

(** The theorem at an extension for the command line only, in a desktop
    session. *)
Lemma C2_unavailable_witness :
  exists only_for,
    PyDict.get "only_for"
      (ExtensionMetadata.dict
         (ExtensionContainer.metadata
            (Examples.fresh "cli_only" "/ext/menu_a.py"
               [("only_for", "cli")]))) = Some only_for
    /\ ExtensionContainer.set_enabled (host := Examples.desktop)
         (Examples.fresh "cli_only" "/ext/menu_a.py" [("only_for", "cli")])
         true []
       = (ExtensionContainer.with_enabled true
            (ExtensionContainer.with_error None
               (Examples.fresh "cli_only" "/ext/menu_a.py"
                  [("only_for", "cli")])),
          [] ++ [Log INFO
                   ("Not loading " ++ ExtensionContainer.dq ++ "%s"
                    ++ ExtensionContainer.dq ++ " (only_for = "
                    ++ ExtensionContainer.dq ++ "%s"
                    ++ ExtensionContainer.dq ++ ")")
                   [ArgStr "cli_only"; ArgStr only_for]])
    /\ ExtensionContainer.module
         (fst (ExtensionContainer.set_enabled (host := Examples.desktop)
                 (Examples.fresh "cli_only" "/ext/menu_a.py"
                    [("only_for", "cli")]) true [])) = None
    /\ ExtensionContainer.error
         (fst (ExtensionContainer.set_enabled (host := Examples.desktop)
                 (Examples.fresh "cli_only" "/ext/menu_a.py"
                    [("only_for", "cli")]) true [])) = None
    /\ ExtensionContainer.enabled
         (fst (ExtensionContainer.set_enabled (host := Examples.desktop)
                 (Examples.fresh "cli_only" "/ext/menu_a.py"
                    [("only_for", "cli")]) true [])) = true.
Proof.
  exact (C2_unavailable_is_enabled_without_module Examples.desktop
           (Examples.fresh "cli_only" "/ext/menu_a.py" [("only_for", "cli")])
           [] eq_refl eq_refl eq_refl).
Defined.

(** Claim C2 as stated fails: an extension for the command line only,
    enabled in a desktop session, is not available, starts disabled, and
    ends with its [enabled] flag set. *)
Lemma C2_counterexample :
  ExtensionMetadata.available_for_current_ui (host := Examples.desktop)
    (ExtensionContainer.metadata
       (Examples.fresh "cli_only" "/ext/menu_a.py" [("only_for", "cli")]))
  = Ok false
  /\ ExtensionContainer.enabled
       (Examples.fresh "cli_only" "/ext/menu_a.py" [("only_for", "cli")])
     = false
  /\ ExtensionContainer.enabled
       (fst (ExtensionContainer.set_enabled (host := Examples.desktop)
               (Examples.fresh "cli_only" "/ext/menu_a.py"
                  [("only_for", "cli")]) true []))
     = true.
Proof. repeat split. Qed.

(** Claim C3, as the code has it.  For every disabled container whose
    module loads (or is loaded already) and whose [on_load] hook raises,
    [set_enabled(true)] returns normally, logs the failure, keeps the
    loaded module, stores the hook's exception as the container's error
    (rewrapped like a load failure) and leaves the container disabled. *)
Theorem C3_on_load_failure_disables :
  forall (host : Host) (self loaded : ExtensionContainer.t)
         (tr tr1 : Trace) (instance : Extension) (e : PyExc),
    ExtensionContainer.enabled self = false ->
    ExtensionContainer.load_extension self tr = (loaded, tr1, None) ->
    ExtensionContainer.module loaded = Some instance ->
    getattr_method instance "on_load" = Some (Raises e) ->
    let result := ExtensionContainer.set_enabled self true tr in
    snd result
      = tr1 ++ [Call (ExtensionContainer.name loaded) "on_load"]
            ++ [Log ERROR "Cannot load %s from %s: %s"
                  [ArgStr (ExtensionContainer.name loaded);
                   ArgStr (ExtensionContainer.filename loaded); ArgExc e]]
    /\ ExtensionContainer.module (fst result) = Some instance
    /\ ExtensionContainer.error (fst result)
       = Some (ExtensionContainer.wrap_import_error e)
    /\ ExtensionContainer.enabled (fst result) = false.
Proof.
  intros host self loaded tr tr1 instance e Hdis Hload Hmod Hhook result.
  subst result.
  unfold ExtensionContainer.set_enabled, ExtensionContainer.try_enable,
    ExtensionContainer.call_method.
  rewrite Hdis, Hload. simpl.
  unfold hasattr_module, PyDict.contains.
  rewrite Hmod. unfold getattr_method in Hhook. rewrite Hhook. simpl.
  unfold getattr_method. rewrite Hhook. simpl.
  rewrite <- app_assoc. repeat split. exact Hmod.
Qed.

(** The theorem at an extension whose [on_load] raises a RuntimeError. *)
Lemma C3_on_load_failure_witness :
  let result :=
    ExtensionContainer.set_enabled (host := Examples.desktop)
      (Examples.fresh "failing_on_load" "/ext/failing_on_load.py" [])
      true [] in
  snd result
    = [ExecModule "failing_on_load" "/ext/failing_on_load.py";
       DeleteFile "/ext/failing_on_load.pyc";
       Instantiate "failing_on_load";
       Log INFO "Module loaded: %s" [ArgStr "/ext/failing_on_load.py"]]
      ++ [Call "failing_on_load" "on_load"]
      ++ [Log ERROR "Cannot load %s from %s: %s"
            [ArgStr "failing_on_load"; ArgStr "/ext/failing_on_load.py";
             ArgExc (OtherException "RuntimeError" "on_load failed")]]
  /\ ExtensionContainer.module (fst result) = Some Examples.failing_on_load
  /\ ExtensionContainer.error (fst result)
     = Some (ExtensionContainer.wrap_import_error (host := Examples.desktop)
               (OtherException "RuntimeError" "on_load failed"))
  /\ ExtensionContainer.enabled (fst result) = false.
Proof.
  exact (C3_on_load_failure_disables Examples.desktop
           (Examples.fresh "failing_on_load" "/ext/failing_on_load.py" [])
           _ [] _ Examples.failing_on_load
           (OtherException "RuntimeError" "on_load failed")
           eq_refl eq_refl eq_refl eq_refl).
Defined.

(** Claim C3 as stated fails: the module of this extension loads, its
    [on_load] raises, and the container ends disabled with the exception
    stored as its error. *)
Lemma C3_counterexample :
  ExtensionContainer.load_extension (host := Examples.desktop)
    (Examples.fresh "failing_on_load" "/ext/failing_on_load.py" []) []
  = (ExtensionContainer.with_module (Some Examples.failing_on_load)
       (ExtensionContainer.with_default_config (Some [])
          (Examples.fresh "failing_on_load" "/ext/failing_on_load.py" [])),
     [ExecModule "failing_on_load" "/ext/failing_on_load.py";
      DeleteFile "/ext/failing_on_load.pyc";
      Instantiate "failing_on_load";
      Log INFO "Module loaded: %s" [ArgStr "/ext/failing_on_load.py"]],
     None)
  /\ getattr_method Examples.failing_on_load "on_load"
     = Some (Raises (OtherException "RuntimeError" "on_load failed"))
  /\ ExtensionContainer.enabled
       (fst (ExtensionContainer.set_enabled (host := Examples.desktop)
               (Examples.fresh "failing_on_load" "/ext/failing_on_load.py" [])
               true []))
     = false
  /\ ExtensionContainer.error
       (fst (ExtensionContainer.set_enabled (host := Examples.desktop)
               (Examples.fresh "failing_on_load" "/ext/failing_on_load.py" [])
               true []))
     = Some (OtherException "RuntimeError" "on_load failed").
Proof. repeat split. Qed.

(* ================================================================= *)
(** ** Dispatch: [call_extensions] *)

Section Dispatch.

(** The code's aggregation is the documented one. *)
Lemma aggregate_documented (result cb_res : PyVal) :
  aggregate result cb_res = Documented.aggregate result cb_res.
Proof. destruct result, cb_res; reflexivity. Qed.

Lemma dispatch_one_split (method_name : string) (result : PyVal) (tr : Trace)
  (c : ExtensionContainer.t) :
  dispatch_one method_name (result, tr) c
  = (fold_left Documented.aggregate
       (Documented.contribution method_name c) result,
     tr ++ dispatch_events method_name c).
Proof.
  unfold dispatch_events, dispatch_one, Documented.contribution.
  destruct (ExtensionContainer.enabled c);
    [|now rewrite app_nil_r].
  destruct (ExtensionContainer.module c) as [instance|];
    [|now rewrite app_nil_r].
  destruct (getattr_method instance method_name) as [[v|e]|]; simpl.
  - now rewrite aggregate_documented.
  - now rewrite <- app_assoc.
  - now rewrite app_nil_r.
Qed.

Lemma visit_containers_split (method_name : string)
  (cs : list ExtensionContainer.t) (result : PyVal) (tr : Trace) :
  visit_containers method_name cs (result, tr)
  = (fold_left Documented.aggregate
       (Documented.contributions method_name cs) result,
     tr ++ flat_map (dispatch_events method_name) cs).
Proof.
  unfold visit_containers, Documented.contributions.
  revert result tr.
  induction cs as [|c cs IH]; intros result tr; cbn [fold_left flat_map].
  - now rewrite app_nil_r.
  - rewrite dispatch_one_split, IH.
    now rewrite fold_left_app, app_assoc.
Qed.

Lemma visit_containers_app (method_name : string)
  (pre post : list ExtensionContainer.t) (st : PyVal * Trace) :
  visit_containers method_name (pre ++ post) st
  = visit_containers method_name post (visit_containers method_name pre st).
Proof. unfold visit_containers. apply fold_left_app. Qed.

Lemma calls_of_app (tr1 tr2 : Trace) :
  Documented.calls_of (tr1 ++ tr2)
  = Documented.calls_of tr1 ++ Documented.calls_of tr2.
Proof. unfold Documented.calls_of. apply flat_map_app. Qed.

Lemma errors_of_app (tr1 tr2 : Trace) :
  Documented.errors_of (tr1 ++ tr2)
  = Documented.errors_of tr1 ++ Documented.errors_of tr2.
Proof. unfold Documented.errors_of. apply filter_app. Qed.

(** Each reached container is invoked once, the others not at all. *)
Lemma calls_of_dispatch_events (method_name : string)
  (cs : list ExtensionContainer.t) :
  Documented.calls_of (flat_map (dispatch_events method_name) cs)
  = Documented.invocations method_name cs.
Proof.
  unfold Documented.invocations.
  induction cs as [|c cs IH]; simpl; [reflexivity|].
  rewrite calls_of_app, IH. clear IH.
  unfold dispatch_events, dispatch_one, Documented.receives, hasattr_module,
    PyDict.contains, getattr_method.
  destruct (ExtensionContainer.enabled c); [|reflexivity].
  destruct (ExtensionContainer.module c) as [instance|]; [|reflexivity].
  simpl.
  destruct (PyDict.get method_name (methods instance)) as [[v|e]|];
    reflexivity.
Qed.

End Dispatch.

(** Claim C5.  For every dispatch of a hook: the containers are visited in
    construction order, the disabled ones, the ones without a module and
    the ones not defining the hook being skipped; the code's aggregation
    is the documented one (two lists are concatenated, otherwise a value
    that is not absent replaces the aggregate), applied to the returned
    values in that order, starting from an absent aggregate; the decorated
    body runs after the last container and does not change the aggregate,
    which is then returned.  Dispatching on_create_menu to an extension
    returning [("x", f)] and one returning [("y", g)] yields the list of
    both entries in dispatch order. *)
Theorem C5_dispatch_order_and_aggregation :
  forall (method : string) (func : Trace -> Trace)
         (self : ExtensionManager.t) (tr : Trace),
    (forall running current : PyVal,
        aggregate running current = Documented.aggregate running current)
    /\ (exists loop_trace,
          call_extensions method func self tr
          = (fold_left Documented.aggregate
               (Documented.contributions method
                  (ExtensionManager.containers self)) PyNone,
             func loop_trace)
          /\ Documented.calls_of loop_trace
             = Documented.calls_of tr
               ++ Documented.invocations method
                    (ExtensionManager.containers self))
    /\ on_create_menu
         (ExtensionManager.mk []
            [Examples.loaded "menu_a" "/ext/menu_a.py" Examples.menu_a;
             Examples.loaded "menu_b" "/ext/menu_b.py" Examples.menu_b] [])
         []
       = (PyList [Examples.entry "x" "f"; Examples.entry "y" "g"],
          [Call "menu_a" "on_create_menu"; Call "menu_b" "on_create_menu"]).
Proof.
  intros method func self tr. split; [|split].
  - apply aggregate_documented.
  - unfold call_extensions. rewrite visit_containers_split.
    eexists. split; [reflexivity|].
    now rewrite calls_of_app, calls_of_dispatch_events.
  - reflexivity.
Qed.

(** Claim C4.  For every dispatch over a list of containers in which an
    enabled, loaded container's hook raises: the call returns normally;
    the failure is logged with the container's filename and the hook's
    name right after the failing call; the containers after it are
    visited as they would be without it; and the aggregate is built from
    the values returned by the containers before and after it.  With
    three enabled loaded containers of which the second raises, the first
    and the third are invoked, the aggregate holds their two
    contributions, and one error is logged. *)
Theorem C4_hook_failure_does_not_interrupt :
  forall (method : string) (func : Trace -> Trace)
         (self : ExtensionManager.t) (pre post : list ExtensionContainer.t)
         (c : ExtensionContainer.t) (tr : Trace) (instance : Extension)
         (e : PyExc),
    ExtensionManager.containers self = pre ++ c :: post ->
    ExtensionContainer.enabled c = true ->
    ExtensionContainer.module c = Some instance ->
    getattr_method instance method = Some (Raises e) ->
    (exists before after,
        call_extensions method func self tr
        = (fold_left Documented.aggregate
             (Documented.contributions method pre
              ++ Documented.contributions method post) PyNone,
           func (before
                 ++ [Call (ExtensionContainer.name c) method;
                     Log ERROR "Error in %s in %s: %s"
                       [ArgStr (ExtensionContainer.filename c);
                        ArgStr method; ArgExc e]]
                 ++ after))
        /\ Documented.calls_of before
           = Documented.calls_of tr ++ Documented.invocations method pre
        /\ Documented.calls_of after = Documented.invocations method post)
    /\ (let result :=
          call_extensions "on_create_menu"
            docstring_only
            (ExtensionManager.mk []
               [Examples.loaded "menu_a" "/ext/menu_a.py" Examples.menu_a;
                Examples.loaded "broken_menu" "/ext/broken_menu.py"
                  Examples.broken_menu;
                Examples.loaded "menu_b" "/ext/menu_b.py" Examples.menu_b]
               []) [] in
        fst result = PyList [Examples.entry "x" "f"; Examples.entry "y" "g"]
        /\ Documented.calls_of (snd result)
           = [("menu_a", "on_create_menu"); ("broken_menu", "on_create_menu");
              ("menu_b", "on_create_menu")]
        /\ Documented.errors_of (snd result)
           = [Log ERROR "Error in %s in %s: %s"
                [ArgStr "/ext/broken_menu.py"; ArgStr "on_create_menu";
                 ArgExc (OtherException "RuntimeError" "menu failed")]]).
Proof.
  intros method func self pre post c tr instance e Hcs Hen Hmod Hhook.
  split; [|repeat split].
  unfold call_extensions. rewrite Hcs, visit_containers_split.
  assert (Hcontrib : Documented.contributions method (pre ++ c :: post)
                     = Documented.contributions method pre
                       ++ Documented.contributions method post).
  { unfold Documented.contributions. rewrite flat_map_app. simpl.
    unfold Documented.contribution at 2. now rewrite Hen, Hmod, Hhook. }
  assert (Hevents : dispatch_events method c
                    = [Call (ExtensionContainer.name c) method;
                       Log ERROR "Error in %s in %s: %s"
                         [ArgStr (ExtensionContainer.filename c);
                          ArgStr method; ArgExc e]]).
  { unfold dispatch_events, dispatch_one. now rewrite Hen, Hmod, Hhook. }
  exists (tr ++ flat_map (dispatch_events method) pre),
         (flat_map (dispatch_events method) post).
  split; [|split].
  - rewrite Hcontrib, flat_map_app. simpl. rewrite Hevents.
    now rewrite <- !app_assoc.
  - now rewrite calls_of_app, calls_of_dispatch_events.
  - apply calls_of_dispatch_events.
Qed.

(* ================================================================= *)
(** ** Discovery: names derived from filenames *)

Section Names.

Local Open Scope string_scope.

Lemma mem_append (sep : ascii) (a b : string) :
  PyStr.mem sep (a ++ b) = PyStr.mem sep a || PyStr.mem sep b.
Proof.
  induction a as [|c a IH]; simpl; [reflexivity|].
  now rewrite IH, orb_assoc.
Qed.

Lemma after_last_absent (sep : ascii) (s : string) :
  PyStr.mem sep s = false -> PyStr.after_last sep s = s.
Proof.
  destruct s as [|c r]; simpl; [reflexivity|].
  intros Hmem. apply orb_false_iff in Hmem as [Hc Hr].
  now rewrite Hr, Hc.
Qed.

Lemma upto_last_absent (sep : ascii) (s : string) :
  PyStr.mem sep s = false -> PyStr.upto_last sep s = EmptyString.
Proof.
  destruct s as [|c r]; simpl; [reflexivity|].
  intros Hmem. apply orb_false_iff in Hmem as [Hc Hr].
  now rewrite Hr, Hc.
Qed.

Lemma after_last_append (sep : ascii) (a b : string) :
  PyStr.mem sep b = false ->
  PyStr.after_last sep (a ++ String sep b) = b.
Proof.
  intros Hb. induction a as [|c a IH]; simpl.
  - now rewrite Hb, Ascii.eqb_refl.
  - rewrite mem_append. simpl. rewrite Ascii.eqb_refl.
    now rewrite orb_true_r.
Qed.

Lemma before_last_append (sep : ascii) (a b : string) :
  PyStr.mem sep b = false ->
  PyStr.before_last sep (a ++ String sep b) = a.
Proof.
  intros Hb. induction a as [|c a IH]; simpl.
  - now rewrite Hb, Ascii.eqb_refl.
  - rewrite mem_append. simpl. rewrite Ascii.eqb_refl.
    now rewrite orb_true_r, IH.
Qed.

(** The last component of a path. *)
Lemma basename_of_path (dir file : string) :
  PyStr.mem "/" file = false ->
  OsPath.basename (dir ++ "/" ++ file) = file.
Proof. intros Hfile. now apply after_last_append. Qed.

(** The root of a plain file name with an extension. *)
Lemma splitext_root_of_file (base ext : string) :
  PyStr.mem "/" base = false ->
  PyStr.mem "/" ext = false ->
  PyStr.mem "." ext = false ->
  PyStr.all_chars (fun c => Ascii.eqb c ".") base = false ->
  OsPath.splitext_root (base ++ "." ++ ext) = base.
Proof.
  intros Hbase Hext Hdot Hdots.
  assert (Hslash : PyStr.mem "/" (base ++ "." ++ ext) = false).
  { rewrite mem_append. simpl. now rewrite Hbase, Hext. }
  unfold OsPath.splitext_root.
  rewrite (after_last_absent _ _ Hslash), (upto_last_absent _ _ Hslash).
  rewrite mem_append. simpl. rewrite orb_true_r.
  now rewrite (before_last_append "." base ext Hdot), Hdots.
Qed.

Lemma drop_digits_prefix (digits rest : string) (c : ascii) :
  PyStr.all_chars PyStr.isdigit09 digits = true ->
  PyStr.isdigit09 c = false ->
  ExtensionManager.drop_digits (digits ++ String c rest) = String c rest.
Proof.
  intros Hdigits Hc. induction digits as [|d digits IH]; simpl.
  - now rewrite Hc.
  - simpl in Hdigits. apply andb_true_iff in Hdigits as [Hd Hrest].
    rewrite Hd. now apply IH.
Qed.

(** An ordering prefix - digits, possibly none, and an underscore - is
    removed, and what follows it is kept whatever it is. *)
Lemma strip_ordering_prefix_prefixed (digits rest : string) :
  PyStr.all_chars PyStr.isdigit09 digits = true ->
  ExtensionManager.strip_ordering_prefix (digits ++ "_" ++ rest) = rest.
Proof.
  intros Hdigits. unfold ExtensionManager.strip_ordering_prefix.
  simpl. now rewrite (drop_digits_prefix digits rest "_" Hdigits eq_refl).
Qed.

(** A name whose leading digits are not followed by an underscore is
    kept. *)
Lemma strip_ordering_prefix_plain (name : string) :
  match ExtensionManager.drop_digits name with
  | String c _ => Ascii.eqb c "_" = false
  | EmptyString => True
  end ->
  ExtensionManager.strip_ordering_prefix name = name.
Proof.
  unfold ExtensionManager.strip_ordering_prefix.
  destruct (ExtensionManager.drop_digits name) as [|c r]; [reflexivity|].
  now intros ->.
Qed.

Lemma digits_have_no_slash (digits : string) :
  PyStr.all_chars PyStr.isdigit09 digits = true ->
  PyStr.mem "/" digits = false.
Proof.
  induction digits as [|d digits IH]; simpl; [reflexivity|].
  intros Hall. apply andb_true_iff in Hall as [Hd Hrest].
  rewrite (IH Hrest), orb_false_r.
  destruct (Ascii.eqb_spec d "/") as [->|]; [discriminate Hd | reflexivity].
Qed.

Lemma prefixed_not_all_dots (digits rest : string) :
  PyStr.all_chars PyStr.isdigit09 digits = true ->
  PyStr.all_chars (fun c => Ascii.eqb c ".") (digits ++ "_" ++ rest) = false.
Proof.
  destruct digits as [|d digits]; simpl; [reflexivity|].
  intros Hall. apply andb_true_iff in Hall as [Hd _].
  destruct (Ascii.eqb_spec d ".") as [->|]; [discriminate Hd | reflexivity].
Qed.

(** The name of a file with an ordering prefix and an extension, in any
    directory. *)
Lemma extension_name_prefixed (dir digits stem ext : string) :
  PyStr.all_chars PyStr.isdigit09 digits = true ->
  PyStr.mem "/" stem = false ->
  PyStr.mem "/" ext = false ->
  PyStr.mem "." ext = false ->
  ExtensionManager.extension_name
    (dir ++ "/" ++ (digits ++ "_" ++ stem) ++ "." ++ ext) = stem.
Proof.
  intros Hdigits Hstem Hext Hdot.
  assert (Hbase : PyStr.mem "/" (digits ++ "_" ++ stem) = false).
  { rewrite mem_append. simpl.
    now rewrite (digits_have_no_slash digits Hdigits), Hstem. }
  unfold ExtensionManager.extension_name.
  rewrite basename_of_path.
  - rewrite splitext_root_of_file; try assumption.
    + now apply strip_ordering_prefix_prefixed.
    + now apply prefixed_not_all_dots.
  - rewrite mem_append, Hbase. simpl. exact Hext.
Qed.

(** The name of a file without an ordering prefix. *)
Lemma extension_name_plain (dir stem ext : string) :
  PyStr.mem "/" stem = false ->
  PyStr.mem "/" ext = false ->
  PyStr.mem "." ext = false ->
  PyStr.all_chars (fun c => Ascii.eqb c ".") stem = false ->
  ExtensionManager.strip_ordering_prefix stem = stem ->
  ExtensionManager.extension_name (dir ++ "/" ++ stem ++ "." ++ ext) = stem.
Proof.
  intros Hstem Hext Hdot Hdots Hplain.
  unfold ExtensionManager.extension_name.
  rewrite basename_of_path.
  - now rewrite splitext_root_of_file.
  - rewrite mem_append, Hstem. simpl. exact Hext.
Qed.

End Names.

(* ================================================================= *)
(** ** Discovery: the name-to-filename map and its sorted items *)

Section StringOrder.

Lemma ascii_compare_refl (a : ascii) : Ascii.compare a a = Eq.
Proof. unfold Ascii.compare. apply N.compare_refl. Qed.

Lemma ascii_compare_trans (c : comparison) (x y z : ascii) :
  Ascii.compare x y = c -> Ascii.compare y z = c -> Ascii.compare x z = c.
Proof.
  unfold Ascii.compare. destruct c; intros Hxy Hyz.
  - apply N.compare_eq_iff in Hxy, Hyz. rewrite Hxy, Hyz.
    apply N.compare_refl.
  - rewrite N.compare_lt_iff in *. lia.
  - rewrite N.compare_gt_iff in *. lia.
Qed.

Lemma string_leb_trans (s1 s2 s3 : string) :
  String.leb s1 s2 = true -> String.leb s2 s3 = true ->
  String.leb s1 s3 = true.
Proof.
  unfold String.leb. revert s2 s3.
  induction s1 as [|a s1 IH]; intros [|b s2] [|c s3]; simpl;
    try reflexivity; try discriminate.
  destruct (Ascii.compare a b) eqn:Eab; try discriminate;
    destruct (Ascii.compare b c) eqn:Ebc; try discriminate; intros H12 H23.
  - rewrite (ascii_compare_trans Eq a b c Eab Ebc). now apply (IH s2).
  - apply Ascii.compare_eq_iff in Eab. subst b. now rewrite Ebc.
  - apply Ascii.compare_eq_iff in Ebc. subst c. now rewrite Eab.
  - now rewrite (ascii_compare_trans Lt a b c Eab Ebc).
Qed.

Lemma string_leb_false_flip (s1 s2 : string) :
  String.leb s1 s2 = false -> String.leb s2 s1 = true.
Proof.
  intros Hfalse. destruct (String.leb_total s1 s2) as [H | H];
    [congruence | exact H].
Qed.

End StringOrder.

Section SortedItems.

Lemma insert_by_filename_perm (x : string * string)
  (l : list (string * string)) :
  Permutation (ExtensionManager.insert_by_filename x l) (x :: l).
Proof.
  induction l as [|y l IH]; simpl; [reflexivity|].
  destruct (String.leb (snd x) (snd y)); [reflexivity|].
  rewrite IH. apply perm_swap.
Qed.

Lemma sorted_by_filename_perm (items : list (string * string)) :
  Permutation (ExtensionManager.sorted_by_filename items) items.
Proof.
  induction items as [|x items IH]; simpl; [reflexivity|].
  rewrite insert_by_filename_perm. now constructor.
Qed.

Lemma insert_by_filename_sorted (x : string * string)
  (l : list (string * string)) :
  StronglySorted Documented.by_filename l ->
  StronglySorted Documented.by_filename (ExtensionManager.insert_by_filename x l).
Proof.
  induction 1 as [|y l Hsorted IH Hall]; simpl.
  - constructor; constructor.
  - destruct (String.leb (snd x) (snd y)) eqn:E.
    + constructor; [now constructor|].
      constructor; [exact E|].
      eapply Forall_impl; [|exact Hall].
      intros z Hyz. unfold Documented.by_filename in *.
      now apply (string_leb_trans _ (snd y)).
    + constructor; [exact IH|].
      apply (Permutation_Forall
               (Permutation_sym (insert_by_filename_perm x l))).
      constructor; [|exact Hall].
      now apply string_leb_false_flip.
Qed.

Lemma sorted_by_filename_sorted (items : list (string * string)) :
  StronglySorted Documented.by_filename (ExtensionManager.sorted_by_filename items).
Proof.
  induction items as [|x items IH]; simpl; [constructor|].
  now apply insert_by_filename_sorted.
Qed.

End SortedItems.

Section DictItems.
Context {V : Type}.

Lemma dict_get_in (k : string) (v : V) (d : PyDict.t V) :
  PyDict.get k d = Some v -> In (k, v) d.
Proof.
  induction d as [|[k' v'] d IH]; simpl; [discriminate|].
  destruct (String.eqb_spec k k') as [->|Hne].
  - intros [= ->]. now left.
  - intros Hget. right. now apply IH.
Qed.

Lemma dict_get_none_keys (k : string) (d : PyDict.t V) :
  PyDict.get k d = None -> ~ In k (PyDict.keys d).
Proof.
  induction d as [|[k' v'] d IH]; simpl; [tauto|].
  destruct (String.eqb_spec k k') as [->|Hne]; [discriminate|].
  intros Hget [Heq | Hin]; [congruence | now apply IH].
Qed.

Lemma dict_in_get (k : string) (v : V) (d : PyDict.t V) :
  NoDup (PyDict.keys d) -> In (k, v) d -> PyDict.get k d = Some v.
Proof.
  induction d as [|[k' v'] d IH]; simpl; [tauto|].
  intros Hnodup [Heq | Hin].
  - injection Heq as -> ->. now rewrite String.eqb_refl.
  - inversion Hnodup as [|? ? Hnotin Hrest]; subst.
    destruct (String.eqb_spec k k') as [->|Hne].
    + elim Hnotin. change k' with (fst (k', v)). now apply in_map.
    + now apply IH.
Qed.

Lemma dict_set_keys (k : string) (v : V) (d : PyDict.t V) :
  forall k', In k' (PyDict.keys (PyDict.set k v d))
             <-> k' = k \/ In k' (PyDict.keys d).
Proof.
  induction d as [|[k0 v0] d IH]; intros k'; simpl.
  - intuition.
  - destruct (String.eqb_spec k k0) as [->|Hne]; simpl.
    + intuition.
    + rewrite IH. intuition.
Qed.

(** Assignment keeps the keys of a dictionary distinct. *)
Lemma dict_set_nodup (k : string) (v : V) (d : PyDict.t V) :
  NoDup (PyDict.keys d) -> NoDup (PyDict.keys (PyDict.set k v d)).
Proof.
  induction d as [|[k0 v0] d IH]; simpl.
  - intros _. constructor; [tauto | constructor].
  - intros Hnodup. inversion Hnodup as [|? ? Hnotin Hrest]; subst.
    destruct (String.eqb_spec k k0) as [->|Hne]; simpl.
    + now constructor.
    + constructor; [|now apply IH].
      rewrite dict_set_keys. intros [Heq | Hin]; [congruence | tauto].
Qed.

Lemma dict_get_set (k k' : string) (v : V) (d : PyDict.t V) :
  PyDict.get k (PyDict.set k' v d)
  = if String.eqb k' k then Some v else PyDict.get k d.
Proof.
  destruct (String.eqb_spec k' k) as [->|Hne].
  - apply dict_get_set_same.
  - apply dict_get_set_other. congruence.
Qed.

End DictItems.

Section Discovery.
Context `{host : Host}.

Lemma scan_filenames_nodup (fs : list string) (d : PyDict.t string)
  (tr : Trace) :
  NoDup (PyDict.keys d) ->
  NoDup (PyDict.keys (fst (ExtensionManager.scan_filenames fs d tr))).
Proof.
  revert d tr. induction fs as [|f fs IH]; intros d tr Hnodup; simpl.
  - exact Hnodup.
  - destruct (negb (PyStr.truthy f) || negb (path_exists f)).
    + now apply IH.
    + apply IH. now apply dict_set_nodup.
Qed.

(** After the loop, a name maps to its last candidate, and names without
    a candidate keep the entry they had. *)
Lemma scan_filenames_get (fs : list string) (d : PyDict.t string)
  (tr : Trace) (name : string) :
  PyDict.get name (fst (ExtensionManager.scan_filenames fs d tr))
  = match Documented.last_candidate name fs with
    | Some f => Some f
    | None => PyDict.get name d
    end.
Proof.
  revert d tr. induction fs as [|f fs IH]; intros d tr; simpl.
  - reflexivity.
  - unfold ExtensionManager.usable.
    destruct (PyStr.truthy f), (path_exists f); simpl; rewrite IH;
      destruct (Documented.last_candidate name fs); try reflexivity.
    rewrite dict_get_set.
    now destruct (String.eqb (ExtensionManager.extension_name f) name).
Qed.

Lemma last_candidate_sound (name : string) (fs : list string) (f : string) :
  Documented.last_candidate name fs = Some f ->
  In f fs /\ ExtensionManager.usable f = true
  /\ ExtensionManager.extension_name f = name.
Proof.
  induction fs as [|g fs IH]; simpl; [discriminate|].
  destruct (Documented.last_candidate name fs) as [h|].
  - intros [= ->]. destruct (IH eq_refl) as (Hin & Hrest). tauto.
  - destruct (ExtensionManager.usable g) eqn:Hus; [|discriminate].
    destruct (String.eqb_spec (ExtensionManager.extension_name g) name);
      [|discriminate].
    intros [= ->]. tauto.
Qed.

Lemma last_candidate_exists (name : string) (fs : list string) (f : string) :
  In f fs -> ExtensionManager.usable f = true ->
  ExtensionManager.extension_name f = name ->
  exists g, Documented.last_candidate name fs = Some g.
Proof.
  intros Hin Hus Hname. induction fs as [|h fs IH]; simpl; [elim Hin|].
  destruct (Documented.last_candidate name fs) as [g|] eqn:E.
  - now exists g.
  - destruct Hin as [-> | Hin].
    + exists f. now rewrite Hus, Hname, String.eqb_refl.
    + destruct (IH Hin) as (g & Hg). discriminate Hg.
Qed.

Lemma last_candidate_app (name : string) (fs gs : list string) :
  Documented.last_candidate name (fs ++ gs)
  = match Documented.last_candidate name gs with
    | Some g => Some g
    | None => Documented.last_candidate name fs
    end.
Proof.
  induction fs as [|f fs IH]; simpl.
  - now destruct (Documented.last_candidate name gs).
  - rewrite IH. now destruct (Documented.last_candidate name gs).
Qed.

(** The items [_find_extensions] returns. *)
Lemma find_extensions_items (self : ExtensionManager.t) (tr : Trace) :
  fst (fst (ExtensionManager._find_extensions self tr))
  = ExtensionManager.sorted_by_filename
      (fst (ExtensionManager.scan_filenames
              (ExtensionManager.candidate_filenames self) [] tr)).
Proof.
  unfold ExtensionManager._find_extensions. simpl.
  now destruct (ExtensionManager.scan_filenames
                  (ExtensionManager.candidate_filenames self) [] tr).
Qed.

End Discovery.

(** Claim C6.  For every discovery pass: a pair (name, filename) is
    returned exactly when the filename is the last candidate that exists
    and derives that name, so later candidates replace earlier ones and
    no name is returned twice; the pairs come sorted by filename; when
    the two directories are searched, a name derived by an existing file
    of the user directory is returned with a file of the user directory;
    the name of a file is what follows its ordering prefix of digits and
    an underscore, without the file extension, and a file name that has
    no such prefix only loses its extension.  "10_foo.py" and "foo.py"
    in one pass yield the single entry named "foo", and a user file
    overrides the built-in file of the same name. *)
Theorem C6_discovery_names_override_and_order :
  forall (host : Host) (self : ExtensionManager.t) (tr : Trace),
    let found := fst (fst (ExtensionManager._find_extensions self tr)) in
    let candidates := ExtensionManager.candidate_filenames self in
    (forall name filename : string,
        In (name, filename) found
        <-> Documented.last_candidate name candidates = Some filename)
    /\ NoDup (map fst found)
    /\ StronglySorted Documented.by_filename found
    /\ (forall name user_file : string,
           ExtensionManager.filenames self = [] ->
           In user_file glob_user_extensions ->
           ExtensionManager.usable user_file = true ->
           ExtensionManager.extension_name user_file = name ->
           (exists filename, In (name, filename) found)
           /\ (forall filename, In (name, filename) found ->
                                In filename glob_user_extensions))
    /\ (forall dir digits stem ext : string,
           PyStr.all_chars PyStr.isdigit09 digits = true ->
           PyStr.mem "/" stem = false ->
           PyStr.mem "/" ext = false ->
           PyStr.mem "." ext = false ->
           ExtensionManager.extension_name
             (dir ++ "/" ++ (digits ++ "_" ++ stem) ++ "." ++ ext)%string
           = stem)
    /\ (forall dir stem ext : string,
           PyStr.mem "/" stem = false ->
           PyStr.mem "/" ext = false ->
           PyStr.mem "." ext = false ->
           PyStr.all_chars (fun c => Ascii.eqb c ".") stem = false ->
           ExtensionManager.strip_ordering_prefix stem = stem ->
           ExtensionManager.extension_name
             (dir ++ "/" ++ stem ++ "." ++ ext)%string
           = stem)
    /\ fst (fst (ExtensionManager._find_extensions (host := Examples.desktop)
                   (ExtensionManager.mk ["10_foo.py"; "foo.py"] [] []) []))
       = [("foo", "foo.py")]
    /\ fst (fst (ExtensionManager._find_extensions (host := Examples.desktop)
                   (ExtensionManager.mk [] [] []) []))
       = [("foo", "/home/u/gPodder/Extensions/10_foo.py")].
Proof.
  intros host self tr found candidates.
  assert (Hitems : found = ExtensionManager.sorted_by_filename
                             (fst (ExtensionManager.scan_filenames
                                     candidates [] tr)))
    by apply find_extensions_items.
  set (extensions := fst (ExtensionManager.scan_filenames candidates [] tr))
    in Hitems.
  assert (Hperm : Permutation found extensions)
    by (rewrite Hitems; apply sorted_by_filename_perm).
  assert (Hnodup : NoDup (PyDict.keys extensions))
    by (apply scan_filenames_nodup; constructor).
  assert (Hmember : forall name filename : string,
             In (name, filename) found
             <-> Documented.last_candidate name candidates = Some filename).
  { intros name filename. split.
    - intros Hin. apply (Permutation_in _ Hperm) in Hin.
      apply (dict_in_get _ _ _ Hnodup) in Hin.
      unfold extensions in Hin. rewrite scan_filenames_get in Hin.
      now destruct (Documented.last_candidate name candidates).
    - intros Hlast. apply (Permutation_in _ (Permutation_sym Hperm)).
      apply dict_get_in. unfold extensions.
      now rewrite scan_filenames_get, Hlast. }
  split; [exact Hmember|].
  split.
  { apply (Permutation_NoDup (l := PyDict.keys extensions)); [|exact Hnodup].
    apply Permutation_map. now apply Permutation_sym. }
  split; [rewrite Hitems; apply sorted_by_filename_sorted|].
  split.
  { intros name user_file Hnone Hin Hus Hname.
    assert (Hcand : candidates = glob_builtins ++ glob_user_extensions).
    { unfold candidates, ExtensionManager.candidate_filenames.
      now rewrite Hnone. }
    destruct (last_candidate_exists name _ _ Hin Hus Hname) as (g & Hg).
    assert (Hlast : Documented.last_candidate name candidates = Some g).
    { now rewrite Hcand, last_candidate_app, Hg. }
    split.
    - exists g. now apply Hmember.
    - intros filename Hfound. apply Hmember in Hfound.
      rewrite Hlast in Hfound. injection Hfound as <-.
      now apply (last_candidate_sound name). }
  split; [intros; now apply extension_name_prefixed|].
  split; [intros; now apply extension_name_plain|].
  split; reflexivity.
Qed.

(** The theorem at the desktop host, where the built-in directory holds
    foo.py and the user directory 10_foo.py. *)
Lemma C6_discovery_witness :
  (exists filename,
      In ("foo", filename)
        (fst (fst (ExtensionManager._find_extensions (host := Examples.desktop)
                     (ExtensionManager.mk [] [] []) []))))
  /\ (forall filename,
         In ("foo", filename)
           (fst (fst (ExtensionManager._find_extensions
                        (host := Examples.desktop)
                        (ExtensionManager.mk [] [] []) []))) ->
         In filename (glob_user_extensions (Host := Examples.desktop))).
Proof.
  destruct (C6_discovery_names_override_and_order Examples.desktop
              (ExtensionManager.mk [] [] []) [])
    as (_ & _ & _ & Huser & _).
  apply (Huser "foo" "/home/u/gPodder/Extensions/10_foo.py").
  - reflexivity.
  - left. reflexivity.
  - reflexivity.
  - reflexivity.
Defined.

(* ================================================================= *)
(** ** The configuration observer *)

Section Observer.
Context `{host : Host}.

Lemma load_extension_identity (self : ExtensionContainer.t) (tr : Trace) :
  let c := fst (fst (ExtensionContainer.load_extension self tr)) in
  ExtensionContainer.name c = ExtensionContainer.name self
  /\ ExtensionContainer.filename c = ExtensionContainer.filename self
  /\ ExtensionContainer.metadata c = ExtensionContainer.metadata self.
Proof.
  unfold ExtensionContainer.load_extension.
  case_matches; simpl; auto.
Qed.

(** Enabling or disabling changes neither the identity of a container nor
    its metadata. *)
Lemma set_enabled_identity (self : ExtensionContainer.t) (b : bool)
  (tr : Trace) :
  let c := fst (ExtensionContainer.set_enabled self b tr) in
  ExtensionContainer.name c = ExtensionContainer.name self
  /\ ExtensionContainer.filename c = ExtensionContainer.filename self
  /\ ExtensionContainer.metadata c = ExtensionContainer.metadata self.
Proof.
  pose proof (load_extension_identity self tr) as Hload.
  unfold ExtensionContainer.set_enabled, ExtensionContainer.try_enable.
  destruct (ExtensionContainer.load_extension self tr) as [[c1 tr1] raised].
  simpl in Hload.
  destruct (b && negb (ExtensionContainer.enabled self)).
  - destruct raised as [e|]; simpl.
    + exact Hload.
    + destruct (ExtensionContainer.call_method
                  (ExtensionContainer.with_enabled true
                     (ExtensionContainer.with_error None c1)) "on_load" tr1)
        as [tr2 [e|]]; simpl; exact Hload.
  - destruct (negb b && ExtensionContainer.enabled self).
    + destruct (ExtensionContainer.call_method self "on_unload" tr)
        as [tr2 raised2]. simpl. auto.
    + simpl. auto.
Qed.

Lemma filter_other_names_absent (name : string) (persisted : list string) :
  ~ In name (filter (fun x => negb (String.eqb x name)) persisted).
Proof.
  rewrite filter_In. intros [_ Hneq].
  now rewrite String.eqb_refl in Hneq.
Qed.

Lemma observed_weaken (new_value p p' : list string)
  (cs cs' : list ExtensionContainer.t) :
  (forall x, In x p' -> In x p) ->
  Forall2 (Documented.observed new_value p) cs cs' ->
  Forall2 (Documented.observed new_value p') cs cs'.
Proof.
  intros Hsub. induction 1 as [|c c' cs cs' Hc Hcs IH]; constructor.
  - destruct Hc as (Hn & Hm & Hfail & Hforced).
    repeat split; try assumption.
    intros H1 H2 H3 Hin. now apply (Hfail H1 H2 H3), Hsub.
  - exact IH.
Qed.

(** The loop returns; the persisted list only loses names; every
    container comes out as described by [observed]. *)
Lemma observe_containers_spec (cs : list ExtensionContainer.t)
  (new_value : list string) :
  forall (persisted : list string) (tr : Trace),
  exists cs' persisted' tr',
    ExtensionManager.observe_containers cs new_value persisted tr
    = Ok (cs', persisted', tr')
    /\ (forall x, In x persisted' -> In x persisted)
    /\ Forall2 (Documented.observed new_value persisted') cs cs'.
Proof.
  induction cs as [|c cs IH]; intros persisted tr; simpl.
  - exists [], persisted, tr. repeat split; auto.
  - set (new_enabled :=
           ExtensionManager.name_in (ExtensionContainer.name c) new_value).
    destruct (Bool.eqb new_enabled (ExtensionContainer.enabled c)) eqn:Esame.
    { destruct (IH persisted tr) as (cs' & p' & tr' & Hrun & Hsub & Hall).
      rewrite Hrun. cbn [bind]. exists (c :: cs'), p', tr'.
      repeat split; try assumption. constructor; [|exact Hall].
      apply Bool.eqb_prop in Esame. repeat split; try reflexivity.
      intros Hin Hdis _. fold new_enabled in Hin. congruence. }
    apply Bool.eqb_false_iff in Esame.
    destruct (mandatory_total (ExtensionContainer.metadata c))
      as (forced & Hforced).
    assert (Hguard :
      (if negb new_enabled
       then ExtensionMetadata.mandatory_in_current_ui
              (ExtensionContainer.metadata c)
       else Ok false)
      = Ok (negb new_enabled && forced)).
    { destruct new_enabled; simpl; [reflexivity | exact Hforced]. }
    rewrite Hguard. cbn [bind].
    replace (negb new_enabled && (negb new_enabled && forced))
      with (negb new_enabled && forced)
      by (destruct (negb new_enabled); reflexivity).
    destruct (negb new_enabled && forced) eqn:Eskip.
    { destruct (IH persisted tr) as (cs' & p' & tr' & Hrun & Hsub & Hall).
      rewrite Hrun. cbn [bind]. exists (c :: cs'), p', tr'.
      repeat split; try assumption. constructor; [|exact Hall].
      apply andb_true_iff in Eskip as [Hoff _].
      repeat split; try reflexivity.
      intros Hin _ _. fold new_enabled in Hin.
      rewrite Hin in Hoff. discriminate Hoff. }
    match goal with
    | |- context [ExtensionContainer.set_enabled c new_enabled ?t] =>
        pose proof (set_enabled_identity c new_enabled t) as Hid;
        destruct (ExtensionContainer.set_enabled c new_enabled t)
          as [c1 tr1]
    end.
    simpl in Hid. destruct Hid as (Hname & _ & Hmeta).
    destruct (new_enabled && negb (ExtensionContainer.enabled c1)) eqn:Efail.
    + match goal with
      | |- context [ExtensionManager.observe_containers cs new_value ?p ?t] =>
          destruct (IH p t) as (cs' & p' & tr' & Hrun & Hsub & Hall)
      end.
      rewrite Hrun. cbn [bind]. exists (c1 :: cs'), p', tr'.
      split; [reflexivity|]. split.
      * intros x Hx. apply Hsub in Hx. apply filter_In in Hx. tauto.
      * constructor; [|exact Hall].
        repeat split; try assumption.
        -- intros _ _ _ Hin. apply Hsub in Hin. rewrite <- Hname in Hin.
           now apply filter_other_names_absent in Hin.
        -- intros Hmand Hen. rewrite Hmand in Hforced.
           injection Hforced as <-. rewrite andb_true_r in Eskip.
           apply negb_false_iff in Eskip.
           apply andb_true_iff in Efail as [_ Hoff].
           destruct Esame. congruence.
    + match goal with
      | |- context [ExtensionManager.observe_containers cs new_value ?p ?t] =>
          destruct (IH p t) as (cs' & p' & tr' & Hrun & Hsub & Hall)
      end.
      rewrite Hrun. cbn [bind]. exists (c1 :: cs'), p', tr'.
      split; [reflexivity|]. split; [exact Hsub|].
      constructor; [|exact Hall].
      repeat split; try assumption.
      * intros Hin _ Hoff. fold new_enabled in Hin.
        rewrite Hin, Hoff in Efail. discriminate Efail.
      * intros Hmand Hen. rewrite Hmand in Hforced.
        injection Hforced as <-. rewrite andb_true_r in Eskip.
        apply negb_false_iff in Eskip. destruct Esame. congruence.
Qed.

End Observer.

(** Claim C8.  For every change of the enabled-extension set the observer
    returns, the persisted list only loses names, and each container
    keeps its name and metadata.  A container that the new set asks to
    enable, that was disabled and is still disabled after the attempt,
    has its name absent from the persisted list afterwards, whether or
    not it was there before.  A container that is mandatory for the
    current UI and enabled is skipped: it comes out unchanged, also when
    its name is not in the new set. *)
Theorem C8_failed_enable_leaves_the_persisted_set :
  forall (host : Host) (self : ExtensionManager.t)
         (old_value new_value : list string) (tr : Trace),
    (exists self' tr',
        ExtensionManager._config_value_changed self "extensions.enabled"
          old_value new_value tr = Ok (self', tr')
        /\ (forall x, In x (ExtensionManager.enabled_extensions self') ->
                      In x (ExtensionManager.enabled_extensions self))
        /\ Forall2
             (fun c c' =>
                ExtensionContainer.name c' = ExtensionContainer.name c
                /\ ExtensionContainer.metadata c'
                   = ExtensionContainer.metadata c
                /\ (ExtensionManager.name_in (ExtensionContainer.name c)
                      new_value = true ->
                    ExtensionContainer.enabled c = false ->
                    ExtensionContainer.enabled c' = false ->
                    ~ In (ExtensionContainer.name c)
                         (ExtensionManager.enabled_extensions self'))
                /\ (ExtensionMetadata.mandatory_in_current_ui
                      (ExtensionContainer.metadata c) = Ok true ->
                    ExtensionContainer.enabled c = true ->
                    c' = c))
             (ExtensionManager.containers self)
             (ExtensionManager.containers self'))
    /\ (exists failed tr',
           ExtensionManager._config_value_changed (host := Examples.desktop)
             (ExtensionManager.mk []
                [Examples.needs_missing_module; Examples.forced]
                ["needs_missing_module"; "menu_b"])
             "extensions.enabled" ["menu_b"]
             ["needs_missing_module"; "menu_b"] []
           = Ok (ExtensionManager.mk [] [failed; Examples.forced] ["menu_b"],
                 tr')
           /\ ExtensionContainer.enabled failed = false
           /\ ExtensionContainer.name failed = "needs_missing_module").
Proof.
  intros host self old_value new_value tr. split.
  - unfold ExtensionManager._config_value_changed.
    rewrite String.eqb_refl. cbn [negb].
    destruct (observe_containers_spec (ExtensionManager.containers self)
                new_value (ExtensionManager.enabled_extensions self) tr)
      as (cs' & p' & tr' & Hrun & Hsub & Hall).
    rewrite Hrun. cbn [bind].
    exists (ExtensionManager.mk (ExtensionManager.filenames self) cs' p'), tr'.
    split; [reflexivity|]. split; [exact Hsub | exact Hall].
  - eexists. eexists. split; [vm_compute; reflexivity|]. split; reflexivity.
Qed.

(** The theorem at a manager holding an extension that cannot be imported
    and a mandatory one, when the first is added to the enabled set. *)
Lemma C8_failed_enable_witness :
  exists self' tr',
    ExtensionManager._config_value_changed (host := Examples.desktop)
      (ExtensionManager.mk []
         [Examples.needs_missing_module; Examples.forced] ["menu_b"])
      "extensions.enabled" ["menu_b"] ["needs_missing_module"; "menu_b"] []
    = Ok (self', tr')
    /\ (forall x, In x (ExtensionManager.enabled_extensions self') ->
                  In x ["menu_b"])
    /\ Forall2
         (fun c c' =>
            ExtensionContainer.name c' = ExtensionContainer.name c
            /\ ExtensionContainer.metadata c' = ExtensionContainer.metadata c
            /\ (ExtensionManager.name_in (ExtensionContainer.name c)
                  ["needs_missing_module"; "menu_b"] = true ->
                ExtensionContainer.enabled c = false ->
                ExtensionContainer.enabled c' = false ->
                ~ In (ExtensionContainer.name c)
                     (ExtensionManager.enabled_extensions self'))
            /\ (ExtensionMetadata.mandatory_in_current_ui
                  (host := Examples.desktop)
                  (ExtensionContainer.metadata c) = Ok true ->
                ExtensionContainer.enabled c = true ->
                c' = c))
         [Examples.needs_missing_module; Examples.forced]
         (ExtensionManager.containers self').
Proof.
  exact (proj1 (C8_failed_enable_leaves_the_persisted_set Examples.desktop
                  (ExtensionManager.mk []
                     [Examples.needs_missing_module; Examples.forced]
                     ["menu_b"])
                  ["menu_b"] ["needs_missing_module"; "menu_b"] [])).
Defined.

(** The theorem at three enabled loaded containers of which the second
    raises in on_create_menu. *)
Lemma C4_hook_failure_witness :
  exists before after,
    call_extensions "on_create_menu" docstring_only
      (ExtensionManager.mk []
         [Examples.loaded "menu_a" "/ext/menu_a.py" Examples.menu_a;
          Examples.loaded "broken_menu" "/ext/broken_menu.py"
            Examples.broken_menu;
          Examples.loaded "menu_b" "/ext/menu_b.py" Examples.menu_b] []) []
    = (PyList [Examples.entry "x" "f"; Examples.entry "y" "g"],
       before
       ++ [Call "broken_menu" "on_create_menu";
           Log ERROR "Error in %s in %s: %s"
             [ArgStr "/ext/broken_menu.py"; ArgStr "on_create_menu";
              ArgExc (OtherException "RuntimeError" "menu failed")]]
       ++ after)
    /\ Documented.calls_of before = [("menu_a", "on_create_menu")]
    /\ Documented.calls_of after = [("menu_b", "on_create_menu")].
Proof.
  exact (proj1 (C4_hook_failure_does_not_interrupt "on_create_menu"
                  docstring_only
                  (ExtensionManager.mk []
                     [Examples.loaded "menu_a" "/ext/menu_a.py"
                        Examples.menu_a;
                      Examples.loaded "broken_menu" "/ext/broken_menu.py"
                        Examples.broken_menu;
                      Examples.loaded "menu_b" "/ext/menu_b.py"
                        Examples.menu_b] [])
                  [Examples.loaded "menu_a" "/ext/menu_a.py" Examples.menu_a]
                  [Examples.loaded "menu_b" "/ext/menu_b.py" Examples.menu_b]
                  (Examples.loaded "broken_menu" "/ext/broken_menu.py"
                     Examples.broken_menu)
                  [] Examples.broken_menu
                  (OtherException "RuntimeError" "menu failed")
                  eq_refl eq_refl eq_refl eq_refl)).
Defined.

(* ================================================================= *)
(** ** More on [set_enabled] and [load_extension] *)

Section EnableDisable.
Context `{host : Host}.

Lemma call_method_calls (self : ExtensionContainer.t) (method : string)
  (tr : Trace) :
  fst (ExtensionContainer.call_method self method tr)
  = tr ++ (if hasattr_module (ExtensionContainer.module self) method
           then [Call (ExtensionContainer.name self) method] else []).
Proof.
  unfold ExtensionContainer.call_method.
  destruct (hasattr_module (ExtensionContainer.module self) method).
  - destruct (ExtensionContainer.module self) as [instance|]; [|reflexivity].
    now destruct (getattr_method instance method) as [[v|e]|].
  - now rewrite app_nil_r.
Qed.

(** What [load_extension] appends to the trace. *)
Lemma load_extension_trace (self : ExtensionContainer.t) (tr : Trace) :
  exists added,
    snd (fst (ExtensionContainer.load_extension self tr)) = tr ++ added
    /\ Traces.cleaned_up added = true
    /\ Documented.calls_of added = []
    /\ (ExtensionContainer.module self <> None ->
        Traces.load_events added = []).
Proof.
  unfold ExtensionContainer.load_extension.
  destruct (ExtensionContainer.module self) as [instance|] eqn:Hmod.
  { eexists. split; [reflexivity|]. repeat split. }
  destruct (ExtensionMetadata.available_for_current_ui
              (ExtensionContainer.metadata self)) as [[|]|e].
  - destruct (exec_module (ExtensionContainer.filename self))
      as [module_file|e].
    + destruct (DefaultConfig module_file) as [[|kv d]|];
        destruct (gPodderExtension module_file) as [[instance|e]|]; simpl;
        rewrite <- ?app_assoc; eexists; (split; [reflexivity|]);
        simpl; rewrite String.eqb_refl; repeat split; congruence.
    + simpl. rewrite <- app_assoc. eexists. split; [reflexivity|].
      simpl. rewrite String.eqb_refl. repeat split; congruence.
  - destruct (ExtensionMetadata.getattr (ExtensionContainer.metadata self)
                "only_for"); simpl.
    + eexists. split; [reflexivity|]. repeat split.
    + exists []. rewrite app_nil_r. repeat split.
  - simpl. exists []. rewrite app_nil_r. repeat split.
Qed.

Lemma cleaned_up_app (a b : Trace) :
  Traces.cleaned_up a = true ->
  Traces.cleaned_up (a ++ b) = Traces.cleaned_up b.
Proof.
  induction a as [|ev a IH]; [reflexivity|].
  destruct ev; simpl; try exact IH.
  destruct a as [|[] a]; try discriminate. simpl.
  intros Hclean. apply andb_true_iff in Hclean as [Hpath Hrest].
  rewrite Hpath. simpl in IH. now apply IH.
Qed.

Lemma load_events_app (a b : Trace) :
  Traces.load_events (a ++ b) = Traces.load_events a ++ Traces.load_events b.
Proof. apply filter_app. Qed.

(** A loaded module is not loaded again. *)
Lemma load_extension_loaded (self : ExtensionContainer.t) (tr : Trace)
  (instance : Extension) :
  ExtensionContainer.module self = Some instance ->
  ExtensionContainer.load_extension self tr
  = (self, tr ++ [Log INFO "Module already loaded." []], None).
Proof.
  intros Hmod. unfold ExtensionContainer.load_extension. now rewrite Hmod.
Qed.

(** For an extension available in the current UI, a load that returns has
    a module to show. *)
Lemma load_extension_available (self c1 : ExtensionContainer.t)
  (tr tr1 : Trace) :
  ExtensionMetadata.available_for_current_ui
    (ExtensionContainer.metadata self) = Ok true ->
  ExtensionContainer.load_extension self tr = (c1, tr1, None) ->
  exists instance, ExtensionContainer.module c1 = Some instance.
Proof.
  intros Hav. unfold ExtensionContainer.load_extension. rewrite Hav.
  destruct (ExtensionContainer.module self) as [instance|] eqn:Hmod.
  { intros [= <- _]. now exists instance. }
  destruct (exec_module (ExtensionContainer.filename self))
    as [module_file|e]; [|discriminate].
  destruct (gPodderExtension module_file) as [[instance|e]|];
    try discriminate.
  intros [= <- _]. now exists instance.
Qed.

End EnableDisable.

(** What [set_enabled(False)] does, in full. *)
Lemma set_enabled_false_effect :
  forall (host : Host) (self : ExtensionContainer.t) (tr : Trace),
    let result := ExtensionContainer.set_enabled self false tr in
    ExtensionContainer.enabled (fst result) = false
    /\ ExtensionContainer.module (fst result) = ExtensionContainer.module self
    /\ ExtensionContainer.error (fst result) = ExtensionContainer.error self
    /\ Documented.calls_of (snd result)
       = Documented.calls_of tr
         ++ (if ExtensionContainer.enabled self
                && hasattr_module (ExtensionContainer.module self) "on_unload"
             then [(ExtensionContainer.name self, "on_unload")] else [])
    /\ Traces.load_events (snd result) = Traces.load_events tr.
Proof.
  intros host self tr result. subst result.
  unfold ExtensionContainer.set_enabled. cbn [andb negb].
  destruct (ExtensionContainer.enabled self) eqn:Hen.
  - pose proof (call_method_calls self "on_unload" tr) as Hcalls.
    destruct (ExtensionContainer.call_method self "on_unload" tr)
      as [tr1 raised]. simpl in Hcalls. subst tr1. cbn [fst snd andb].
    repeat split.
    + destruct raised; rewrite ?calls_of_app;
        destruct (hasattr_module (ExtensionContainer.module self) "on_unload");
        simpl; now rewrite ?app_nil_r.
    + destruct raised; rewrite ?load_events_app;
        destruct (hasattr_module (ExtensionContainer.module self) "on_unload");
        simpl; now rewrite ?app_nil_r.
  - cbn [fst snd andb]. rewrite app_nil_r. repeat split. exact Hen.
Qed.

(** Disabling always succeeds.  Whatever the container and whatever its
    on_unload hook does, [set_enabled(False)] leaves the container
    disabled, keeps the loaded module and the stored error, loads nothing,
    and invokes on_unload once exactly when the container was enabled and
    its module defines the hook. *)
Theorem disabling_always_succeeds :
  forall (host : Host) (self : ExtensionContainer.t) (tr : Trace),
    let result := ExtensionContainer.set_enabled self false tr in
    ExtensionContainer.enabled (fst result) = false
    /\ ExtensionContainer.module (fst result) = ExtensionContainer.module self
    /\ ExtensionContainer.error (fst result) = ExtensionContainer.error self
    /\ Documented.calls_of (snd result)
       = Documented.calls_of tr
         ++ (if ExtensionContainer.enabled self
                && hasattr_module (ExtensionContainer.module self) "on_unload"
             then [(ExtensionContainer.name self, "on_unload")] else [])
    /\ Traces.load_events (snd result) = Traces.load_events tr.
Proof.
  intros host self tr result. subst result.
  unfold ExtensionContainer.set_enabled. cbn [andb negb].
  destruct (ExtensionContainer.enabled self) eqn:Hen.
  - pose proof (call_method_calls self "on_unload" tr) as Hcalls.
    destruct (ExtensionContainer.call_method self "on_unload" tr)
      as [tr1 raised]. simpl in Hcalls. subst tr1. cbn [fst snd andb].
    repeat split.
    + destruct raised; rewrite ?calls_of_app;
        destruct (hasattr_module (ExtensionContainer.module self) "on_unload");
        simpl; now rewrite ?app_nil_r.
    + destruct raised; rewrite ?load_events_app;
        destruct (hasattr_module (ExtensionContainer.module self) "on_unload");
        simpl; now rewrite ?app_nil_r.
  - cbn [fst snd andb]. rewrite app_nil_r. repeat split. exact Hen.
Qed.

(** An enable attempt on a disabled container ends in one of two states:
    enabled with no stored error, or disabled with the failure stored as
    the error.  A failed enable always leaves an error to show. *)
Theorem enable_attempt_outcome :
  forall (host : Host) (self : ExtensionContainer.t) (tr : Trace),
    ExtensionContainer.enabled self = false ->
    let c := fst (ExtensionContainer.set_enabled self true tr) in
    (ExtensionContainer.enabled c = true
     /\ ExtensionContainer.error c = None)
    \/ (ExtensionContainer.enabled c = false
        /\ exists e, ExtensionContainer.error c = Some e).
Proof.
  intros host self tr Hdis c. subst c.
  unfold ExtensionContainer.set_enabled, ExtensionContainer.try_enable.
  rewrite Hdis. cbn [andb negb].
  destruct (ExtensionContainer.load_extension self tr) as [[c1 tr1] [e|]].
  - right. simpl. split; [reflexivity | now eexists].
  - destruct (ExtensionContainer.call_method
                (ExtensionContainer.with_enabled true
                   (ExtensionContainer.with_error None c1)) "on_load" tr1)
      as [tr2 [e|]].
    + right. simpl. split; [reflexivity | now eexists].
    + left. simpl. split; reflexivity.
Qed.

(** The theorem at the extension that imports a missing module. *)
Lemma enable_attempt_outcome_witness :
  (ExtensionContainer.enabled
     (fst (ExtensionContainer.set_enabled (host := Examples.desktop)
             Examples.needs_missing_module true [])) = true
   /\ ExtensionContainer.error
        (fst (ExtensionContainer.set_enabled (host := Examples.desktop)
                Examples.needs_missing_module true [])) = None)
  \/ (ExtensionContainer.enabled
        (fst (ExtensionContainer.set_enabled (host := Examples.desktop)
                Examples.needs_missing_module true [])) = false
      /\ exists e,
           ExtensionContainer.error
             (fst (ExtensionContainer.set_enabled (host := Examples.desktop)
                     Examples.needs_missing_module true [])) = Some e).
Proof.
  exact (enable_attempt_outcome Examples.desktop
           Examples.needs_missing_module [] eq_refl).
Defined.

(** A container whose module is loaded is never loaded again: enabling or
    disabling it executes no file, instantiates nothing, and keeps the
    module it has. *)
Theorem loaded_module_is_not_reloaded :
  forall (host : Host) (self : ExtensionContainer.t) (instance : Extension)
         (enabled_arg : bool) (tr : Trace),
    ExtensionContainer.module self = Some instance ->
    let result := ExtensionContainer.set_enabled self enabled_arg tr in
    ExtensionContainer.module (fst result) = Some instance
    /\ Traces.load_events (snd result) = Traces.load_events tr.
Proof.
  intros host self instance [|] tr Hmod result; subst result.
  - unfold ExtensionContainer.set_enabled, ExtensionContainer.try_enable.
    cbn [andb negb].
    destruct (ExtensionContainer.enabled self); cbn [negb fst snd];
      [now split|].
    rewrite (load_extension_loaded self tr instance Hmod).
    match goal with
    | |- context [ExtensionContainer.call_method ?c ?m ?t] =>
        pose proof (call_method_calls c m t) as Hcalls;
        destruct (ExtensionContainer.call_method c m t) as [tr2 raised]
    end.
    simpl in Hcalls. rewrite Hmod in Hcalls. subst tr2.
    destruct raised; cbn [fst snd]; (split; [exact Hmod|]);
      rewrite ?load_events_app;
      destruct (hasattr_module (Some instance) "on_load");
      simpl; now rewrite ?app_nil_r.
  - destruct (set_enabled_false_effect host self tr)
      as (_ & Hm & _ & _ & Hl).
    split; [now rewrite Hm | exact Hl].
Qed.

(** The theorem at a loaded, enabled extension that is disabled. *)
Lemma loaded_module_is_not_reloaded_witness :
  ExtensionContainer.module
    (fst (ExtensionContainer.set_enabled (host := Examples.desktop)
            (Examples.loaded "menu_a" "/ext/menu_a.py" Examples.menu_a)
            false [])) = Some Examples.menu_a
  /\ Traces.load_events
       (snd (ExtensionContainer.set_enabled (host := Examples.desktop)
               (Examples.loaded "menu_a" "/ext/menu_a.py" Examples.menu_a)
               false [])) = Traces.load_events [].
Proof.
  exact (loaded_module_is_not_reloaded Examples.desktop
           (Examples.loaded "menu_a" "/ext/menu_a.py" Examples.menu_a)
           Examples.menu_a false [] eq_refl).
Defined.

(** For an extension that is available for the current UI, enabled means
    loaded: if an enable attempt on a disabled container leaves it
    enabled, its module is present. *)
Theorem enabled_available_extension_is_loaded :
  forall (host : Host) (self : ExtensionContainer.t) (tr : Trace),
    ExtensionContainer.enabled self = false ->
    ExtensionMetadata.available_for_current_ui
      (ExtensionContainer.metadata self) = Ok true ->
    let c := fst (ExtensionContainer.set_enabled self true tr) in
    ExtensionContainer.enabled c = true ->
    exists instance, ExtensionContainer.module c = Some instance.
Proof.
  intros host self tr Hdis Hav c. subst c.
  unfold ExtensionContainer.set_enabled, ExtensionContainer.try_enable.
  rewrite Hdis. cbn [andb negb].
  destruct (ExtensionContainer.load_extension self tr)
    as [[c1 tr1] [e|]] eqn:Hload.
  - simpl. discriminate.
  - destruct (load_extension_available self c1 tr tr1 Hav Hload)
      as (instance & Hinst).
    destruct (ExtensionContainer.call_method
                (ExtensionContainer.with_enabled true
                   (ExtensionContainer.with_error None c1)) "on_load" tr1)
      as [tr2 [e|]]; simpl; [discriminate|].
    intros _. now exists instance.
Qed.

(** The theorem at the menu extension, enabled in a desktop session. *)
Lemma enabled_available_extension_witness :
  exists instance,
    ExtensionContainer.module
      (fst (ExtensionContainer.set_enabled (host := Examples.desktop)
              (Examples.fresh "menu_a" "/ext/menu_a.py" []) true []))
    = Some instance.
Proof.
  exact (enabled_available_extension_is_loaded Examples.desktop
           (Examples.fresh "menu_a" "/ext/menu_a.py" []) []
           eq_refl eq_refl eq_refl).
Defined.

(** Whatever [set_enabled] does, every execution of an extension file it
    starts is followed at once by the removal of the compiled file next to
    the source, whether the execution succeeded or raised. *)
Theorem compiled_file_is_always_removed :
  forall (host : Host) (self : ExtensionContainer.t) (enabled_arg : bool)
         (tr : Trace),
    exists added,
      snd (ExtensionContainer.set_enabled self enabled_arg tr) = tr ++ added
      /\ Traces.cleaned_up added = true
      /\ (forall filename,
             In (ExecModule
                   (OsPath.splitext_root (OsPath.basename filename)) filename)
                added ->
             In (DeleteFile (filename ++ "c")) added).
Proof.
  intros host self enabled_arg tr.
  assert (Hin : forall added, Traces.cleaned_up added = true ->
            forall b filename, In (ExecModule b filename) added ->
                               In (DeleteFile (filename ++ "c")) added).
  { induction added as [|ev added IH]; [intros _ b f []|].
    intros Hclean b f [-> | Hin].
    - simpl in Hclean. destruct added as [|[] added]; try discriminate.
      apply andb_true_iff in Hclean as [Hpath _].
      apply String.eqb_eq in Hpath. subst. right. now left.
    - right. apply (IH) with (b := b); [|exact Hin].
      destruct ev; try exact Hclean. simpl in Hclean.
      destruct added as [|[] added]; try discriminate.
      now apply andb_true_iff in Hclean as [_ Hrest]. }
  assert (Hmain : exists added,
             snd (ExtensionContainer.set_enabled self enabled_arg tr)
             = tr ++ added /\ Traces.cleaned_up added = true).
  { unfold ExtensionContainer.set_enabled, ExtensionContainer.try_enable.
    destruct (enabled_arg && negb (ExtensionContainer.enabled self)).
    - destruct (load_extension_trace self tr) as (added & Htr & Hclean & _).
      destruct (ExtensionContainer.load_extension self tr)
        as [[c1 tr1] [e|]]; simpl in Htr; subst tr1.
      + eexists. cbn [snd]. rewrite <- app_assoc. split; [reflexivity|].
        now rewrite cleaned_up_app.
      + match goal with
        | |- context [ExtensionContainer.call_method ?c ?m ?t] =>
            pose proof (call_method_calls c m t) as Hcalls;
            destruct (ExtensionContainer.call_method c m t) as [tr2 raised]
        end.
        simpl in Hcalls. subst tr2.
        destruct raised; cbn [snd]; rewrite <- ?app_assoc; eexists;
          (split; [reflexivity|]); rewrite cleaned_up_app by exact Hclean;
          match goal with
          | |- context [if ?b then _ else _] => destruct b
          end; reflexivity.
    - destruct (negb enabled_arg && ExtensionContainer.enabled self).
      + pose proof (call_method_calls self "on_unload" tr) as Hcalls.
        destruct (ExtensionContainer.call_method self "on_unload" tr)
          as [tr2 raised]. simpl in Hcalls. subst tr2.
        destruct raised; cbn [snd]; rewrite <- ?app_assoc; eexists;
          (split; [reflexivity|]);
          match goal with
          | |- context [if ?b then _ else _] => destruct b
          end; reflexivity.
      + exists []. now rewrite app_nil_r. }
  destruct Hmain as (added & Htr & Hclean).
  exists added. repeat split; try assumption.
  intros filename. now apply Hin.
Qed.

(* ================================================================= *)
(** ** More on dispatch and shutdown *)

Section DispatchResults.

Lemma last_cons {A : Type} (a d : A) (l : list A) :
  last (a :: l) d = last l a.
Proof.
  revert a d. induction l as [|b l IH]; intros a d; [reflexivity|].
  change (last (a :: b :: l) d) with (last (b :: l) d).
  now rewrite (IH b d), (IH b a).
Qed.

Lemma fold_aggregate_lists (values : list PyVal) (items : list PyVal) :
  Forall (fun v => is_list v = true) values ->
  fold_left Documented.aggregate values (PyList items)
  = PyList (items ++ flat_map Traces.items_of values).
Proof.
  intros Hall. revert items.
  induction Hall as [|v values Hv _ IH]; intros items; simpl.
  - now rewrite app_nil_r.
  - destruct v; try discriminate. simpl. now rewrite IH, app_assoc.
Qed.

Lemma fold_aggregate_scalars (values : list PyVal) (start : PyVal) :
  Forall (fun v => is_list v = false) values ->
  fold_left Documented.aggregate values start
  = last (filter is_not_none values) start.
Proof.
  intros Hall. revert start.
  induction Hall as [|v values Hv _ IH]; intros start; [reflexivity|].
  cbn [fold_left filter]. rewrite IH.
  destruct v; try discriminate; cbn [is_not_none];
    rewrite ?last_cons; destruct start; reflexivity.
Qed.

Lemma call_extensions_result (method : string) (func : Trace -> Trace)
  (self : ExtensionManager.t) (tr : Trace) :
  fst (call_extensions method func self tr)
  = fold_left Documented.aggregate
      (Documented.contributions method (ExtensionManager.containers self))
      PyNone.
Proof.
  unfold call_extensions. now rewrite visit_containers_split.
Qed.

End DispatchResults.

(** When every hook that returns hands back a list, and at least one
    does, the dispatch returns one list: the items of all returned lists,
    in dispatch order. *)
Theorem dispatch_concatenates_all_lists :
  forall (method : string) (func : Trace -> Trace)
         (self : ExtensionManager.t) (tr : Trace),
    Forall (fun v => is_list v = true)
      (Documented.contributions method (ExtensionManager.containers self)) ->
    Documented.contributions method (ExtensionManager.containers self) <> [] ->
    fst (call_extensions method func self tr)
    = PyList (flat_map Traces.items_of
                (Documented.contributions method
                   (ExtensionManager.containers self))).
Proof.
  intros method func self tr Hall Hsome.
  rewrite call_extensions_result.
  destruct (Documented.contributions method
              (ExtensionManager.containers self)) as [|v values];
    [now elim Hsome|].
  inversion Hall as [|? ? Hv Hrest]; subst.
  destruct v; try discriminate.
  cbn [fold_left Documented.aggregate].
  now rewrite fold_aggregate_lists.
Qed.

(** The theorem at the two menu extensions. *)
Lemma dispatch_concatenates_witness :
  fst (call_extensions "on_create_menu" docstring_only
         (ExtensionManager.mk []
            [Examples.loaded "menu_a" "/ext/menu_a.py" Examples.menu_a;
             Examples.loaded "menu_b" "/ext/menu_b.py" Examples.menu_b] [])
         [])
  = PyList (flat_map Traces.items_of
              (Documented.contributions "on_create_menu"
                 [Examples.loaded "menu_a" "/ext/menu_a.py" Examples.menu_a;
                  Examples.loaded "menu_b" "/ext/menu_b.py"
                    Examples.menu_b])).
Proof.
  apply (dispatch_concatenates_all_lists "on_create_menu" docstring_only
           (ExtensionManager.mk []
              [Examples.loaded "menu_a" "/ext/menu_a.py" Examples.menu_a;
               Examples.loaded "menu_b" "/ext/menu_b.py" Examples.menu_b] [])
           []).
  - repeat constructor.
  - discriminate.
Defined.

(** When no hook returns a list, the dispatch returns the value of the
    last hook that returned something other than None, and None when
    there is no such hook. *)
Theorem dispatch_last_value_wins :
  forall (method : string) (func : Trace -> Trace)
         (self : ExtensionManager.t) (tr : Trace),
    Forall (fun v => is_list v = false)
      (Documented.contributions method (ExtensionManager.containers self)) ->
    fst (call_extensions method func self tr)
    = last (filter is_not_none
              (Documented.contributions method
                 (ExtensionManager.containers self))) PyNone.
Proof.
  intros method func self tr Hall.
  rewrite call_extensions_result. now apply fold_aggregate_scalars.
Qed.

Section Shutdown.
Context `{host : Host}.

(** The container [set_enabled(False)] leaves behind. *)
Lemma set_enabled_false_container (c : ExtensionContainer.t) (tr : Trace) :
  fst (ExtensionContainer.set_enabled c false tr)
  = ExtensionContainer.with_enabled false c.
Proof.
  unfold ExtensionContainer.set_enabled. cbn [andb negb].
  destruct (ExtensionContainer.enabled c) eqn:Hen.
  - now destruct (ExtensionContainer.call_method c "on_unload" tr).
  - destruct c. simpl in *. now subst.
Qed.

Lemma shutdown_containers_spec (cs : list ExtensionContainer.t) (tr : Trace) :
  fst (ExtensionManager.shutdown_containers cs tr)
  = map (ExtensionContainer.with_enabled false) cs
  /\ Documented.calls_of (snd (ExtensionManager.shutdown_containers cs tr))
     = Documented.calls_of tr ++ Traces.unloads cs
  /\ Traces.load_events (snd (ExtensionManager.shutdown_containers cs tr))
     = Traces.load_events tr.
Proof.
  revert tr. induction cs as [|c cs IH]; intros tr.
  - simpl. now rewrite app_nil_r.
  - cbn [ExtensionManager.shutdown_containers].
    pose proof (set_enabled_false_container c tr) as Hc.
    destruct (set_enabled_false_effect host c tr)
      as (_ & _ & _ & Hcalls & Hloads).
    destruct (ExtensionContainer.set_enabled c false tr) as [c1 tr1].
    cbn [fst snd] in *. subst c1.
    destruct (IH tr1) as (Hcs & Hcalls' & Hloads').
    destruct (ExtensionManager.shutdown_containers cs tr1) as [cs1 tr2].
    cbn [fst snd] in *. subst cs1.
    repeat split.
    + rewrite Hcalls', Hcalls, <- app_assoc. f_equal.
      unfold Traces.unloads. cbn [filter].
      now destruct (ExtensionContainer.enabled c
                    && hasattr_module (ExtensionContainer.module c)
                         "on_unload").
    + now rewrite Hloads', Hloads.
Qed.

(** A dispatch over disabled containers reaches nobody. *)
Lemma visit_disabled (method : string) (cs : list ExtensionContainer.t)
  (st : PyVal * Trace) :
  visit_containers method
    (map (ExtensionContainer.with_enabled false) cs) st = st.
Proof.
  unfold visit_containers. revert st.
  induction cs as [|c cs IH]; intros [result tr]; [reflexivity|].
  cbn [map fold_left].
  change (dispatch_one method (result, tr)
            (ExtensionContainer.with_enabled false c)) with (result, tr).
  apply IH.
Qed.

End Shutdown.

(** What [shutdown] does, in full. *)
Lemma shutdown_effect :
  forall (host : Host) (self : ExtensionManager.t) (tr : Trace),
    let result := ExtensionManager.shutdown self tr in
    ExtensionManager.containers (fst result)
      = map (ExtensionContainer.with_enabled false)
            (ExtensionManager.containers self)
    /\ Forall (fun c => ExtensionContainer.enabled c = false)
         (ExtensionManager.containers (fst result))
    /\ map ExtensionContainer.module (ExtensionManager.containers (fst result))
       = map ExtensionContainer.module (ExtensionManager.containers self)
    /\ ExtensionManager.enabled_extensions (fst result)
       = ExtensionManager.enabled_extensions self
    /\ Documented.calls_of (snd result)
       = Documented.calls_of tr
         ++ Traces.unloads (ExtensionManager.containers self)
    /\ Traces.load_events (snd result) = Traces.load_events tr.
Proof.
  intros host self tr result. subst result.
  unfold ExtensionManager.shutdown.
  destruct (shutdown_containers_spec (ExtensionManager.containers self) tr)
    as (Hcs & Hcalls & Hloads).
  destruct (ExtensionManager.shutdown_containers
              (ExtensionManager.containers self) tr) as [cs tr1].
  cbn [fst snd ExtensionManager.containers
       ExtensionManager.enabled_extensions] in *.
  subst cs. repeat split; try assumption.
  - apply Forall_forall. intros c Hin. apply in_map_iff in Hin.
    now destruct Hin as (c0 & <- & _).
  - rewrite map_map. now apply map_ext.
Qed.

(** Shutdown disables every container and keeps everything else: the
    containers come out in the same order with their names, modules,
    errors and metadata, each with [enabled] false; nothing is loaded;
    on_unload is invoked once for each container that was enabled and
    defines it, in container order; the persisted enabled list and the
    filenames are not touched. *)
Theorem shutdown_disables_every_container :
  forall (host : Host) (self : ExtensionManager.t) (tr : Trace),
    let result := ExtensionManager.shutdown self tr in
    ExtensionManager.containers (fst result)
      = map (ExtensionContainer.with_enabled false)
            (ExtensionManager.containers self)
    /\ Forall (fun c => ExtensionContainer.enabled c = false)
         (ExtensionManager.containers (fst result))
    /\ map ExtensionContainer.module (ExtensionManager.containers (fst result))
       = map ExtensionContainer.module (ExtensionManager.containers self)
    /\ ExtensionManager.enabled_extensions (fst result)
       = ExtensionManager.enabled_extensions self
    /\ Documented.calls_of (snd result)
       = Documented.calls_of tr
         ++ Traces.unloads (ExtensionManager.containers self)
    /\ Traces.load_events (snd result) = Traces.load_events tr.
Proof.
  intros host self tr result. subst result.
  unfold ExtensionManager.shutdown.
  destruct (shutdown_containers_spec (ExtensionManager.containers self) tr)
    as (Hcs & Hcalls & Hloads).
  destruct (ExtensionManager.shutdown_containers
              (ExtensionManager.containers self) tr) as [cs tr1].
  cbn [fst snd ExtensionManager.containers
       ExtensionManager.enabled_extensions] in *.
  subst cs. repeat split; try assumption.
  - apply Forall_forall. intros c Hin. apply in_map_iff in Hin.
    now destruct Hin as (c0 & <- & _).
  - rewrite map_map. now apply map_ext.
Qed.

(** After shutdown a dispatch reaches no extension: no hook is invoked,
    nothing is logged by the loop, and the result is None; the decorated
    body still runs. *)
Theorem dispatch_after_shutdown_is_silent :
  forall (host : Host) (method : string) (func : Trace -> Trace)
         (self : ExtensionManager.t) (tr tr' : Trace),
    call_extensions method func (fst (ExtensionManager.shutdown self tr)) tr'
    = (PyNone, func tr').
Proof.
  intros host method func self tr tr'.
  destruct (shutdown_effect host self tr) as (Hcs & _).
  unfold call_extensions. rewrite Hcs.
  now rewrite visit_disabled.
Qed.

(* ================================================================= *)
(** ** More on the configuration observer *)

Section ObserverExact.
Context `{host : Host}.

Lemma filter_failed_cons (name : string) (names persisted : list string) :
  filter (fun x => negb (ExtensionManager.name_in x (name :: names))) persisted
  = filter (fun x => negb (ExtensionManager.name_in x names))
      (filter (fun x => negb (String.eqb x name)) persisted).
Proof.
  induction persisted as [|x persisted IH]; [reflexivity|].
  cbn [filter]. rewrite IH.
  change (ExtensionManager.name_in x (name :: names))
    with (String.eqb x name || ExtensionManager.name_in x names).
  destruct (String.eqb x name); reflexivity.
Qed.

Lemma observe_containers_exact (cs : list ExtensionContainer.t)
  (new_value : list string) :
  forall (persisted : list string) (tr : Trace),
  exists cs' persisted' tr',
    ExtensionManager.observe_containers cs new_value persisted tr
    = Ok (cs', persisted', tr')
    /\ Forall2 (Reaction.outcome new_value) cs cs'
    /\ persisted'
       = filter (fun x =>
                   negb (ExtensionManager.name_in x
                           (Reaction.failed_enables new_value cs cs')))
           persisted.
Proof.
  induction cs as [|c cs IH]; intros persisted tr.
  - exists [], persisted, tr. repeat split; [constructor|].
    cbn. induction persisted as [|x p IHp]; [reflexivity|].
    cbn. now rewrite <- IHp.
  - cbn [ExtensionManager.observe_containers].
    set (wanted :=
           ExtensionManager.name_in (ExtensionContainer.name c) new_value).
    destruct (Bool.eqb wanted (ExtensionContainer.enabled c)) eqn:Esame.
    { destruct (IH persisted tr) as (cs' & p' & tr' & Hrun & Hall & Hp).
      rewrite Hrun. cbn [bind]. exists (c :: cs'), p', tr'.
      split; [reflexivity|]. split.
      - constructor; [|exact Hall]. left. split; [|reflexivity].
        unfold Reaction.left_alone. fold wanted. now rewrite Esame.
      - rewrite Hp. unfold Reaction.failed_enables.
        cbn [combine filter fst snd]. fold wanted.
        apply Bool.eqb_prop in Esame. rewrite <- Esame.
        now destruct wanted. }
    destruct (mandatory_total (ExtensionContainer.metadata c))
      as (forced & Hforced).
    assert (Hguard :
      (if negb wanted
       then ExtensionMetadata.mandatory_in_current_ui
              (ExtensionContainer.metadata c)
       else Ok false)
      = Ok (negb wanted && forced)).
    { destruct wanted; simpl; [reflexivity | exact Hforced]. }
    rewrite Hguard. cbn [bind].
    replace (negb wanted && (negb wanted && forced))
      with (negb wanted && forced)
      by (destruct (negb wanted); reflexivity).
    assert (Hleft : Reaction.left_alone new_value c = negb wanted && forced).
    { unfold Reaction.left_alone. fold wanted.
      rewrite Esame, Hforced. now destruct forced. }
    destruct (negb wanted && forced) eqn:Eskip.
    { destruct (IH persisted tr) as (cs' & p' & tr' & Hrun & Hall & Hp).
      rewrite Hrun. cbn [bind]. exists (c :: cs'), p', tr'.
      split; [reflexivity|]. split.
      - constructor; [|exact Hall]. left. now split.
      - rewrite Hp. unfold Reaction.failed_enables.
        cbn [combine filter fst snd]. fold wanted.
        apply andb_true_iff in Eskip as [Hoff _].
        apply negb_true_iff in Hoff. now rewrite Hoff. }
    match goal with
    | |- context [ExtensionContainer.set_enabled c wanted ?t] =>
        pose proof (set_enabled_identity c wanted t) as Hid;
        assert (Hoffc :
                  wanted = false ->
                  fst (ExtensionContainer.set_enabled c wanted t)
                  = ExtensionContainer.with_enabled false c)
          by (intros Hw; rewrite Hw; apply set_enabled_false_container);
        assert (Hc1 : wanted = true -> exists t0,
                   fst (ExtensionContainer.set_enabled c wanted t)
                   = fst (ExtensionContainer.set_enabled c true t0))
          by (intros Hw; rewrite Hw; eexists; reflexivity);
        destruct (ExtensionContainer.set_enabled c wanted t) as [c1 tr1]
    end.
    cbn [fst] in Hid, Hoffc, Hc1. destruct Hid as (Hname & _ & _).
    apply Bool.eqb_false_iff in Esame.
    assert (Hhead :
      forall cs', Reaction.failed_enables new_value (c :: cs) (c1 :: cs')
                  = (if wanted && negb (ExtensionContainer.enabled c1)
                     then [ExtensionContainer.name c1] else [])
                    ++ Reaction.failed_enables new_value cs cs').
    { intros cs'. unfold Reaction.failed_enables.
      cbn [combine filter fst snd]. fold wanted.
      destruct wanted eqn:Ew; [|reflexivity].
      destruct (ExtensionContainer.enabled c); [now elim Esame|].
      cbn [negb andb].
      destruct (ExtensionContainer.enabled c1); cbn [negb map app];
        [reflexivity | now rewrite Hname]. }
    assert (Hout : Reaction.outcome new_value c c1).
    { destruct wanted eqn:Ew.
      - right. right. split; [exact Hleft|]. split; [exact Ew|].
        destruct (Hc1 eq_refl) as (t0 & Ht0). now exists t0.
      - right. left. split; [exact Hleft|]. split; [exact Ew|].
        now apply Hoffc. }
    destruct (wanted && negb (ExtensionContainer.enabled c1)) eqn:Efail.
    + match goal with
      | |- context [ExtensionManager.observe_containers cs new_value ?p ?t] =>
          destruct (IH p t) as (cs' & p' & tr' & Hrun & Hall & Hp)
      end.
      rewrite Hrun. cbn [bind]. exists (c1 :: cs'), p', tr'.
      split; [reflexivity|]. split; [now constructor|].
      rewrite Hp, Hhead. cbn [app]. now rewrite filter_failed_cons.
    + match goal with
      | |- context [ExtensionManager.observe_containers cs new_value ?p ?t] =>
          destruct (IH p t) as (cs' & p' & tr' & Hrun & Hall & Hp)
      end.
      rewrite Hrun. cbn [bind]. exists (c1 :: cs'), p', tr'.
      split; [reflexivity|]. split; [now constructor|].
      now rewrite Hp, Hhead.
Qed.

End ObserverExact.

(** A change of the enabled set removes from the persisted list exactly
    the names of the containers whose enabling it asked for and that are
    still disabled afterwards; every other name stays, in its place, and
    the manager's filenames are kept. *)
Theorem observer_removes_exactly_the_failed_names :
  forall (host : Host) (self : ExtensionManager.t)
         (old_value new_value : list string) (tr : Trace),
    exists self' tr',
      ExtensionManager._config_value_changed self "extensions.enabled"
        old_value new_value tr = Ok (self', tr')
      /\ ExtensionManager.enabled_extensions self'
         = filter
             (fun x =>
                negb (ExtensionManager.name_in x
                        (Reaction.failed_enables new_value
                           (ExtensionManager.containers self)
                           (ExtensionManager.containers self'))))
             (ExtensionManager.enabled_extensions self)
      /\ ExtensionManager.filenames self' = ExtensionManager.filenames self.
Proof.
  intros host self old_value new_value tr.
  unfold ExtensionManager._config_value_changed.
  rewrite String.eqb_refl. cbn [negb].
  destruct (observe_containers_exact (ExtensionManager.containers self)
              new_value (ExtensionManager.enabled_extensions self) tr)
    as (cs' & p' & tr' & Hrun & _ & Hp).
  rewrite Hrun. cbn [bind].
  exists (ExtensionManager.mk (ExtensionManager.filenames self) cs' p'), tr'.
  split; [reflexivity|]. split; [exact Hp | reflexivity].
Qed.

(** A change of the enabled set treats each container in one of three
    ways.  It is left untouched when its state already agrees with the new
    set, or when the new set leaves out a container that is mandatory for
    the current UI.  Otherwise, if the new set leaves it out, it comes out
    disabled with its module, error and metadata kept; and if the new set
    names it, it comes out as an enable attempt leaves it. *)
Theorem observer_container_outcomes :
  forall (host : Host) (self : ExtensionManager.t)
         (old_value new_value : list string) (tr : Trace),
    exists self' tr',
      ExtensionManager._config_value_changed self "extensions.enabled"
        old_value new_value tr = Ok (self', tr')
      /\ Forall2
           (fun c c' =>
              (Reaction.left_alone new_value c = true /\ c' = c)
              \/ (Reaction.left_alone new_value c = false
                  /\ ExtensionManager.name_in (ExtensionContainer.name c)
                       new_value = false
                  /\ c' = ExtensionContainer.with_enabled false c)
              \/ (Reaction.left_alone new_value c = false
                  /\ ExtensionManager.name_in (ExtensionContainer.name c)
                       new_value = true
                  /\ exists t,
                       c' = fst (ExtensionContainer.set_enabled c true t)))
           (ExtensionManager.containers self)
           (ExtensionManager.containers self').
Proof.
  intros host self old_value new_value tr.
  unfold ExtensionManager._config_value_changed.
  rewrite String.eqb_refl. cbn [negb].
  destruct (observe_containers_exact (ExtensionManager.containers self)
              new_value (ExtensionManager.enabled_extensions self) tr)
    as (cs' & p' & tr' & Hrun & Hall & _).
  rewrite Hrun. cbn [bind].
  exists (ExtensionManager.mk (ExtensionManager.filenames self) cs' p'), tr'.
  split; [reflexivity | exact Hall].
Qed.

Section ObserverNoChange.
Context `{host : Host}.

Lemma observe_containers_agreeing (cs : list ExtensionContainer.t)
  (new_value persisted : list string) (tr : Trace) :
  Forall (fun c => ExtensionManager.name_in (ExtensionContainer.name c)
                     new_value = ExtensionContainer.enabled c) cs ->
  ExtensionManager.observe_containers cs new_value persisted tr
  = Ok (cs, persisted, tr).
Proof.
  induction 1 as [|c cs Hc _ IH]; [reflexivity|].
  cbn [ExtensionManager.observe_containers].
  rewrite Hc, Bool.eqb_reflx, IH. reflexivity.
Qed.

End ObserverNoChange.

(** The observer does nothing - no container is touched, nothing is
    loaded or logged, the persisted list stays - when the changed key is
    not the enabled set, and also when every container's state already
    agrees with the new set. *)
Theorem observer_without_difference_does_nothing :
  forall (host : Host) (self : ExtensionManager.t) (name : string)
         (old_value new_value : list string) (tr : Trace),
    name <> "extensions.enabled"
    \/ Forall (fun c => ExtensionManager.name_in (ExtensionContainer.name c)
                          new_value = ExtensionContainer.enabled c)
         (ExtensionManager.containers self) ->
    ExtensionManager._config_value_changed self name old_value new_value tr
    = Ok (self, tr).
Proof.
  intros host self name old_value new_value tr Hcase.
  unfold ExtensionManager._config_value_changed.
  destruct (String.eqb_spec name "extensions.enabled") as [->|Hne];
    cbn [negb]; [|reflexivity].
  destruct Hcase as [Hne | Hagree]; [now elim Hne|].
  rewrite (observe_containers_agreeing _ _ _ _ Hagree). cbn [bind].
  now destruct self.
Qed.

(** The theorem at a manager whose only container is enabled and named
    by the new set. *)
Lemma observer_without_difference_witness :
  ExtensionManager._config_value_changed (host := Examples.desktop)
    (ExtensionManager.mk []
       [Examples.loaded "menu_a" "/ext/menu_a.py" Examples.menu_a]
       ["menu_a"])
    "extensions.enabled" [] ["menu_a"] []
  = Ok (ExtensionManager.mk []
          [Examples.loaded "menu_a" "/ext/menu_a.py" Examples.menu_a]
          ["menu_a"], []).
Proof.
  apply (observer_without_difference_does_nothing Examples.desktop).
  right. repeat constructor.
Defined.

(** The theorem at three extensions of which the second returns the last
    value that is not None. *)
Lemma dispatch_last_value_witness :
  fst (call_extensions "on_notification_show" docstring_only
         MoreExamples.notifiers [])
  = last (filter is_not_none
            (Documented.contributions "on_notification_show"
               (ExtensionManager.containers MoreExamples.notifiers))) PyNone.
Proof.
  apply (dispatch_last_value_wins "on_notification_show" docstring_only
           MoreExamples.notifiers []).
  repeat constructor.
Defined.

(* ================================================================= *)
(** ** ExtensionMetadata: [get_sorted] *)

Section GetSorted.

Lemma insert_by_key_perm (x : string * string) (l : list (string * string)) :
  Permutation (ExtensionMetadata.insert_by_key x l) (x :: l).
Proof.
  induction l as [|y l IH]; simpl; [reflexivity|].
  destruct (Nat.leb (ExtensionMetadata.kf x) (ExtensionMetadata.kf y));
    [reflexivity|].
  rewrite IH. apply perm_swap.
Qed.

Lemma insert_by_key_sorted (x : string * string)
  (l : list (string * string)) :
  StronglySorted
    (fun a b => ExtensionMetadata.kf a <= ExtensionMetadata.kf b) l ->
  StronglySorted
    (fun a b => ExtensionMetadata.kf a <= ExtensionMetadata.kf b)
    (ExtensionMetadata.insert_by_key x l).
Proof.
  induction 1 as [|y l Hsorted IH Hall]; simpl.
  - constructor; constructor.
  - destruct (Nat.leb_spec (ExtensionMetadata.kf x) (ExtensionMetadata.kf y))
      as [Hle | Hgt].
    + constructor; [now constructor|].
      constructor; [exact Hle|].
      eapply Forall_impl; [|exact Hall]. intros z Hyz. simpl in *. lia.
    + constructor; [exact IH|].
      apply (Permutation_Forall
               (Permutation_sym (insert_by_key_perm x l))).
      constructor; [lia | exact Hall].
Qed.

(** No sort key is below the one of the title, and only the title has
    it. *)
Lemma kf_title (x : string * string) :
  1 <= ExtensionMetadata.kf x
  /\ (ExtensionMetadata.kf x = 1 <-> fst x = "title").
Proof.
  unfold ExtensionMetadata.kf, PyDict.get_default, ExtensionMetadata.SORTKEYS.
  cbn [PyDict.get].
  destruct (String.eqb_spec (fst x) "title") as [->|Hne];
    [split; [lia | tauto]|].
  repeat match goal with
         | |- context [String.eqb (fst x) ?k] =>
             destruct (String.eqb (fst x) k)
         end; split; try lia; split; (lia || tauto).
Qed.

(** The sorted list starts with the first item that carries the title. *)
Lemma sorted_head_is_first_title (l : list (string * string))
  (x : string * string) :
  find (fun y => String.eqb (fst y) "title") l = Some x ->
  hd_error (fold_right ExtensionMetadata.insert_by_key [] l) = Some x.
Proof.
  revert x. induction l as [|y l IH]; intros x; [discriminate|].
  cbn [find fold_right].
  destruct (String.eqb_spec (fst y) "title") as [Hy | Hy].
  - intros [= <-].
    destruct (fold_right ExtensionMetadata.insert_by_key [] l) as [|h r];
      [reflexivity|].
    cbn [ExtensionMetadata.insert_by_key].
    apply (proj2 (kf_title y)) in Hy. rewrite Hy.
    destruct (kf_title h) as [Hh _].
    now destruct (Nat.leb_spec 1 (ExtensionMetadata.kf h)); [|lia].
  - intros Hfind. specialize (IH x Hfind).
    destruct (fold_right ExtensionMetadata.insert_by_key [] l) as [|h r];
      [discriminate|].
    injection IH as ->. cbn [ExtensionMetadata.insert_by_key].
    apply find_some in Hfind as [_ Hx]. apply String.eqb_eq in Hx.
    apply (proj2 (kf_title x)) in Hx. rewrite Hx.
    destruct (kf_title y) as [Hy1 Hy2].
    destruct (Nat.leb_spec (ExtensionMetadata.kf y) 1); [|reflexivity].
    elim Hy. apply Hy2. lia.
Qed.

Lemma find_key_get (k v : string) (d : PyDict.t string) :
  PyDict.get k d = Some v ->
  find (fun y => String.eqb (fst y) k) d = Some (k, v).
Proof.
  induction d as [|[k' v'] d IH]; simpl; [discriminate|].
  rewrite (String.eqb_sym k' k).
  destruct (String.eqb_spec k k') as [->|Hne]; [now intros [= ->] | exact IH].
Qed.

End GetSorted.

(** [get_sorted] returns the declared fields, each once, in the order of
    the display priorities: no field is lost or added, and a field never
    comes before one of smaller priority, so the fields the priority table
    does not list (priority 99) come after all listed ones. *)
Theorem get_sorted_is_a_sorted_permutation :
  forall (md : ExtensionMetadata.t),
    Permutation (ExtensionMetadata.get_sorted md) (ExtensionMetadata.dict md)
    /\ StronglySorted
         (fun a b => ExtensionMetadata.kf a <= ExtensionMetadata.kf b)
         (ExtensionMetadata.get_sorted md).
Proof.
  intros [d]. unfold ExtensionMetadata.get_sorted. simpl.
  induction d as [|x d [IHp IHs]]; simpl.
  - split; constructor.
  - split.
    + rewrite insert_by_key_perm. now constructor.
    + now apply insert_by_key_sorted.
Qed.

(** For every constructed metadata object, [get_sorted] starts with the
    title: the declared one, or the name of the container when the file
    declares none. *)
Theorem get_sorted_starts_with_the_title :
  forall (host : Host) (container_name : string)
         (metadata : PyDict.t string),
    hd_error (ExtensionMetadata.get_sorted
                (ExtensionMetadata.init container_name metadata))
    = Some ("title",
            Documented.title container_name (PyDict.get "title" metadata)).
Proof.
  intros host container_name metadata.
  unfold ExtensionMetadata.get_sorted.
  apply sorted_head_is_first_title, find_key_get, init_dict_title.
Qed.

(* ================================================================= *)
(** ** The metadata scan *)

Section ScanFacts.

Local Open Scope string_scope.

Lemma append_assoc (a b c : string) : (a ++ b) ++ c = a ++ b ++ c.
Proof. induction a as [|x a IH]; simpl; [reflexivity | now rewrite IH]. Qed.

Lemma append_nil_r (a : string) : a ++ "" = a.
Proof. induction a as [|x a IH]; simpl; [reflexivity | now rewrite IH]. Qed.

Lemma length_append (a b : string) :
  String.length (a ++ b) = String.length a + String.length b.
Proof. induction a as [|x a IH]; simpl; [reflexivity | now rewrite IH]. Qed.

Lemma all_chars_append (p : ascii -> bool) (a b : string) :
  PyStr.all_chars p (a ++ b) = PyStr.all_chars p a && PyStr.all_chars p b.
Proof.
  induction a as [|x a IH]; simpl; [reflexivity|].
  now rewrite IH, andb_assoc.
Qed.

Lemma span_sound (p : ascii -> bool) (s run rest : string) :
  PyStr.span p s = (run, rest) ->
  s = run ++ rest /\ PyStr.all_chars p run = true.
Proof.
  revert run rest. induction s as [|c s IH]; intros run rest; simpl.
  - intros [= <- <-]. now split.
  - destruct (p c) eqn:Hc.
    + destruct (PyStr.span p s) as [run' rest'].
      intros [= <- <-]. destruct (IH run' rest' eq_refl) as [-> Hall].
      simpl. now rewrite Hc, Hall.
    + intros [= <- <-]. now split.
Qed.

(** The span of a run that stops at a character outside the class. *)
Lemma span_complete (p : ascii -> bool) (run : string) (c : ascii)
  (rest : string) :
  PyStr.all_chars p run = true -> p c = false ->
  PyStr.span p (run ++ String c rest) = (run, String c rest).
Proof.
  intros Hall Hc. induction run as [|x run IH]; simpl.
  - now rewrite Hc.
  - simpl in Hall. apply andb_true_iff in Hall as [Hx Hrun].
    now rewrite Hx, (IH Hrun).
Qed.

Lemma strip_prefix_sound (p s rest : string) :
  PyStr.strip_prefix p s = Some rest -> s = p ++ rest.
Proof.
  revert s. induction p as [|a p IH]; intros [|b s]; simpl;
    try discriminate; try now intros [= ->].
  destruct (Ascii.eqb_spec a b) as [->|]; [|discriminate].
  intros Hs. now rewrite (IH s Hs).
Qed.

Lemma strip_prefix_complete (p rest : string) :
  PyStr.strip_prefix p (p ++ rest) = Some rest.
Proof.
  induction p as [|a p IH]; simpl; [reflexivity|].
  now rewrite Ascii.eqb_refl.
Qed.

Lemma strip_dunder_suffix_sound (s key : string) :
  PyStr.strip_dunder_suffix s = Some key -> s = key ++ "__".
Proof.
  revert key. induction s as [|c s IH]; intros key; [discriminate|].
  cbn [PyStr.strip_dunder_suffix].
  destruct (PyStr.strip_dunder_suffix s) as [k|].
  - intros [= <-]. simpl. now rewrite (IH k eq_refl).
  - destruct (String.eqb_spec (String c s) "__") as [Heq|]; [|discriminate].
    intros [= <-]. exact Heq.
Qed.

Lemma strip_dunder_suffix_complete (key : string) :
  PyStr.strip_dunder_suffix (key ++ "__") = Some key.
Proof.
  induction key as [|c key IH]; [reflexivity|].
  change (String c key ++ "__") with (String c (key ++ "__")).
  cbn [PyStr.strip_dunder_suffix]. now rewrite IH.
Qed.

(** A match reads as an assignment followed by the rest of the text. *)
Lemma match_here_sound (opener closer s key value rest : string) :
  Re.match_here opener closer s = Some (key, value, rest) ->
  s = Scan.assignment opener closer key value ++ rest
  /\ Scan.well_formed_key key = true
  /\ Scan.well_formed_value value = true.
Proof.
  unfold Re.match_here, Scan.assignment, Scan.well_formed_key,
    Scan.well_formed_value.
  destruct (PyStr.strip_prefix "__" s) as [s1|] eqn:H1; [|discriminate].
  destruct (PyStr.span Re.is_key_char s1) as [run s2] eqn:H2.
  destruct (PyStr.strip_dunder_suffix run) as [k|] eqn:H3; [|discriminate].
  destruct (PyStr.truthy k) eqn:Hk; [|discriminate]. cbn [negb].
  destruct (PyStr.strip_prefix (" = " ++ opener) s2) as [s3|] eqn:H4;
    [|discriminate].
  destruct (PyStr.span Re.is_value_char s3) as [v s4] eqn:H5.
  destruct (PyStr.truthy v) eqn:Hv; [|discriminate]. cbn [negb].
  destruct (PyStr.strip_prefix closer s4) as [r|] eqn:H6; [|discriminate].
  intros [= <- <- <-].
  apply strip_prefix_sound in H1, H4, H6.
  apply span_sound in H2 as [Hs1 Hrun], H5 as [Hs3 Hval].
  apply strip_dunder_suffix_sound in H3. subst.
  rewrite all_chars_append in Hrun. apply andb_true_iff in Hrun as [Hrun _].
  rewrite Hk, Hv, Hrun, Hval. repeat split.
  rewrite !append_assoc. reflexivity.
Qed.

(** An assignment at the start of the text is matched, with its two
    groups, provided the closer starts with the quote. *)
Lemma match_here_complete (opener closer' key value rest : string) :
  Scan.well_formed_key key = true ->
  Scan.well_formed_value value = true ->
  Re.match_here opener (String "'" closer')
    (Scan.assignment opener (String "'" closer') key value ++ rest)
  = Some (key, value, rest).
Proof.
  unfold Scan.well_formed_key, Scan.well_formed_value, Scan.assignment.
  intros Hkey Hvalue.
  apply andb_true_iff in Hkey as [Hk Hkchars].
  apply andb_true_iff in Hvalue as [Hv Hvchars].
  unfold Re.match_here.
  rewrite !append_assoc.
  rewrite (strip_prefix_complete "__").
  replace (key ++ "__ = " ++ opener ++ value ++ String "'" closer' ++ rest)
    with ((key ++ "__") ++ String " " ("= " ++ opener ++ value
                                        ++ String "'" closer' ++ rest))
    by (now rewrite append_assoc).
  rewrite span_complete;
    [| rewrite all_chars_append, Hkchars; reflexivity | reflexivity].
  rewrite strip_dunder_suffix_complete, Hk. cbn [negb].
  replace (String " " ("= " ++ opener ++ value ++ String "'" closer' ++ rest))
    with ((" = " ++ opener) ++ value ++ String "'" closer' ++ rest)
    by (now rewrite append_assoc).
  rewrite strip_prefix_complete.
  change (String "'" closer' ++ rest) with (String "'" (closer' ++ rest)).
  rewrite (span_complete Re.is_value_char value "'" (closer' ++ rest)
             Hvchars eq_refl).
  rewrite Hv. cbn [negb].
  change (String "'" (closer' ++ rest)) with (String "'" closer' ++ rest).
  now rewrite strip_prefix_complete.
Qed.

(** Passing over the characters of a match. *)
Lemma findall_skip (opener closer a rest : string) :
  Re.findall_from opener closer (String.length a) (a ++ rest)
  = Re.findall_from opener closer 0 rest.
Proof.
  induction a as [|x a IH]; simpl.
  - now destruct rest.
  - exact IH.
Qed.

(** Every pair of the scan is a well-formed key with a well-formed
    value. *)
Lemma findall_from_well_formed (opener closer : string) (s : string) :
  forall skip,
    Forall (fun kv => Scan.well_formed_key (fst kv) = true
                      /\ Scan.well_formed_value (snd kv) = true)
      (Re.findall_from opener closer skip s).
Proof.
  induction s as [|c s IH]; intros skip; [constructor|].
  cbn [Re.findall_from]. destruct skip as [|k]; [|apply IH].
  destruct (Re.match_here opener closer (String c s))
    as [[[key value] rest]|] eqn:Hm; [|apply IH].
  constructor; [|apply IH].
  apply match_here_sound in Hm. tauto.
Qed.

End ScanFacts.

Section ScanTheorems.

Local Open Scope string_scope.

(** Text without underscores holds no match and is passed over. *)
Lemma findall_no_underscore (opener closer pre s : string) :
  PyStr.mem "_" pre = false ->
  Re.findall_from opener closer 0 (pre ++ s)
  = Re.findall_from opener closer 0 s.
Proof.
  induction pre as [|c pre IH]; [reflexivity|].
  simpl. intros Hmem. apply orb_false_iff in Hmem as [Hc Hpre].
  unfold Re.match_here. cbn [PyStr.strip_prefix].
  rewrite (Ascii.eqb_sym "_" c), Hc. now apply IH.
Qed.

Lemma findall_at_assignment (opener closer' key value rest : string) :
  Scan.well_formed_key key = true ->
  Scan.well_formed_value value = true ->
  Re.findall_from opener (String "'" closer') 0
    (Scan.assignment opener (String "'" closer') key value ++ rest)
  = (key, value) :: Re.findall_from opener (String "'" closer') 0 rest.
Proof.
  intros Hkey Hvalue.
  pose proof (match_here_complete opener closer' key value rest Hkey Hvalue)
    as Hm.
  remember (Scan.assignment opener (String "'" closer') key value) as a
    eqn:Ha.
  destruct a as [|x a]; [discriminate Ha|].
  change (String x a ++ rest) with (String x (a ++ rest)) in *.
  cbn [Re.findall_from]. rewrite Hm. f_equal.
  rewrite length_append, Nat.add_sub. apply findall_skip.
Qed.

End ScanTheorems.

(** The scan finds an assignment that follows text free of underscores:
    the literal form [__key__ = 'value'] is found by the first pattern
    and the localized form [__key__ = _('value')] by the second, each
    with the key and the value as its pair, and the scan goes on with the
    text after the assignment. *)
Theorem scan_finds_an_assignment :
  forall (before key value rest : string),
    PyStr.mem "_" before = false ->
    Scan.well_formed_key key = true ->
    Scan.well_formed_value value = true ->
    Re.findall_literal
      (before ++ Scan.assignment "'" "'" key value ++ rest)%string
    = (key, value) :: Re.findall_literal rest
    /\ Re.findall_localized
         (before ++ Scan.assignment "_('" "')" key value ++ rest)%string
       = (key, value) :: Re.findall_localized rest.
Proof.
  intros before key value rest Hbefore Hkey Hvalue.
  unfold Re.findall_literal, Re.findall_localized.
  split; rewrite findall_no_underscore by exact Hbefore;
    now apply findall_at_assignment.
Qed.

(** The theorem at the line that restricts the cover-art extension to two
    user interfaces. *)
Lemma scan_finds_an_assignment_witness :
  Re.findall_literal
    ("# " ++ Scan.assignment "'" "'" "only_for" "gtk, cli" ++ "")%string
  = ("only_for", "gtk, cli") :: Re.findall_literal ""
  /\ Re.findall_localized
       ("# " ++ Scan.assignment "_('" "')" "only_for" "gtk, cli" ++ "")%string
     = ("only_for", "gtk, cli") :: Re.findall_localized "".
Proof.
  apply (scan_finds_an_assignment "# " "only_for" "gtk, cli" "");
    reflexivity.
Defined.

Section LoadMetadata.
Context `{host : Host} `{system : System}.

Lemma fold_set_get (g : string -> string) (pairs : list (string * string))
  (d : PyDict.t string) (key : string) :
  PyDict.get key
    (fold_left (fun d kv => PyDict.set (fst kv) (g (snd kv)) d) pairs d)
  = match Scan.last_assigned key pairs with
    | Some v => Some (g v)
    | None => PyDict.get key d
    end.
Proof.
  revert d. induction pairs as [|[k v] pairs IH]; intros d; [reflexivity|].
  cbn [fold_left Scan.last_assigned fst snd]. rewrite IH.
  destruct (Scan.last_assigned key pairs); [reflexivity|].
  rewrite dict_get_set. now destruct (String.eqb k key).
Qed.

Lemma fold_set_keys (g : string -> string) (pairs : list (string * string))
  (d : PyDict.t string) (key : string) :
  In key (PyDict.keys
            (fold_left (fun d kv => PyDict.set (fst kv) (g (snd kv)) d)
               pairs d))
  <-> In key (map fst pairs) \/ In key (PyDict.keys d).
Proof.
  revert d. induction pairs as [|[k v] pairs IH]; intros d.
  - simpl. tauto.
  - cbn [fold_left map fst snd]. rewrite IH, dict_set_keys. simpl.
    intuition congruence.
Qed.

Lemma fold_set_nodup (g : string -> string) (pairs : list (string * string))
  (d : PyDict.t string) :
  NoDup (PyDict.keys d) ->
  NoDup (PyDict.keys
           (fold_left (fun d kv => PyDict.set (fst kv) (g (snd kv)) d)
              pairs d)).
Proof.
  revert d. induction pairs as [|[k v] pairs IH]; intros d Hd; [exact Hd|].
  cbn [fold_left]. apply IH. now apply dict_set_nodup.
Qed.

Lemma last_assigned_dict (key : string) (d : PyDict.t string) :
  NoDup (PyDict.keys d) -> Scan.last_assigned key d = PyDict.get key d.
Proof.
  induction d as [|[k v] d IH]; [reflexivity|].
  intros Hnodup. inversion Hnodup as [|? ? Hnotin Hrest]; subst.
  cbn [Scan.last_assigned PyDict.get]. rewrite (IH Hrest).
  rewrite (String.eqb_sym key k).
  destruct (String.eqb_spec k key) as [->|Hne].
  - destruct (PyDict.get key d) eqn:Hget; [|reflexivity].
    elim Hnotin. apply dict_get_in in Hget.
    change key with (fst (key, s)). now apply in_map.
  - now destruct (PyDict.get key d).
Qed.

Lemma dict_of_get (pairs : list (string * string)) (key : string) :
  PyDict.get key (ExtensionContainer.dict_of pairs)
  = Scan.last_assigned key pairs.
Proof.
  unfold ExtensionContainer.dict_of.
  rewrite (fold_set_get (fun v => v)).
  now destruct (Scan.last_assigned key pairs).
Qed.

Lemma dict_of_nodup (pairs : list (string * string)) :
  NoDup (PyDict.keys (ExtensionContainer.dict_of pairs)).
Proof. apply (fold_set_nodup (fun v => v)). constructor. Qed.

End LoadMetadata.

(** What [_load_metadata] returns for a field: nothing for a missing
    file; otherwise the translation of the value of the last localized
    assignment to the field, and, when the file has no localized
    assignment to it, the value of its last literal assignment.  The
    localized form wins, and a later assignment replaces an earlier
    one. *)
Theorem load_metadata_prefers_the_localized_form :
  forall (host : Host) (system : System) (filename key : string),
    PyDict.get key (ExtensionContainer._load_metadata filename)
    = if negb (PyStr.truthy filename) || negb (path_exists filename)
      then None
      else
        match Scan.last_assigned key
                (Re.findall_localized (read_text filename)) with
        | Some v => Some (gettext v)
        | None =>
            Scan.last_assigned key (Re.findall_literal (read_text filename))
        end.
Proof.
  intros host system filename key.
  unfold ExtensionContainer._load_metadata.
  destruct (negb (PyStr.truthy filename) || negb (path_exists filename));
    [reflexivity|].
  unfold ExtensionContainer.merge_localized.
  rewrite (fold_set_get gettext).
  rewrite (last_assigned_dict key _ (dict_of_nodup _)).
  now rewrite !dict_of_get.
Qed.

(** The mapping [_load_metadata] returns is a dictionary whose keys are
    field names: no key occurs twice, and every key is made of one or
    more lowercase letters and underscores. *)
Theorem load_metadata_keys_are_field_names :
  forall (host : Host) (system : System) (filename : string),
    NoDup (PyDict.keys (ExtensionContainer._load_metadata filename))
    /\ Forall (fun key => Scan.well_formed_key key = true)
         (PyDict.keys (ExtensionContainer._load_metadata filename)).
Proof.
  intros host system filename.
  unfold ExtensionContainer._load_metadata.
  destruct (negb (PyStr.truthy filename) || negb (path_exists filename)).
  { split; constructor. }
  unfold ExtensionContainer.merge_localized. split.
  - apply fold_set_nodup, dict_of_nodup.
  - apply Forall_forall. intros key Hin.
    assert (Hpairs : forall opener closer text k,
               In k (map fst (Re.findall_from opener closer 0 text)) ->
               Scan.well_formed_key k = true).
    { intros opener closer text k Hk. apply in_map_iff in Hk.
      destruct Hk as (kv & <- & Hkv).
      pose proof (findall_from_well_formed opener closer text 0) as Hall.
      rewrite Forall_forall in Hall. now apply Hall. }
    assert (Hdict : forall pairs k,
               In k (PyDict.keys (ExtensionContainer.dict_of pairs)) ->
               In k (map fst pairs)).
    { intros pairs k Hk. unfold ExtensionContainer.dict_of in Hk.
      apply (fold_set_keys (fun v => v)) in Hk.
      destruct Hk as [Hk | []]. exact Hk. }
    apply (fold_set_keys gettext) in Hin. destruct Hin as [Hin | Hin].
    + apply (Hpairs "_('" "')" (read_text filename)).
      now apply Hdict.
    + apply (Hpairs "'" "'" (read_text filename)).
      now apply Hdict.
Qed.

(* ================================================================= *)
(** ** The command checks *)

Section Commands.
Context `{host : Host} `{system : System}.

Lemma first_found_some (command_list : list string) (path : string) :
  ExtensionContainer.first_found command_list = Some path
  <-> exists missing command rest,
        command_list = missing ++ command :: rest
        /\ Forall (fun c => find_command c = None) missing
        /\ find_command command = Some path.
Proof.
  induction command_list as [|c l IH]; simpl.
  - split; [discriminate|]. intros (missing & command & rest & Heq & _).
    now destruct missing.
  - destruct (find_command c) as [p|] eqn:Hc.
    + split.
      * intros [= ->]. exists [], c, l. repeat split; [constructor | exact Hc].
      * intros (missing & command & rest & Heq & Hmiss & Hfound).
        destruct missing as [|m missing]; simpl in Heq.
        -- injection Heq as -> ->. congruence.
        -- injection Heq as -> ->. inversion Hmiss; subst. congruence.
    + rewrite IH. split.
      * intros (missing & command & rest & -> & Hmiss & Hfound).
        exists (c :: missing), command, rest.
        repeat split; [now constructor | exact Hfound].
      * intros (missing & command & rest & Heq & Hmiss & Hfound).
        destruct missing as [|m missing]; simpl in Heq.
        -- injection Heq as -> ->. congruence.
        -- injection Heq as -> ->. inversion Hmiss; subst.
           now exists missing, command, rest.
Qed.

Lemma first_found_none (command_list : list string) :
  ExtensionContainer.first_found command_list = None
  <-> Forall (fun c => find_command c = None) command_list.
Proof.
  induction command_list as [|c l IH]; simpl.
  - split; [constructor | reflexivity].
  - destruct (find_command c) as [p|] eqn:Hc.
    + split; [discriminate|]. intros Hall. inversion Hall; congruence.
    + rewrite IH. split; [now constructor|].
      intros Hall. now inversion Hall.
Qed.

End Commands.

(** [require_any_command] returns the path of the first command of the
    list that is installed, the commands before it being missing; it
    raises exactly when none of the commands is installed - in particular
    for the empty list - and the error is then a MissingCommand whose
    dependency is the comma-joined list. *)
Theorem require_any_command_finds_the_first_installed :
  forall (host : Host) (system : System) (command_list : list string),
    (forall path,
        ExtensionContainer.require_any_command command_list = Ok path
        <-> exists missing command rest,
              command_list = missing ++ command :: rest
              /\ Forall (fun c => find_command c = None) missing
              /\ find_command command = Some path)
    /\ (forall e,
           ExtensionContainer.require_any_command command_list = Raise e
           <-> Forall (fun c => find_command c = None) command_list
               /\ e = MissingCommand
                        (PyStr.format1
                           (gettext
                              "Need at least one of the following commands: %(list_of_commands)s")
                           "list_of_commands"
                           (PyStr.join ", " command_list))
                        (PyStr.join ", " command_list) None).
Proof.
  intros host system command_list.
  unfold ExtensionContainer.require_any_command. split.
  - intros path. rewrite <- first_found_some.
    destruct (ExtensionContainer.first_found command_list);
      split; congruence.
  - intros e. rewrite <- first_found_none.
    destruct (ExtensionContainer.first_found command_list); split.
    + discriminate.
    + intros [Hnone _]. discriminate Hnone.
    + intros [= <-]. now split.
    + intros [_ ->]. reflexivity.
Qed.

(** [require_command] is [require_any_command] on the one-element list:
    both return the same path when the command is installed, and
    otherwise both raise a MissingCommand whose dependency is the name of
    the command. *)
Theorem require_command_is_the_one_command_case :
  forall (host : Host) (system : System) (command : string),
    match ExtensionContainer.require_command command,
          ExtensionContainer.require_any_command [command] with
    | Ok path, Ok path' => path = path' /\ find_command command = Some path
    | Raise e, Raise e' =>
        find_command command = None
        /\ is_MissingCommand e = true /\ is_MissingCommand e' = true
        /\ dependency_of e = Some command /\ dependency_of e' = Some command
    | _, _ => False
    end.
Proof.
  intros host system command.
  unfold ExtensionContainer.require_command,
    ExtensionContainer.require_any_command.
  cbn [ExtensionContainer.first_found].
  destruct (find_command command) as [path|]; [now split|].
  cbn. repeat split.
Qed.

(* ================================================================= *)
(** ** The construction of the manager *)

Section ManagerInit.
Context `{host : Host} `{system : System} `{files : Files}.

(** A property read raises exactly when the instance dictionary holds an
    entry for check_ui. *)
Lemma read_property_spec (property : ExtensionMetadata.t -> Result bool)
  (md : ExtensionMetadata.t) :
  ExtensionMetadata.read_property property md
  = if PyDict.contains "check_ui" (ExtensionMetadata.dict md)
    then Raise (OtherException "TypeError" "'str' object is not callable")
    else property md.
Proof.
  unfold ExtensionMetadata.read_property, ExtensionMetadata.getattr,
    PyDict.contains.
  change (ExtensionMetadata.is_property "check_ui") with false.
  cbn iota.
  now destruct (PyDict.get "check_ui" (ExtensionMetadata.dict md)).
Qed.

(** A container as created is disabled, without module and without
    error. *)
Lemma create_fresh (name filename : string) (created : ExtensionContainer.t) :
  ExtensionContainer.create name filename = Ok created ->
  ExtensionContainer.name created = name
  /\ ExtensionContainer.filename created = filename
  /\ ExtensionContainer.enabled created = false
  /\ ExtensionContainer.module created = None
  /\ ExtensionContainer.error created = None.
Proof.
  unfold ExtensionContainer.create.
  destruct (ExtensionContainer.read_metadata filename) as [scanned|e];
    [|discriminate].
  intros H. injection H as <-. now repeat split.
Qed.

(** One turn of the loop: it raises for a file with a failure, and
    otherwise builds the container the policy describes. *)
Lemma build_container_spec (enabled_extensions : list string)
  (name filename : string) (tr : Trace) :
  match Policy.failure (name, filename) with
  | Some exception =>
      ExtensionManager.build_container enabled_extensions name filename tr
      = Raise exception
  | None =>
      exists c tr',
        ExtensionManager.build_container enabled_extensions name filename tr
        = Ok (c, tr')
        /\ Policy.built enabled_extensions (name, filename) c
  end.
Proof.
  unfold ExtensionManager.build_container, Policy.failure.
  cbn [fst snd].
  set (t0 := tr ++ _).
  destruct (ExtensionContainer.create name filename) as [created|e]
    eqn:Hcreate; cbn [bind]; [|reflexivity].
  destruct (create_fresh _ _ _ Hcreate)
    as (Hcname & Hcfile & Hcen & Hcmod & Hcerr).
  pose proof (set_enabled_identity created true t0) as Hid.
  destruct (PyDict.contains "check_ui"
              (ExtensionMetadata.dict (ExtensionContainer.metadata created)))
    eqn:Hshadow.
  - (* the metadata names a field check_ui *)
    destruct (ExtensionManager.name_in name enabled_extensions).
    + cbn [bind].
      destruct (ExtensionContainer.set_enabled created true t0) as [c1 t1].
      cbn [fst] in Hid. destruct Hid as (_ & _ & Hmeta).
      now rewrite read_property_spec, Hmeta, Hshadow.
    + now rewrite read_property_spec, Hshadow.
  - unfold Policy.built, Policy.mandatory, Policy.ui_disabled.
    cbn [fst snd].
    destruct (mandatory_total (ExtensionContainer.metadata created))
      as (forced & Hforced).
    destruct (disable_total (ExtensionContainer.metadata created))
      as (off & Hoff).
    destruct (ExtensionManager.name_in name enabled_extensions) eqn:Hlisted.
    + cbn [bind].
      destruct (ExtensionContainer.set_enabled created true t0)
        as [c1 t1] eqn:Hattempt.
      cbn [fst] in Hid. destruct Hid as (Hname & Hfile & Hmeta).
      rewrite read_property_spec, Hmeta, Hshadow, Hoff. cbn [bind].
      destruct off.
      * pose proof (set_enabled_false_container c1 t1) as Hc2.
        pose proof (set_enabled_identity c1 false t1) as Hid2.
        destruct (ExtensionContainer.set_enabled c1 false t1)
          as [c2 t2] eqn:Hoffcall.
        cbn [fst] in Hc2, Hid2. destruct Hid2 as (Hname2 & Hfile2 & Hmeta2).
        exists c2, t2. split; [reflexivity|].
        exists created, t0. split; [exact Hcreate|].
        cbv zeta. rewrite Hattempt, Hoff. cbn [fst snd orb andb].
        rewrite Hoffcall. cbn [fst].
        rewrite Hname2, Hfile2, Hmeta2, Hname, Hfile, Hmeta.
        subst c2. cbn [ExtensionContainer.enabled
                       ExtensionContainer.with_enabled].
        repeat split; try assumption; try reflexivity; try discriminate.
      * exists c1, t1. split; [reflexivity|].
        exists created, t0. split; [exact Hcreate|].
        cbv zeta. rewrite Hattempt, Hoff. cbn [fst snd orb andb].
        rewrite Hname, Hfile, Hmeta.
        repeat split; try assumption; try reflexivity; try discriminate.
        now left.
    + rewrite read_property_spec, Hshadow, Hforced. cbn [bind].
      destruct forced.
      * destruct (ExtensionContainer.set_enabled created true t0)
          as [c1 t1] eqn:Hattempt.
        cbn [fst] in Hid. destruct Hid as (Hname & Hfile & Hmeta).
        cbn [bind]. exists c1, t1. split; [reflexivity|].
        exists created, t0. split; [exact Hcreate|].
        cbv zeta. rewrite Hattempt, Hforced. cbn [fst snd orb andb].
        rewrite Hname, Hfile, Hmeta.
        repeat split; try assumption; try reflexivity; try discriminate.
        now right.
      * cbn [bind]. exists created, t0. split; [reflexivity|].
        exists created, t0. split; [exact Hcreate|].
        cbv zeta. rewrite Hforced. cbn [fst snd orb andb].
        repeat split; try assumption; try reflexivity; try discriminate.
        all: exfalso; congruence.
Qed.

Lemma build_containers_spec (enabled_extensions : list string)
  (found : list (string * string)) :
  forall tr,
  match Policy.first_failure found with
  | Some exception =>
      ExtensionManager.build_containers enabled_extensions found tr
      = Raise exception
  | None =>
      exists cs tr',
        ExtensionManager.build_containers enabled_extensions found tr
        = Ok (cs, tr')
        /\ Forall2 (Policy.built enabled_extensions) found cs
  end.
Proof.
  induction found as [|[name filename] found IH]; intros tr.
  - exists [], tr. split; [reflexivity | constructor].
  - cbn [ExtensionManager.build_containers Policy.first_failure].
    pose proof (build_container_spec enabled_extensions name filename tr)
      as Hone.
    destruct (Policy.failure (name, filename)) as [e|].
    + now rewrite Hone.
    + destruct Hone as (c & t1 & Hrun & Hc).
      rewrite Hrun. cbn [bind].
      specialize (IH t1).
      destruct (Policy.first_failure found) as [e|].
      * now rewrite IH.
      * destruct IH as (cs & t2 & Hrun' & Hcs).
        rewrite Hrun'. cbn [bind].
        exists (c :: cs), t2. split; [reflexivity | now constructor].
Qed.

(** The names and filenames of built containers are the discovered
    ones. *)
Lemma built_names (enabled_extensions : list string)
  (found : list (string * string)) (cs : list ExtensionContainer.t) :
  Forall2 (Policy.built enabled_extensions) found cs ->
  map (fun c => (ExtensionContainer.name c, ExtensionContainer.filename c)) cs
  = found.
Proof.
  induction 1 as [|[n f] c found cs Hc _ IH]; [reflexivity|].
  cbn [map]. rewrite IH.
  destruct Hc as (created & t & _ & Hn & Hf & _).
  cbn [fst snd] in Hn, Hf. now rewrite Hn, Hf.
Qed.

End ManagerInit.

(** Constructing the manager: when it returns and when it raises.  With
    the kill switch set (GPODDER_DISABLE_EXTENSIONS not empty) it returns
    with no container and nothing loaded.  Otherwise it raises exactly
    when a discovered file cannot be read or names a metadata field
    check_ui, with the exception of the first such file in discovery
    order: the exception of reading, or the TypeError of the property
    read.  When it returns, the persisted enabled list is as it was, also
    when an enable attempt failed, and there is one container for each
    discovered (name, filename), in discovery order. *)
Theorem construction_follows_discovery :
  forall (host : Host) (system : System) (files : Files)
         (enabled_extensions : list string) (tr : Trace),
    let found :=
      fst (fst (ExtensionManager._find_extensions
                  (ExtensionManager.mk
                     (PyStr.split_whitespace
                        (ExtensionManager.environ_get "GPODDER_EXTENSIONS"))
                     [] enabled_extensions) tr)) in
    match ExtensionManager.__init__ enabled_extensions tr with
    | Ok (self, tr') =>
        ExtensionManager.enabled_extensions self = enabled_extensions
        /\ if String.eqb
                (ExtensionManager.environ_get "GPODDER_DISABLE_EXTENSIONS")
                ""
           then
             Policy.first_failure found = None
             /\ map (fun c => (ExtensionContainer.name c,
                               ExtensionContainer.filename c))
                    (ExtensionManager.containers self)
                = found
           else
             ExtensionManager.containers self = []
             /\ Traces.load_events tr' = Traces.load_events tr
    | Raise exception =>
        ExtensionManager.environ_get "GPODDER_DISABLE_EXTENSIONS" = ""
        /\ Policy.first_failure found = Some exception
    end.
Proof.
  intros host system files enabled_extensions tr found. subst found.
  unfold ExtensionManager.__init__.
  destruct (String.eqb
              (ExtensionManager.environ_get "GPODDER_DISABLE_EXTENSIONS") "")
    eqn:Hswitch.
  - cbn [negb]. apply String.eqb_eq in Hswitch.
    destruct (ExtensionManager._find_extensions
                (ExtensionManager.mk
                   (PyStr.split_whitespace
                      (ExtensionManager.environ_get "GPODDER_EXTENSIONS"))
                   [] enabled_extensions) tr) as [[found self] t1].
    cbn [fst].
    pose proof (build_containers_spec enabled_extensions found t1) as Hrun.
    destruct (Policy.first_failure found) as [e|].
    + rewrite Hrun. cbn [bind]. now split.
    + destruct Hrun as (cs & t2 & Hrun & Hcs).
      rewrite Hrun. cbn [bind].
      split; [reflexivity|]. split; [reflexivity|].
      cbn [ExtensionManager.containers].
      exact (built_names enabled_extensions found cs Hcs).
  - cbn [negb]. split; [reflexivity|]. split; [reflexivity|].
    rewrite load_events_app. cbn. now rewrite app_nil_r.
Qed.

(** The enable policy of the construction.  Without the kill switch, and
    when every discovered file can be read and none names a metadata field
    check_ui, the constructor returns, and for each discovered extension,
    with its metadata as scanned from the file: when its name is in the
    enabled list or its metadata makes it mandatory for the current UI,
    the container is what an enable attempt leaves of the container as
    created, disabled again when the name is in the enabled list and the
    metadata disables the extension for the current UI; otherwise the
    container is left as created - not loaded, not enabled.  So a
    container that ends enabled is in the enabled list or mandatory, and
    not both listed and disabled for the UI. *)
Theorem construction_enable_policy :
  forall (host : Host) (system : System) (files : Files)
         (enabled_extensions : list string) (tr : Trace),
    let found :=
      fst (fst (ExtensionManager._find_extensions
                  (ExtensionManager.mk
                     (PyStr.split_whitespace
                        (ExtensionManager.environ_get "GPODDER_EXTENSIONS"))
                     [] enabled_extensions) tr)) in
    ExtensionManager.environ_get "GPODDER_DISABLE_EXTENSIONS" = "" ->
    Policy.first_failure found = None ->
    exists self tr',
      ExtensionManager.__init__ enabled_extensions tr = Ok (self, tr')
      /\ Forall2 (Policy.built enabled_extensions) found
           (ExtensionManager.containers self).
Proof.
  intros host system files enabled_extensions tr found Hswitch Hclean.
  subst found.
  unfold ExtensionManager.__init__. rewrite Hswitch. cbn [String.eqb negb].
  destruct (ExtensionManager._find_extensions
              (ExtensionManager.mk
                 (PyStr.split_whitespace
                    (ExtensionManager.environ_get "GPODDER_EXTENSIONS"))
                 [] enabled_extensions) tr) as [[found self] t1].
  cbn [fst] in Hclean |- *.
  pose proof (build_containers_spec enabled_extensions found t1) as Hrun.
  rewrite Hclean in Hrun.
  destruct Hrun as (cs & t2 & Hrun & Hcs).
  rewrite Hrun. cbn [bind].
  eexists. eexists. split; [reflexivity | exact Hcs].
Qed.

(** The theorem at a desktop session whose enabled list names foo, the
    extension found in both directories, with every file readable. *)
Lemma construction_enable_policy_witness :
  exists self tr',
    ExtensionManager.__init__ (host := Examples.desktop)
      (system := MoreExamples.plain_system)
      (files := MoreExamples.readable_files) ["foo"] [] = Ok (self, tr')
    /\ Forall2
         (Policy.built (host := Examples.desktop)
            (system := MoreExamples.plain_system)
            (files := MoreExamples.readable_files) ["foo"])
         (fst (fst (ExtensionManager._find_extensions
                      (host := Examples.desktop)
                      (ExtensionManager.mk
                         (PyStr.split_whitespace
                            (ExtensionManager.environ_get
                               (system := MoreExamples.plain_system)
                               "GPODDER_EXTENSIONS"))
                         [] ["foo"]) [])))
         (ExtensionManager.containers self).
Proof.
  exact (construction_enable_policy Examples.desktop
           MoreExamples.plain_system MoreExamples.readable_files
           ["foo"] [] eq_refl eq_refl).
Defined.

(** The constructor at a file that may not be read: the exception of
    reading leaves it. *)
Example construction_raises_for_an_unreadable_file :
  ExtensionManager.__init__ (host := Examples.desktop)
    (system := MoreExamples.plain_system)
    (files := MoreExamples.unreadable_files) ["foo"] []
  = Raise (OtherException "PermissionError"
             "/home/u/gPodder/Extensions/10_foo.py").
Proof. reflexivity. Qed.

(** The constructor at a file that names a metadata field check_ui: the
    property read raises, whether the extension is in the enabled list or
    not. *)
Example construction_raises_for_a_field_named_check_ui :
  ExtensionManager.__init__ (host := Examples.desktop)
    (system := MoreExamples.shadowing_system)
    (files := MoreExamples.readable_files) ["foo"] []
  = Raise (OtherException "TypeError" "'str' object is not callable")
  /\ ExtensionManager.__init__ (host := Examples.desktop)
       (system := MoreExamples.shadowing_system)
       (files := MoreExamples.readable_files) [] []
     = Raise (OtherException "TypeError" "'str' object is not callable").
Proof. split; reflexivity. Qed.

(* ================================================================= *)
(** ** The listing of extensions *)

Section GetExtensions.
Context `{host : Host}.

Lemma user_toggleable_spec (c : ExtensionContainer.t) :
  ExtensionManager.user_toggleable c = Ok (Listing.toggleable c).
Proof.
  unfold ExtensionManager.user_toggleable, Listing.toggleable.
  destruct (available_total (ExtensionContainer.metadata c)) as (a & ->).
  destruct (mandatory_total (ExtensionContainer.metadata c)) as (m & ->).
  destruct (disable_total (ExtensionContainer.metadata c)) as (d & ->).
  now destruct a, m, d.
Qed.

Lemma select_toggleable_spec (cs : list ExtensionContainer.t) :
  ExtensionManager.select_toggleable cs = Ok (filter Listing.toggleable cs).
Proof.
  induction cs as [|c cs IH]; [reflexivity|].
  cbn [ExtensionManager.select_toggleable filter].
  now rewrite user_toggleable_spec, IH.
Qed.

End GetExtensions.

(** [get_extensions] never raises and lists, in container order, exactly
    the containers that are available for the current UI, not mandatory
    in it and not disabled in it.  The listing does not depend on which
    extensions are enabled: after a shutdown the same containers are
    listed, each disabled. *)
Theorem listing_is_independent_of_the_enabled_state :
  forall (host : Host) (self : ExtensionManager.t) (tr : Trace),
    ExtensionManager.get_extensions self
    = Ok (filter Listing.toggleable (ExtensionManager.containers self))
    /\ ExtensionManager.get_extensions
         (fst (ExtensionManager.shutdown self tr))
       = Ok (map (ExtensionContainer.with_enabled false)
               (filter Listing.toggleable
                  (ExtensionManager.containers self))).
Proof.
  intros host self tr. unfold ExtensionManager.get_extensions.
  rewrite !select_toggleable_spec. split; [reflexivity|].
  destruct (shutdown_effect host self tr) as (-> & _).
  f_equal.
  induction (ExtensionManager.containers self) as [|c cs IH];
    [reflexivity|].
  cbn [map filter].
  change (Listing.toggleable (ExtensionContainer.with_enabled false c))
    with (Listing.toggleable c).
  destruct (Listing.toggleable c); cbn [map]; now rewrite IH.
Qed.

(* ================================================================= *)
(** ** The cover-art extension: names and types *)

Section CoverArtText.

Local Open Scope string_scope.

(** Capitals of the letters of the three allowed types. *)
Lemma upper_of_lowered_char (c : ascii) :
  (PyStr.lower_char c = "j"%char -> PyStr.upper_char c = Some "J"%char)
  /\ (PyStr.lower_char c = "p"%char -> PyStr.upper_char c = Some "P"%char)
  /\ (PyStr.lower_char c = "e"%char -> PyStr.upper_char c = Some "E"%char)
  /\ (PyStr.lower_char c = "g"%char -> PyStr.upper_char c = Some "G"%char)
  /\ (PyStr.lower_char c = "n"%char -> PyStr.upper_char c = Some "N"%char).
Proof.
  destruct c as [[] [] [] [] [] [] [] []];
    repeat split; vm_compute; intros H; (reflexivity || discriminate H).
Qed.

Lemma upper_of_lowered (s : string) :
  (PyStr.lower s = "jpeg" -> PyStr.upper s = Some "JPEG")
  /\ (PyStr.lower s = "jpg" -> PyStr.upper s = Some "JPG")
  /\ (PyStr.lower s = "png" -> PyStr.upper s = Some "PNG").
Proof.
  repeat split; intros H;
    destruct s as [|c1 [|c2 [|c3 [|c4 [|c5 s]]]]]; try discriminate H;
    cbn [PyStr.lower] in H; injection H as H1 H2 H3 H4 || injection H as H1 H2 H3;
    cbn [PyStr.upper].
  - apply (upper_of_lowered_char c1) in H1. apply (upper_of_lowered_char c2) in H2.
    apply (upper_of_lowered_char c3) in H3. apply (upper_of_lowered_char c4) in H4.
    now rewrite H1, H2, H3, H4.
  - apply (upper_of_lowered_char c1) in H1. apply (upper_of_lowered_char c2) in H2.
    apply (upper_of_lowered_char c3) in H3.
    now rewrite H1, H2, H3.
  - apply (upper_of_lowered_char c1) in H1. apply (upper_of_lowered_char c2) in H2.
    apply (upper_of_lowered_char c3) in H3.
    now rewrite H1, H2, H3.
Qed.

Lemma lstrip_chars_head (chars s : string) :
  match PyStr.lstrip_chars chars s with
  | String c _ => PyStr.mem c chars = false
  | EmptyString => True
  end.
Proof.
  induction s as [|c s IH]; simpl; [exact I|].
  destruct (PyStr.mem c chars) eqn:E; [exact IH | exact E].
Qed.

Lemma rstrip_chars_keeps_head (chars : string) (c : ascii) (r : string) :
  PyStr.mem c chars = false ->
  exists r', PyStr.rstrip_chars chars (String c r) = String c r'.
Proof.
  intros E. simpl. destruct (PyStr.rstrip_chars chars r) as [|d r'].
  - rewrite E. now exists EmptyString.
  - now exists (String d r').
Qed.

Lemma rstrip_chars_end (chars s : string) :
  PyStr.rstrip_chars chars s = EmptyString
  \/ exists t c, PyStr.rstrip_chars chars s = t ++ String c EmptyString
                 /\ PyStr.mem c chars = false.
Proof.
  induction s as [|c s IH]; simpl; [now left|].
  destruct (PyStr.rstrip_chars chars s) as [|d r'] eqn:Er.
  - destruct (PyStr.mem c chars) eqn:E; [now left|].
    right. exists EmptyString, c. now split.
  - right. destruct IH as [Hnil | (t & e & Ht & He)]; [discriminate|].
    exists (String c t), e. split; [simpl; now rewrite Ht | exact He].
Qed.

Lemma rstrip_chars_all (chars tail : string) :
  PyStr.all_chars (fun c => PyStr.mem c chars) tail = true ->
  PyStr.rstrip_chars chars tail = EmptyString.
Proof.
  induction tail as [|c tail IH]; simpl; [reflexivity|].
  intros Hall. apply andb_true_iff in Hall as [Hc Htail].
  now rewrite (IH Htail), Hc.
Qed.

Lemma rstrip_chars_tail (chars init : string) (z : ascii) (tail : string) :
  PyStr.mem z chars = false ->
  PyStr.all_chars (fun c => PyStr.mem c chars) tail = true ->
  PyStr.rstrip_chars chars (init ++ String z tail)
  = init ++ String z EmptyString.
Proof.
  intros Hz Htail. induction init as [|x init IH]; simpl.
  - now rewrite (rstrip_chars_all chars tail Htail), Hz.
  - rewrite IH. now destruct init.
Qed.

Lemma all_chars_weaken (p q : ascii -> bool) (s : string) :
  (forall c, p c = true -> q c = true) ->
  PyStr.all_chars p s = true -> PyStr.all_chars q s = true.
Proof.
  intros Hpq. induction s as [|c s IH]; simpl; [reflexivity|].
  intros Hall. apply andb_true_iff in Hall as [Hc Hs].
  now rewrite (Hpq c Hc), (IH Hs).
Qed.

(** Every character of a text occurs in it. *)
Lemma all_chars_occur (s : string) :
  PyStr.all_chars (fun c => PyStr.mem c s) s = true.
Proof.
  induction s as [|x s IH]; simpl; [reflexivity|].
  rewrite Ascii.eqb_refl. simpl.
  apply (all_chars_weaken (fun c => PyStr.mem c s)); [|exact IH].
  intros c Hc. rewrite Hc. apply orb_true_r.
Qed.

Lemma split_without_separator (sep : ascii) (s : string) :
  PyStr.mem sep s = false -> PyStr.split sep s = [s].
Proof.
  induction s as [|c s IH]; simpl; [reflexivity|].
  intros Hmem. apply orb_false_iff in Hmem as [Hc Hs].
  now rewrite Hc, (IH Hs).
Qed.

(** The last piece of a split is what follows the last separator. *)
Lemma last_of_split (sep : ascii) (s : string) :
  last (PyStr.split sep s) EmptyString = PyStr.after_last sep s.
Proof.
  induction s as [|c s IH]; [reflexivity|].
  cbn [PyStr.split PyStr.after_last].
  destruct (PyStr.mem sep s) eqn:Hmem.
  - destruct (PyStr.split sep s) as [|p ps] eqn:Hsplit.
    { now apply split_not_nil in Hsplit. }
    destruct ps as [|q qs].
    { pose proof (split_pieces_free sep s) as Hfree.
      pose proof (join_split sep s) as Hjoin.
      rewrite Hsplit in Hfree, Hjoin. simpl in Hjoin. subst p.
      inversion Hfree; congruence. }
    destruct (Ascii.eqb c sep); cbn [last] in *; exact IH.
  - rewrite (split_without_separator sep s Hmem).
    rewrite (after_last_absent sep s Hmem) in IH.
    now destruct (Ascii.eqb c sep).
Qed.

End CoverArtText.

(** Whatever name is configured for the art on the device, the file type
    the extension works with is one of jpeg, jpg and png in some case of
    letters, and the type it compares image formats with is "JPEG" or
    "PNG" - "PNG" exactly for the type png. *)
Theorem cover_art_type_is_normalised :
  forall (config : RockboxCoverart.Config),
    let lowered := PyStr.lower (RockboxCoverart.device_filetype config) in
    (lowered = "jpeg" \/ lowered = "jpg" \/ lowered = "png")
    /\ (RockboxCoverart.device_match_filetype config = Some "JPEG"
        \/ RockboxCoverart.device_match_filetype config = Some "PNG")
    /\ (RockboxCoverart.device_match_filetype config = Some "PNG"
        <-> lowered = "png").
Proof.
  intros config lowered. subst lowered.
  unfold RockboxCoverart.device_match_filetype,
    RockboxCoverart.device_filetype.
  set (raw := RockboxCoverart.raw_filetype config).
  destruct (upper_of_lowered raw) as (Hjpeg & Hjpg & Hpng).
  destruct (String.eqb_spec (PyStr.lower raw) "jpeg") as [E1|N1].
  { cbn [negb andb]. rewrite (Hjpeg E1). cbn. rewrite E1.
    repeat split; auto; discriminate. }
  destruct (String.eqb_spec (PyStr.lower raw) "jpg") as [E2|N2].
  { cbn [negb andb]. rewrite (Hjpg E2). cbn. rewrite E2.
    repeat split; auto; discriminate. }
  destruct (String.eqb_spec (PyStr.lower raw) "png") as [E3|N3].
  { cbn [negb andb]. rewrite (Hpng E3). cbn. rewrite E3.
    repeat split; auto. }
  cbn. repeat split; auto; discriminate.
Qed.

(** The name the extension builds for the device file neither starts nor
    ends with a dot or with a character of the configured file type:
    [strip] removes such characters, not the suffix, from both ends of
    the configured name. *)
Theorem cover_art_name_loses_the_characters_of_its_type :
  forall (config : RockboxCoverart.Config),
    let chars := ("." ++ RockboxCoverart.raw_filetype config)%string in
    match RockboxCoverart.device_filename config with
    | EmptyString => True
    | String c _ => PyStr.mem c chars = false
    end
    /\ (RockboxCoverart.device_filename config = EmptyString
        \/ exists t c,
             RockboxCoverart.device_filename config
             = (t ++ String c EmptyString)%string
             /\ PyStr.mem c chars = false).
Proof.
  intros config chars. unfold RockboxCoverart.device_filename.
  fold chars. unfold PyStr.strip_chars. split.
  - pose proof (lstrip_chars_head chars
                  (RockboxCoverart.art_name_on_device config)) as Hhead.
    destruct (PyStr.lstrip_chars chars
                (RockboxCoverart.art_name_on_device config)) as [|c r];
      [exact I|].
    destruct (rstrip_chars_keeps_head chars c r Hhead) as (r' & ->).
    exact Hhead.
  - apply rstrip_chars_end.
Qed.

(** A configured name of the form stem.ext is taken apart and put back
    together unchanged, provided the extension has no dot and the stem
    neither starts nor ends with a dot or a character of the extension:
    the type is the extension, the name is the stem, and for an allowed
    type (jpeg, jpg, png in any case) the file written on the device
    carries the configured name. *)
Theorem cover_art_name_round_trip :
  forall (config : RockboxCoverart.Config) (first last_char : ascii)
         (rest init ext : string),
    String first rest = (init ++ String last_char EmptyString)%string ->
    RockboxCoverart.art_name_on_device config
      = (String first rest ++ "." ++ ext)%string ->
    PyStr.mem "." ext = false ->
    PyStr.mem first ("." ++ ext) = false ->
    PyStr.mem last_char ("." ++ ext) = false ->
    RockboxCoverart.raw_filetype config = ext
    /\ RockboxCoverart.device_filename config = String first rest
    /\ (PyStr.lower ext = "jpeg" \/ PyStr.lower ext = "jpg"
        \/ PyStr.lower ext = "png" ->
        RockboxCoverart.device_art_name config
        = RockboxCoverart.art_name_on_device config).
Proof.
  intros config first last_char rest init ext Hstem Hname Hdot Hfirst Hlast.
  assert (Hraw : RockboxCoverart.raw_filetype config = ext).
  { unfold RockboxCoverart.raw_filetype. rewrite last_of_split, Hname.
    now apply after_last_append. }
  assert (Hfile : RockboxCoverart.device_filename config = String first rest).
  { unfold RockboxCoverart.device_filename, PyStr.strip_chars.
    rewrite Hraw, Hname.
    change (String first rest ++ "." ++ ext)%string
      with (String first (rest ++ "." ++ ext))%string.
    cbn [PyStr.lstrip_chars]. rewrite Hfirst.
    change (String first (rest ++ "." ++ ext))%string
      with (String first rest ++ String "." ext)%string.
    rewrite Hstem, append_assoc.
    change (String last_char "" ++ String "." ext)%string
      with (String last_char (String "." ext)).
    apply rstrip_chars_tail; [exact Hlast|].
    change (String "." ext) with ("." ++ ext)%string.
    apply all_chars_occur. }
  repeat split; try assumption.
  intros Hallowed.
  unfold RockboxCoverart.device_art_name, RockboxCoverart.device_filetype.
  rewrite Hfile, Hraw, Hname.
  destruct Hallowed as [-> | [-> | ->]]; reflexivity.
Qed.

(** The theorem at the default name, cover.jpg. *)
Lemma cover_art_name_round_trip_witness :
  RockboxCoverart.raw_filetype RockboxCoverart.DefaultConfig = "jpg"
  /\ RockboxCoverart.device_filename RockboxCoverart.DefaultConfig = "cover"
  /\ (PyStr.lower "jpg" = "jpeg" \/ PyStr.lower "jpg" = "jpg"
      \/ PyStr.lower "jpg" = "png" ->
      RockboxCoverart.device_art_name RockboxCoverart.DefaultConfig
      = RockboxCoverart.art_name_on_device RockboxCoverart.DefaultConfig).
Proof.
  exact (cover_art_name_round_trip RockboxCoverart.DefaultConfig
           "c" "r" "over" "cove" "jpg" eq_refl eq_refl eq_refl eq_refl
           eq_refl).
Defined.

(** With [convert_and_resize_art] set, the image the extension writes is
    never higher than the configured size, and has exactly that height
    when upscaling is allowed; without it the source is copied at its own
    height, whatever the configured size.  In both cases the file is not
    written again on the next synchronisation: with conversion, a
    readable device file of the written height, whose format is the wanted
    type and that is not progressive, leaves the copy flag unset; without
    conversion any existing device file stops the copy. *)
Theorem written_cover_is_not_written_again :
  forall (config : RockboxCoverart.Config) (source_height : Z)
         (fmt wanted : string) (prog : option Z)
         (found : RockboxCoverart.Situation),
    PyStr.upper fmt = Some wanted ->
    RockboxCoverart.device_match_filetype config = Some wanted ->
    prog <> Some 1%Z ->
    RockboxCoverart.existing found
      = RockboxCoverart.Readable
          (RockboxCoverart.mkImage
             (RockboxCoverart.written_height config source_height)
             fmt prog) ->
    (if RockboxCoverart.convert_and_resize_art config then
       (RockboxCoverart.written_height config source_height
        <= RockboxCoverart.convert_size config)%Z
       /\ (RockboxCoverart.convert_allow_upscale_art config = true ->
           RockboxCoverart.written_height config source_height
           = RockboxCoverart.convert_size config)
     else
       RockboxCoverart.written_height config source_height = source_height
       /\ forall other : RockboxCoverart.Situation,
            RockboxCoverart.existing other <> RockboxCoverart.NoFile ->
            RockboxCoverart.writes_device_art config other = false)
    /\ RockboxCoverart.writes_device_art config found = false.
Proof.
  intros config source_height fmt wanted prog found Hfmt Hwanted Hprog Hfound.
  unfold RockboxCoverart.writes_device_art. rewrite Hfound.
  unfold RockboxCoverart.check_existing, RockboxCoverart.written_height.
  destruct (RockboxCoverart.convert_and_resize_art config).
  - cbn [RockboxCoverart.height RockboxCoverart.format
         RockboxCoverart.progressive].
    rewrite Hfmt, Hwanted, String.eqb_refl.
    assert (Hflag : match prog with Some 1%Z => true | _ => false end = false).
    { destruct prog as [[|[]|]|]; try reflexivity. now elim Hprog. }
    destruct (RockboxCoverart.convert_allow_upscale_art config).
    + rewrite orb_true_r, Z.eqb_refl. cbn [negb andb].
      rewrite andb_false_r. cbn [negb].
      split; [split; [lia | reflexivity]|].
      rewrite Hflag.
      now destruct (RockboxCoverart.source_is_file found),
        (RockboxCoverart.lock_acquired found).
    + rewrite orb_false_r.
      destruct (Z.gtb_spec source_height
                  (RockboxCoverart.convert_size config)) as [Hgt | Hle].
      * rewrite Z.eqb_refl. cbn [negb andb].
        rewrite Z.gtb_ltb, Z.ltb_irrefl. cbn [andb negb].
        split; [split; [lia | discriminate]|].
        rewrite Hflag.
        now destruct (RockboxCoverart.source_is_file found),
          (RockboxCoverart.lock_acquired found).
      * rewrite !andb_false_r.
        destruct (Z.gtb_spec source_height
                    (RockboxCoverart.convert_size config)) as [Hgt | _];
          [lia|]. cbn [andb negb].
        split; [split; [lia | discriminate]|].
        rewrite Hflag.
        now destruct (RockboxCoverart.source_is_file found),
          (RockboxCoverart.lock_acquired found).
  - split; [split; [reflexivity|]|].
    + intros other Hother.
      destruct (RockboxCoverart.existing other);
        [now elim Hother | apply andb_false_r | apply andb_false_r].
    + apply andb_false_r.
Qed.

(** The theorem at the default configuration, which converts, and a source
    image of 1400 pixels written as a baseline JPEG: at the next
    synchronisation, with the source in place and the lock taken, nothing
    is written. *)
Lemma written_cover_witness :
  ((RockboxCoverart.written_height RockboxCoverart.DefaultConfig 1400
    <= RockboxCoverart.convert_size RockboxCoverart.DefaultConfig)%Z
   /\ (RockboxCoverart.convert_allow_upscale_art
         RockboxCoverart.DefaultConfig = true ->
       RockboxCoverart.written_height RockboxCoverart.DefaultConfig 1400
       = RockboxCoverart.convert_size RockboxCoverart.DefaultConfig))
  /\ RockboxCoverart.writes_device_art RockboxCoverart.DefaultConfig
       (RockboxCoverart.mkSituation true true
          (RockboxCoverart.Readable
             (RockboxCoverart.mkImage 500 "JPEG" None)))
     = false.
Proof.
  apply (written_cover_is_not_written_again RockboxCoverart.DefaultConfig
           1400 "JPEG" "JPEG" None
           (RockboxCoverart.mkSituation true true
              (RockboxCoverart.Readable
                 (RockboxCoverart.mkImage 500 "JPEG" None)))).
  - reflexivity.
  - reflexivity.
  - discriminate.
  - reflexivity.
Defined.
